(** * picframe: the image cache (src/picframe/image_cache.py)

    A shallow embedding of [ImageCache]: the SQLite schema with its view and
    its two delete triggers, the SQL statements the class issues, and the
    methods [update_cache], [query_cache] and [get_file_info].

    Conventions.
    - Python floats (modification times, GPS coordinates, REAL columns) are
      the rationals they denote, so comparisons are exact; [round] yields the
      decimal value whose nearest double Python returns, and a text stored in
      a numeric column is read as the decimal it spells.
    - A SELECT returns the rows that tie under its ORDER BY in the order in
      which its plan meets them; the plan is a parameter of each statement.
    - A table is the list of its rows in insertion order.  PRIMARY KEY and
      UNIQUE are not built into the types: every statement is written over
      all the rows it matches, and the conflict clauses (OR IGNORE, OR
      REPLACE) are spelled out.
    - Row ids are unbounded integers (SQLite switches to random ids only when
      the largest 64-bit id is in use).
    - The filesystem, the metadata extractor ([picframe.get_image_meta]) and
      the reverse geocoder are external collaborators: they are inputs,
      gathered in the record [env]. *)

From Stdlib Require Import List ZArith QArith Qround Qabs String Ascii Bool Lia Lqa Sorted
  Permutation DecimalString.
Import ListNotations.

Local Open Scope Z_scope.

(** ** Python builtins and [os.path] helpers used by the cache *)

Module Py.

(** [int(x)] on a float: truncation toward zero. *)
Definition int (x : Q) : Z :=
  if Qle_bool 0 x then Qfloor x else Qceiling x.

(** Nearest integer, ties to the even neighbour. *)
Definition round_half_even (x : Q) : Z :=
  let f := Qfloor x in
  match Qcompare (x - inject_Z f) (1 # 2) with
  | Lt => f
  | Gt => f + 1
  | Eq => if Z.even f then f else f + 1
  end.

(** [round(x, ndigits)] for a float [x] and [ndigits >= 0]. *)
Definition round (x : Q) (ndigits : nat) : Q :=
  let p := Z.pow 10 (Z.of_nat ndigits) in
  Qmake (round_half_even (x * inject_Z p)) (Z.to_pos p).

(** [s.lower()] (on the ASCII letters, the only ones that can end up in
    [ImageCache.EXTENSIONS]). *)
Definition lower_ascii (c : ascii) : ascii :=
  let n := nat_of_ascii c in
  if andb (Nat.leb 65 n) (Nat.leb n 90) then ascii_of_nat (n + 32) else c.

Fixpoint lower (s : string) : string :=
  match s with
  | EmptyString => EmptyString
  | String c r => String (lower_ascii c) (lower r)
  end.

(** [s.startswith(p)] *)
Definition startswith (s p : string) : bool := String.prefix p s.

(** [p in s] for strings. *)
Fixpoint contains (s p : string) : bool :=
  if String.prefix p s then true
  else match s with
       | EmptyString => false
       | String _ r => contains r p
       end.

(** [s.lstrip(".")] *)
Fixpoint lstrip_dot (s : string) : string :=
  match s with
  | String "."%char r => lstrip_dot r
  | _ => s
  end.

Fixpoint endswith_slash (s : string) : bool :=
  match s with
  | EmptyString => false
  | String c EmptyString => Ascii.eqb c "/"%char
  | String _ r => endswith_slash r
  end.

(** [os.path.join(a, b)] (posixpath). *)
Definition path_join (a b : string) : string :=
  if startswith b "/" then b
  else if orb (String.eqb a "") (endswith_slash a) then (a ++ b)%string
  else (a ++ "/" ++ b)%string.

(** Index of the last occurrence of [c] in [s], counted from [i]. *)
Fixpoint rfind_from (c : ascii) (s : string) (i : nat) : option nat :=
  match s with
  | EmptyString => None
  | String a r =>
      match rfind_from c r (S i) with
      | Some j => Some j
      | None => if Ascii.eqb a c then Some i else None
      end
  end.

(** Is there a character other than "." among the first [n] of [s]? *)
Fixpoint has_non_dot (s : string) (n : nat) : bool :=
  match n, s with
  | O, _ => false
  | S _, EmptyString => false
  | S m, String a r => if Ascii.eqb a "."%char then has_non_dot r m else true
  end.

(** [os.path.splitext(p)] for a directory entry [p] (genericpath._splitext,
    with the name starting after the last "/"): the extension starts at the
    last dot, unless only dots come before it. *)
Definition splitext (p : string) : string * string :=
  let start := match rfind_from "/"%char p 0 with Some i => S i | None => O end in
  match rfind_from "."%char p 0 with
  | Some dot =>
      if andb (Nat.leb start dot)
              (has_non_dot (String.substring start (dot - start) p) (dot - start))
      then (String.substring 0 dot p, String.substring dot (String.length p - dot) p)
      else (p, EmptyString)
  | None => (p, EmptyString)
  end.

End Py.

(** ** The store: tables, view and triggers created by [__create_open_db] *)

(** A value of a dynamically typed column ([None] in Python is [VNull]). *)
Inductive value : Type :=
| VNull
| VInt (z : Z)
| VReal (q : Q)
| VText (s : string).

(** [folder(folder_id INTEGER NOT NULL PRIMARY KEY, name TEXT UNIQUE NOT NULL,
    last_modified REAL DEFAULT 0 NOT NULL)] *)
Module Folder.
Record row : Type := mk
  { folder_id : Z;
    name : string;
    last_modified : Q }.
End Folder.

(** [file(file_id INTEGER NOT NULL PRIMARY KEY, folder_id, basename,
    extension, last_modified, UNIQUE(folder_id, basename, extension))] *)
Module File.
Record row : Type := mk
  { file_id : Z;
    folder_id : Z;
    basename : string;
    extension : string;
    last_modified : Q }.
End File.

(** [meta(file_id INTEGER NOT NULL PRIMARY KEY, ...)] *)
Module Meta.
Record row : Type := mk
  { file_id : Z;
    orientation : Z;
    exif_datetime : Q;
    f_number : value;
    exposure_time : value;
    iso : value;
    focal_length : value;
    make : value;
    model : value;
    lens : value;
    rating : value;
    latitude : option Q;
    longitude : option Q;
    width : Z;
    height : Z }.
End Meta.

(** [location(id INTEGER NOT NULL PRIMARY KEY, latitude, longitude,
    description, UNIQUE(latitude, longitude))]; the cache only ever writes
    rows with all three columns set. *)
Module Location.
Record row : Type := mk
  { id : Z;
    latitude : Q;
    longitude : Q;
    description : string }.
End Location.

Record database : Type := mkdb
  { folder : list Folder.row;
    file : list File.row;
    meta : list Meta.row;
    location : list Location.row }.

Definition set_folder (d : database) (t : list Folder.row) : database :=
  mkdb t (file d) (meta d) (location d).
Definition set_file (d : database) (t : list File.row) : database :=
  mkdb (folder d) t (meta d) (location d).
Definition set_meta (d : database) (t : list Meta.row) : database :=
  mkdb (folder d) (file d) t (location d).
Definition set_location (d : database) (t : list Location.row) : database :=
  mkdb (folder d) (file d) (meta d) t.

Definition empty_db : database := mkdb [] [] [] [].

(** The id SQLite gives a row inserted without one: 1 in an empty table, one
    more than the largest id in use otherwise. *)
Definition new_rowid (ids : list Z) : Z :=
  match ids with
  | [] => 1
  | i :: rest => fold_left Z.max rest i + 1
  end.

(** A row of the view [all_data]: the joined rows; the columns of the view
    are the functions below. *)
Module AllData.
Record row : Type := mk
  { r_file : File.row;
    r_folder : Folder.row;
    r_meta : option Meta.row;
    r_location : option Location.row }.

(** [folder.name || "/" || file.basename || "." || file.extension AS fname] *)
Definition fname (r : row) : string :=
  (Folder.name (r_folder r) ++ "/" ++ File.basename (r_file r) ++ "."
     ++ File.extension (r_file r))%string.

(** [file.last_modified] *)
Definition last_modified (r : row) : Q := File.last_modified (r_file r).

(** [meta.*]: the view's [file_id] is the one of the meta row, NULL when
    the file has none. *)
Definition file_id (r : row) : option Z := option_map Meta.file_id (r_meta r).

Definition latitude (r : row) : option Q :=
  match r_meta r with Some m => Meta.latitude m | None => None end.

Definition longitude (r : row) : option Q :=
  match r_meta r with Some m => Meta.longitude m | None => None end.

(** [meta.height > meta.width as is_portrait] *)
Definition is_portrait (r : row) : option bool :=
  option_map (fun m => Z.ltb (Meta.width m) (Meta.height m)) (r_meta r).

(** [location.description as location] *)
Definition location (r : row) : option string :=
  option_map Location.description (r_location r).
End AllData.

(** [a LEFT JOIN bs ON on]: every match, or one NULL row when there is none. *)
Definition left_join {A B : Type} (on : A -> B -> bool) (bs : list B) (a : A)
  : list (option B) :=
  match filter (on a) bs with
  | [] => [None]
  | ms => map Some ms
  end.

Definition on_folder (f : File.row) (g : Folder.row) : bool :=
  Z.eqb (Folder.folder_id g) (File.folder_id f).

Definition on_meta (f : File.row) (m : Meta.row) : bool :=
  Z.eqb (File.file_id f) (Meta.file_id m).

(** [location.latitude = meta.latitude AND location.longitude =
    meta.longitude]; a NULL on the meta side matches nothing. *)
Definition coords_match (lat lon : option Q) (l : Location.row) : bool :=
  match lat, lon with
  | Some la, Some lo =>
      andb (Qeq_bool (Location.latitude l) la) (Qeq_bool (Location.longitude l) lo)
  | _, _ => false
  end.

Definition on_location (m : option Meta.row) (l : Location.row) : bool :=
  match m with
  | Some m => coords_match (Meta.latitude m) (Meta.longitude m) l
  | None => false
  end.

Definition join_file (d : database) (f : File.row) : list AllData.row :=
  flat_map (fun g =>
    flat_map (fun m =>
      map (fun l => AllData.mk f g m l)
          (left_join on_location (location d) m))
      (left_join on_meta (meta d) f))
    (filter (on_folder f) (folder d)).

(** [CREATE VIEW all_data AS SELECT ... FROM file INNER JOIN folder LEFT JOIN
    meta LEFT JOIN location] *)
Definition all_data (d : database) : list AllData.row :=
  flat_map (join_file d) (file d).

(** ** The SQL statements issued by the cache *)

Module Sql.

(** [SELECT * FROM folder WHERE name = ?], [fetchone()] *)
Definition select_folder (d : database) (nm : string) : option Folder.row :=
  find (fun g => String.eqb (Folder.name g) nm) (folder d).

(** [INSERT OR IGNORE INTO folder(last_modified, name) VALUES(?, ?)]: a row
    with that name makes the statement a no-op. *)
Definition insert_or_ignore_folder (d : database) (p : Z * string) : database :=
  let '(mod_tm, nm) := p in
  if existsb (fun g => String.eqb (Folder.name g) nm) (folder d) then d
  else set_folder d
         (folder d ++ [Folder.mk (new_rowid (map Folder.folder_id (folder d)))
                                 nm (inject_Z mod_tm)]).

(** [UPDATE folder SET last_modified = ? WHERE name = ?] *)
Definition update_folder (d : database) (p : Z * string) : database :=
  let '(mod_tm, nm) := p in
  set_folder d
    (map (fun g => if String.eqb (Folder.name g) nm
                   then Folder.mk (Folder.folder_id g) (Folder.name g) (inject_Z mod_tm)
                   else g)
         (folder d)).

(** [SELECT folder_id from folder where name = ?] as a scalar subquery:
    the first row, NULL when there is none. *)
Definition select_folder_id (d : database) (nm : string) : option Z :=
  option_map Folder.folder_id (select_folder d nm).

Definition same_triple (a b : File.row) : bool :=
  andb (Z.eqb (File.folder_id a) (File.folder_id b))
       (andb (String.eqb (File.basename a) (File.basename b))
             (String.eqb (File.extension a) (File.extension b))).

(** [INSERT OR REPLACE INTO file(folder_id, basename, extension,
    last_modified) VALUES((SELECT folder_id from folder where name = ?), ?,
    ?, ?)].  The new row takes a fresh id; the rows that clash with it on
    UNIQUE(folder_id, basename, extension) are removed (without firing the
    delete trigger: recursive triggers are off).  A NULL folder_id has no
    default to fall back on and the statement fails ([None]). *)
Definition insert_or_replace_file (d : database)
    (p : string * string * string * Q) : option database :=
  let '(dir, base, ext, mod_tm) := p in
  match select_folder_id d dir with
  | None => None
  | Some fid =>
      let new := File.mk (new_rowid (map File.file_id (file d))) fid base ext mod_tm in
      Some (set_file d (filter (fun f => negb (same_triple f new)) (file d) ++ [new]))
  end.

(** [SELECT fname, last_modified FROM all_data WHERE fname = ?], [fetchone()] *)
Definition select_fname (d : database) (fn : string) : option AllData.row :=
  find (fun r => String.eqb (AllData.fname r) fn) (all_data d).

(** [(SELECT file_id from all_data where fname = ?)] as a scalar subquery. *)
Definition select_file_id (d : database) (fn : string) : option Z :=
  match select_fname d fn with
  | Some r => AllData.file_id r
  | None => None
  end.

(** *** Column affinity

    A value bound to a column is converted to the declared type of the
    column when the conversion loses nothing: a text that reads as a number
    becomes that number in an INTEGER or REAL column, a number becomes its
    text in a TEXT column.  Numbers are exact here: a literal beyond the
    range or the precision of a double is not told apart from one within. *)

Inductive affinity : Type := TEXT | INTEGER | REAL.

Definition is_space (c : ascii) : bool :=
  let n := nat_of_ascii c in orb (Nat.eqb n 32) (andb (Nat.leb 9 n) (Nat.leb n 13)).

Definition digit (c : ascii) : option Z :=
  let n := nat_of_ascii c in
  if andb (Nat.leb 48 n) (Nat.leb n 57) then Some (Z.of_nat (n - 48)) else None.

Fixpoint skip_spaces (s : string) : string :=
  match s with
  | String c r => if is_space c then skip_spaces r else s
  | EmptyString => s
  end.

(** The digits at the front of [s]: their value after [acc], how many they
    are, and what follows them. *)
Fixpoint digits (s : string) (acc : Z) (n : nat) : Z * nat * string :=
  match s with
  | String c r =>
      match digit c with
      | Some k => digits r (acc * 10 + k) (S n)
      | None => (acc, n, s)
      end
  | EmptyString => (acc, n, s)
  end.

Definition sign (s : string) : bool * string :=
  match s with
  | String "-"%char r => (true, r)
  | String "+"%char r => (false, r)
  | _ => (false, s)
  end.

(** [sqlite3AtoF]: the number a text denotes when all of it, spaces at both
    ends apart, is a decimal literal, and whether the literal is a plain
    integer. *)
Definition atof (s : string) : option (Q * bool) :=
  let '(neg, s1) := sign (skip_spaces s) in
  let '(int_part, n_int, s2) := digits s1 0 0 in
  let '(significand, n_frac, s3, has_point) :=
    match s2 with
    | String "."%char r => let '(v, n, r') := digits r int_part 0 in (v, n, r', true)
    | _ => (int_part, O, s2, false)
    end in
  let '(exponent, e_valid, s4, has_exp) :=
    match s3 with
    | String c r =>
        if orb (Ascii.eqb c "e") (Ascii.eqb c "E") then
          let '(eneg, r1) := sign r in
          let '(v, n, r2) := digits r1 0 0 in
          ((if eneg then - v else v), negb (Nat.eqb n 0), r2, true)
        else (0, true, s3, false)
    | EmptyString => (0, true, s3, false)
    end in
  match skip_spaces s4 with
  | EmptyString =>
      if andb (negb (Nat.eqb (n_int + n_frac) 0)) e_valid then
        let shift := exponent - Z.of_nat n_frac in
        let m := if neg then - significand else significand in
        Some (Qred (if 0 <=? shift then inject_Z (m * 10 ^ shift)
                    else Qmake m (Z.to_pos (10 ^ (- shift)))),
              andb (negb has_point) (negb has_exp))
      else None
  | _ => None
  end.

Definition text_of_int (z : Z) : string := NilZero.string_of_int (Z.to_int z).

Fixpoint first_power (fuel : nat) (k : Z) (a : Q) : Z :=
  match fuel with
  | O => k
  | S fuel' => if Qle_bool 1 (a * Qpower 10 k) then k else first_power fuel' (k + 1) a
  end.

(** The decimal exponent of a positive number: [10^e <= a < 10^(e+1)]. *)
Definition exponent10 (a : Q) : Z :=
  if Qle_bool 1 a then Z.of_nat (String.length (text_of_int (Qfloor a))) - 1
  else - first_power 400 1 a.

Fixpoint strip_zeros_rev (s : list ascii) : list ascii :=
  match s with
  | "0"%char :: r => strip_zeros_rev r
  | _ => s
  end.

Definition strip_zeros (s : string) : string :=
  string_of_list_ascii (rev (strip_zeros_rev (rev (list_ascii_of_string s)))).

Definition or_zero (s : string) : string :=
  match s with EmptyString => "0"%string | _ => s end.

Fixpoint zeros (n : nat) : string :=
  match n with O => EmptyString | S m => String "0" (zeros m) end.

Definition two_digits (z : Z) : string :=
  (text_of_int (Z.div z 10) ++ text_of_int (Z.modulo z 10))%string.

(** [%!.15g]: fifteen significant digits, trailing zeros dropped, at least
    one digit after the point. *)
Definition text_of_real (q : Q) : string :=
  if Qeq_bool q 0 then "0.0"%string else
  let a := Qabs q in
  let e0 := exponent10 a in
  let n0 := Qfloor (a * Qpower 10 (14 - e0) + (1 # 2)) in
  let '(n, ex) := if 10 ^ 15 <=? n0 then (n0 / 10, e0 + 1) else (n0, e0) in
  let ds := text_of_int n in
  let body :=
    if orb (ex <? -4) (14 <? ex) then
      (String.substring 0 1 ds ++ "." ++ or_zero (strip_zeros (String.substring 1 14 ds))
       ++ "e" ++ (if Z.ltb ex 0 then "-" else "+")
       ++ (if Z.leb 100 (Z.abs ex) then text_of_int (Z.div (Z.abs ex) 100) else "")
       ++ two_digits (Z.modulo (Z.abs ex) 100))%string
    else if 0 <=? ex then
      (String.substring 0 (Z.to_nat (Z.add ex 1)) ds ++ "."
       ++ or_zero (strip_zeros (String.substring (Z.to_nat (Z.add ex 1)) (Z.to_nat (Z.sub 14 ex)) ds)))%string
    else ("0." ++ zeros (Z.to_nat (Z.sub (Z.opp ex) 1)) ++ strip_zeros ds)%string in
  ((if Qle_bool 0 q then "" else "-") ++ body)%string.

Definition in_int64 (z : Z) : bool := andb (- 2 ^ 63 <? z) (z <? 2 ^ 63 - 1).

(** [sqlite3VdbeIntegerAffinity] *)
Definition integer_if_exact (q : Q) : value :=
  let r := Qred q in
  if andb (Pos.eqb (Qden r) 1) (in_int64 (Qnum r)) then VInt (Qnum r) else VReal q.

(** The value a column of affinity [a] holds for a bound value [v]. *)
Definition to_column (a : affinity) (v : value) : value :=
  match a, v with
  | TEXT, VInt z => VText (text_of_int z)
  | TEXT, VReal q => VText (text_of_real q)
  | INTEGER, VReal q => integer_if_exact q
  | INTEGER, VText s =>
      match atof s with
      | Some (q, plain) =>
          if andb plain (andb (- 2 ^ 63 <=? Qnum q) (Qnum q <=? 2 ^ 63 - 1))
          then VInt (Qnum q) else integer_if_exact q
      | None => v
      end
  | REAL, VInt z => VReal (inject_Z z)
  | REAL, VText s =>
      match atof s with
      | Some (q, _) => VReal q
      | None => v
      end
  | _, _ => v
  end.

(** A NULL given for a NOT NULL column with a default is replaced by the
    default under OR REPLACE. *)
Definition or_default (dflt v : value) : value :=
  match v with VNull => dflt | _ => v end.

(** [INSERT OR REPLACE INTO meta(file_id, <columns>) VALUES((SELECT file_id
    from all_data where fname = ?), ...)].  [m] carries the bound values
    (its [file_id] is ignored); each is stored under the affinity of its
    column.  A NULL file_id is replaced by a fresh row id, an existing one
    replaces the row it names. *)
Definition insert_or_replace_meta (d : database) (p : string * Meta.row) : database :=
  let '(fn, m) := p in
  let key := match select_file_id d fn with
             | Some i => i
             | None => new_rowid (map Meta.file_id (meta d))
             end in
  let new := Meta.mk key (Meta.orientation m) (Meta.exif_datetime m)
               (or_default (VReal 0) (to_column REAL (Meta.f_number m)))
               (to_column TEXT (Meta.exposure_time m))
               (or_default (VReal 0) (to_column REAL (Meta.iso m)))
               (to_column TEXT (Meta.focal_length m))
               (to_column TEXT (Meta.make m)) (to_column TEXT (Meta.model m))
               (to_column TEXT (Meta.lens m)) (to_column INTEGER (Meta.rating m))
               (Meta.latitude m) (Meta.longitude m) (Meta.width m) (Meta.height m) in
  set_meta d (filter (fun x => negb (Z.eqb (Meta.file_id x) key)) (meta d) ++ [new]).

(** [INSERT OR REPLACE INTO location (latitude, longitude, description)
    VALUES (?, ?, ?)] *)
Definition insert_or_replace_location (d : database) (lat lon : Q) (descr : string)
  : database :=
  let new := Location.mk (new_rowid (map Location.id (location d))) lat lon descr in
  set_location d
    (filter (fun l => negb (coords_match (Some lat) (Some lon) l)) (location d) ++ [new]).

(** Trigger [Clean_Meta_Trigger], AFTER DELETE ON file FOR EACH ROW:
    [DELETE FROM meta WHERE file_id = OLD.file_id]. *)
Definition clean_meta_trigger (d : database) (old : File.row) : database :=
  set_meta d (filter (fun m => negb (Z.eqb (Meta.file_id m) (File.file_id old))) (meta d)).

(** [DELETE FROM file WHERE <cond>]: the rows go, and the trigger runs for
    each of them. *)
Definition delete_from_file (cond : File.row -> bool) (d : database) : database :=
  fold_left clean_meta_trigger (filter cond (file d))
    (set_file d (filter (fun f => negb (cond f)) (file d))).

(** Trigger [Clean_File_Trigger], AFTER DELETE ON folder FOR EACH ROW:
    [DELETE FROM file WHERE folder_id = OLD.folder_id]. *)
Definition clean_file_trigger (d : database) (old : Folder.row) : database :=
  delete_from_file (fun f => Z.eqb (File.folder_id f) (Folder.folder_id old)) d.

(** [DELETE FROM folder WHERE <cond>] *)
Definition delete_from_folder (cond : Folder.row -> bool) (d : database) : database :=
  fold_left clean_file_trigger (filter cond (folder d))
    (set_folder d (filter (fun g => negb (cond g)) (folder d))).

(** [DELETE FROM folder WHERE folder_id = ?] *)
Definition delete_folder (d : database) (i : Z) : database :=
  delete_from_folder (fun g => Z.eqb (Folder.folder_id g) i) d.

(** [DELETE FROM file WHERE file_id = ?]; the parameter comes from the
    view's [file_id] and may be NULL, which no row equals. *)
Definition delete_file (d : database) (i : option Z) : database :=
  match i with
  | Some i => delete_from_file (fun f => Z.eqb (File.file_id f) i) d
  | None => d
  end.

(** Stable insertion sort: [ORDER BY] with [le a b] reading "a sorts no
    later than b". *)
Fixpoint insert_sorted {A : Type} (le : A -> A -> bool) (x : A) (l : list A) : list A :=
  match l with
  | [] => [x]
  | y :: r => if le x y then x :: l else y :: insert_sorted le x r
  end.

Definition order_by {A : Type} (le : A -> A -> bool) (l : list A) : list A :=
  fold_right (insert_sorted le) [] l.

(** The order in which the plan of a SELECT meets the rows it returns.  The
    plan is SQLite's choice for the statement (which table drives the join,
    which index is walked, in which direction), and nothing ties the plans
    of two statements together. *)
Definition plan : Type := list AllData.row -> list AllData.row.

(** [SELECT <expr> FROM all_data WHERE <where> ORDER BY <sort>],
    [fetchall()]: one tuple per row.  Rows that tie under the sort
    expression come in the order in which the plan meets them. *)
Definition select_all_data {A : Type} (d : database) (scan : plan)
    (expr : AllData.row -> A) (where_clause : AllData.row -> bool)
    (sort_clause : AllData.row -> AllData.row -> bool) : list A :=
  map expr (order_by sort_clause (scan (filter where_clause (all_data d)))).

End Sql.

(** ** The world around the cache *)

(** What the cache sees of the disk during one call. *)
Record filesystem : Type := mkfs
  { walk : list string;            (* [d[0] for d in os.walk(picture_dir)] *)
    st_mtime : string -> Q;        (* [os.stat(p).st_mtime], [os.path.getmtime(p)] *)
    listdir : string -> list string;
    path_exists : string -> bool }.

(** A [get_image_meta.GetImageMeta] object for one file. *)
Record GetImageMeta : Type := mkexifs
  { get_orientation : Z;
    get_size : Z * Z;
    get_exif : string -> value;
    get_location : option Q * option Q }.

Record env : Type := mkenv
  { fs : filesystem;
    image_meta : string -> GetImageMeta;
    (* [time.mktime(time.strptime(val, '%Y:%m:%d %H:%M:%S'))], [None] when
       [val] does not match the format *)
    strptime_mktime : string -> option Q;
    (* [geo_reverse.get_address(lat, lon)]; the first argument counts the
       calls made before this one, so the answer may change over time *)
    get_address : nat -> Q -> Q -> string }.

(** ** State and exceptions *)

Inductive exn : Type := TypeError | ValueError | IntegrityError | OSError.

Inductive outcome (A : Type) : Type :=
| Return (a : A)
| Raise (e : exn).
Arguments Return {A} a.
Arguments Raise {A} e.

(** The mutable part of an [ImageCache] object, and the calls made to the
    geocoder so far. *)
Record cache_state : Type := mkstate
  { db : database;
    first_run : bool;
    geo_log : list (Q * Q) }.

Definition set_db (s : cache_state) (d : database) : cache_state :=
  mkstate d (first_run s) (geo_log s).

Definition M (A : Type) : Type := cache_state -> outcome A * cache_state.

Definition ret {A : Type} (a : A) : M A := fun s => (Return a, s).

Definition raise {A : Type} (e : exn) : M A := fun s => (Raise e, s).

Definition bind {A B : Type} (c : M A) (k : A -> M B) : M B :=
  fun s => match c s with
           | (Return a, s1) => k a s1
           | (Raise e, s1) => (Raise e, s1)
           end.

(** A computation that reads no state: its result, or its exception. *)
Definition lift {A : Type} (r : outcome A) : M A := fun s => (r, s).

Definition get_db : M database := fun s => (Return (db s), s).

Definition put_db (d : database) : M unit := fun s => (Return tt, set_db s d).

Declare Scope cache_scope.
Delimit Scope cache_scope with cache.
Notation "x <- c ;; k" := (bind c (fun x => k))
  (at level 100, c at next level, right associativity) : cache_scope.
Notation "c ;;; k" := (bind c (fun _ => k))
  (at level 100, right associativity) : cache_scope.

Definition Qlt_bool (a b : Q) : bool := negb (Qle_bool b a).

(** ** The methods of [ImageCache] *)

Definition EXTENSIONS : list string :=
  [".png"; ".jpg"; ".jpeg"; ".heif"; ".heic"]%string.

(** The test [not found or found['last_modified'] < mod_tm] on a folder. *)
Definition folder_out_of_date (e : env) (d : database) (dir : string) : bool :=
  let mod_tm := Py.int (st_mtime (fs e) dir) in
  match Sql.select_folder d dir with
  | None => true
  | Some found => Qlt_bool (Folder.last_modified found) (inject_Z mod_tm)
  end.

(** The loop of [__update_modified_folders]: the [(mod_tm, dir)] pairs of the
    folders found out of date, and the flag [__first_run] after the loop. *)
Fixpoint scan_folders (e : env) (d : database) (first : bool) (dirs : list string)
  : list (Z * string) * bool :=
  match dirs with
  | [] => ([], first)
  | dir :: rest =>
      let mod_tm := Py.int (st_mtime (fs e) dir) in
      if folder_out_of_date e d dir then
        if first then ([(mod_tm, dir)], false) (* break *)
        else let '(l, fr) := scan_folders e d first rest in ((mod_tm, dir) :: l, fr)
      else scan_folders e d first rest
  end.

Definition update_modified_folders (e : env) : M (list string) :=
  fun s =>
    let '(insert_data, fr) := scan_folders e (db s) (first_run s) (walk (fs e)) in
    let d1 := fold_left Sql.insert_or_ignore_folder insert_data (db s) in
    let d2 := fold_left Sql.update_folder insert_data d1 in
    (Return (map snd insert_data), mkstate d2 fr (geo_log s)).

(** The test on a directory entry in [__update_modified_files]. *)
Definition is_image (dir file : string) : bool :=
  andb (existsb (String.eqb (Py.lower (snd (Py.splitext file)))) EXTENSIONS)
       (andb (negb (Py.contains dir ".AppleDouble"))
             (negb (Py.startswith file "."))).

(** The test [not found or found['last_modified'] < mod_tm] on a file. *)
Definition file_out_of_date (e : env) (d : database) (full_file : string) : bool :=
  let mod_tm := st_mtime (fs e) full_file in
  match Sql.select_fname d full_file with
  | None => true
  | Some found => Qlt_bool (AllData.last_modified found) mod_tm
  end.

(** [os.path.getmtime(p)]: the [os.stat] behind it fails on a name that
    [os.path.exists] denies, such as a link whose target is gone. *)
Definition getmtime (e : env) (p : string) : outcome Q :=
  if path_exists (fs e) p then Return (st_mtime (fs e) p) else Raise OSError.

(** The body of the inner loop: what one directory entry adds to
    [out_of_date_files] and [insert_data], or the exception that leaves
    both loops. *)
Definition scan_file (e : env) (d : database) (dir file : string)
  : outcome (list (string * (string * string * string * Q))) :=
  let '(base, extension) := Py.splitext file in
  if is_image dir file then
    let full_file := Py.path_join dir file in
    match getmtime e full_file with
    | Raise x => Raise x
    | Return mod_tm =>
        if file_out_of_date e d full_file
        then Return [(full_file, (dir, base, Py.lstrip_dot extension, mod_tm))]
        else Return []
    end
  else Return [].

(** [for file in os.listdir(dir)] *)
Fixpoint scan_dir (e : env) (d : database) (dir : string) (entries : list string)
  : outcome (list (string * (string * string * string * Q))) :=
  match entries with
  | [] => Return []
  | file :: rest =>
      match scan_file e d dir file with
      | Raise x => Raise x
      | Return found =>
          match scan_dir e d dir rest with
          | Raise x => Raise x
          | Return more => Return (found ++ more)
          end
      end
  end.

(** [for dir in modified_folders] *)
Fixpoint scan_files (e : env) (d : database) (modified_folders : list string)
  : outcome (list (string * (string * string * string * Q))) :=
  match modified_folders with
  | [] => Return []
  | dir :: rest =>
      match scan_dir e d dir (listdir (fs e) dir) with
      | Raise x => Raise x
      | Return found =>
          match scan_files e d rest with
          | Raise x => Raise x
          | Return more => Return (found ++ more)
          end
      end
  end.

(** [executemany] of the file upsert: the rows before a failing one stay
    written. *)
Fixpoint executemany_file (rows : list (string * string * string * Q)) : M unit :=
  match rows with
  | [] => ret tt
  | r :: rest =>
      fun s => match Sql.insert_or_replace_file (db s) r with
               | None => (Raise IntegrityError, s)
               | Some d1 => executemany_file rest (set_db s d1)
               end
  end.

(** [__update_modified_files]: nothing is written while the loops run. *)
Definition update_modified_files (e : env) (modified_folders : list string)
  : M (list string) :=
  (d <- get_db ;;
   found <- lift (scan_files e d modified_folders) ;;
   executemany_file (map snd found) ;;;
   ret (map fst found))%cache.

Definition swaps_sides (orientation : Z) : bool :=
  existsb (Z.eqb orientation) [5; 6; 7; 8].

(** [__get_exif_info]: the dict [e] as a meta row whose [file_id] is still to
    be filled in (0 here). *)
Definition get_exif_info (e : env) (file_path_name : string) : outcome Meta.row :=
  let exifs := image_meta e file_path_name in
  let orientation := get_orientation exifs in
  let '(width, height) := get_size exifs in
  let '(width, height) :=
    if swaps_sides orientation then (height, width) else (width, height) in
  let exif_datetime :=
    match get_exif exifs "EXIF DateTimeOriginal" with
    | VNull => getmtime e file_path_name
    | VText val =>
        match strptime_mktime e val with
        | Some t => Return t
        | None => Raise ValueError
        end
    | _ => Raise TypeError
    end in
  match exif_datetime with
  | Raise x => Raise x
  | Return dt =>
      let '(lat, lon) := get_location exifs in
      Return (Meta.mk 0 orientation dt
                (get_exif exifs "EXIF FNumber")
                (get_exif exifs "EXIF ExposureTime")
                (get_exif exifs "EXIF ISOSpeedRatings")
                (get_exif exifs "EXIF FocalLength")
                (get_exif exifs "EXIF Make")
                (get_exif exifs "Image Model")
                (get_exif exifs "EXIF LensModel")
                (get_exif exifs "EXIF Rating")
                (option_map (fun x => Py.round x 4) lat)
                (option_map (fun x => Py.round x 4) lon)
                width height)
  end.

(** The loop of [__update_meta_data]: nothing is written while it runs, and
    an exception of [__get_exif_info] leaves it at once. *)
Fixpoint collect_meta (e : env) (modified_files : list string)
  : outcome (list (string * Meta.row)) :=
  match modified_files with
  | [] => Return []
  | file :: rest =>
      match get_exif_info e file with
      | Raise x => Raise x
      | Return m =>
          match collect_meta e rest with
          | Raise x => Raise x
          | Return l => Return ((file, m) :: l)
          end
      end
  end.

Definition update_meta_data (e : env) (modified_files : list string) : M unit :=
  fun s =>
    match collect_meta e modified_files with
    | Raise x => (Raise x, s)
    | Return insert_data =>
        (Return tt, set_db s (fold_left Sql.insert_or_replace_meta insert_data (db s)))
    end.

Definition missing_folder (e : env) (g : Folder.row) : bool :=
  negb (path_exists (fs e) (Folder.name g)).

Definition missing_file (e : env) (r : AllData.row) : bool :=
  negb (path_exists (fs e) (AllData.fname r)).

Definition purge (e : env) (d : database) : database :=
  let folder_id_list := map Folder.folder_id (filter (missing_folder e) (folder d)) in
  let d1 := fold_left Sql.delete_folder folder_id_list d in
  let file_id_list := map AllData.file_id (filter (missing_file e) (all_data d1)) in
  fold_left Sql.delete_file file_id_list d1.

Definition purge_missing_files_and_folders (e : env) : M unit :=
  (d <- get_db ;; put_db (purge e d))%cache.

(** [update_cache]; the two lists the method computes on its way are
    returned so that statements can speak of them. *)
Definition update_cache (e : env) : M (list string * list string) :=
  (modified_folders <- update_modified_folders e ;;
   modified_files <- update_modified_files e modified_folders ;;
   update_meta_data e modified_files ;;;
   purge_missing_files_and_folders e ;;;
   ret (modified_folders, modified_files))%cache.

(** A row returned by [fetchall()]: the tuple of its column values, [None]
    standing for NULL. *)
Definition tuple : Type := list (option Z).

Definition value_eqb (a b : option Z) : bool :=
  match a, b with
  | Some x, Some y => Z.eqb x y
  | None, None => true
  | _, _ => false
  end.

(** [CASE WHEN is_portrait = 0 THEN file_id ELSE -1 END] *)
Definition landscape_id_or_minus_one (r : AllData.row) : tuple :=
  match AllData.is_portrait r with
  | Some false => [AllData.file_id r]
  | _ => [Some (-1)]
  end.

(** [is_portrait = 1] *)
Definition portrait (r : AllData.row) : bool :=
  match AllData.is_portrait r with
  | Some true => true
  | _ => false
  end.

(** The body of the loop [for i in range(len(full_list))], given
    [full_list[i]], on the pair [(newlist, pair_list)]. *)
Definition pair_body (st : list tuple * list tuple) (row : tuple)
  : list tuple * list tuple :=
  let '(newlist, pair_list) := st in
  if negb (value_eqb (hd None row) (Some (-1))) then (newlist ++ [row], pair_list)
  else match pair_list with
       | [] => (newlist, pair_list)
       | elem :: pair_list1 =>              (* elem = pair_list.pop(0) *)
           match pair_list1 with
           | [] => (newlist ++ [elem], pair_list1)
           | second :: pair_list2 =>        (* elem += pair_list.pop(0) *)
               (newlist ++ [(elem ++ second)%list], pair_list2)
           end
       end.

Definition pair_step (full_list : list tuple) (st : list tuple * list tuple) (i : nat)
  : list tuple * list tuple :=
  pair_body st (nth i full_list []).

(** [query_cache(where_clause, sort_clause)] for either value of
    [portrait_pairs]; [scan] is the plan of the SELECT over the rows that
    match [where_clause], [scan_portraits] the plan of the second SELECT of
    the pairing mode, over the portraits among them. *)
Definition query_cache (portrait_pairs : bool) (scan scan_portraits : Sql.plan)
    (d : database) (where_clause : AllData.row -> bool)
    (sort_clause : AllData.row -> AllData.row -> bool) : list tuple :=
  if negb portrait_pairs then
    Sql.select_all_data d scan (fun r => [AllData.file_id r]) where_clause sort_clause
  else
    let full_list :=
      Sql.select_all_data d scan landscape_id_or_minus_one where_clause sort_clause in
    let pair_list :=
      Sql.select_all_data d scan_portraits (fun r => [AllData.file_id r])
        (fun r => andb (where_clause r) (portrait r)) sort_clause in
    fst (fold_left (pair_step full_list) (seq 0 (List.length full_list)) ([], pair_list)).

(** [SELECT * FROM all_data where file_id = ?], [fetchone()] *)
Definition select_by_file_id (d : database) (i : Z) : option AllData.row :=
  find (fun r => value_eqb (AllData.file_id r) (Some i)) (all_data d).

Definition get_geo_location (e : env) (lat lon : Q) : M bool :=
  fun s =>
    let location := get_address e (List.length (geo_log s)) lat lon in
    let s1 := mkstate (db s) (first_run s) (geo_log s ++ [(lat, lon)]) in
    if Nat.eqb (String.length location) 0 then (Return false, s1)
    else (Return true, set_db s1 (Sql.insert_or_replace_location (db s1) lat lon location)).

(** [get_file_info(file_id)]: subscripting the [None] that [fetchone()] gives
    for an unknown id raises [TypeError]. *)
Definition get_file_info (e : env) (file_id : Z) : M (option AllData.row) :=
  (d <- get_db ;;
   match select_by_file_id d file_id with
   | None => raise TypeError
   | Some row =>
       match AllData.latitude row, AllData.longitude row, AllData.location row with
       | Some lat, Some lon, None =>
           ok <- get_geo_location e lat lon ;;
           if (ok : bool) then
             d1 <- get_db ;; ret (select_by_file_id d1 file_id)
           else ret (Some row)
       | _, _, _ => ret (Some row)
       end
   end)%cache.

(** [__init__]: the store is the one found in the database file (the
    CREATE ... IF NOT EXISTS statements leave its rows alone), and the
    first-run flag is set. *)
Definition init (stored : database) : cache_state := mkstate stored true [].

(** What the thread of [__loop] finds at one turn of
    [while self.__keep_looping]: the two flags as [stop] and [pause_looping]
    have left them, and the disk. *)
Record turn : Type := mkturn
  { keep_looping : bool;
    pause_looping : bool;
    disk : env }.

(** How the thread stands after the turns observed: still in the loop, past
    it ([commit] and [close] done), or ended by an exception that left
    [update_cache]. *)
Inductive thread : Type :=
| Looping
| Closed
| Died (x : exn).

(** [__loop], over the turns observed. *)
Fixpoint loop (turns : list turn) (s : cache_state) : thread * cache_state :=
  match turns with
  | [] => (Looping, s)
  | t :: rest =>
      if keep_looping t then
        if negb (pause_looping t) then
          match update_cache (disk t) s with
          | (Return _, s1) => loop rest s1
          | (Raise x, s1) => (Died x, s1)
          end
        else loop rest s
      else (Closed, s)
  end.

(** ** The pairing algorithm as the specification words it *)

Module PairingSpec.

(** An entry of the full pass: the id of a landscape row, or the mark
    "no id here". *)
Inductive entry : Type :=
| Id (i : option Z)
| Sentinel.

Definition full_pass_entry (r : AllData.row) : entry :=
  match AllData.is_portrait r with
  | Some false => Id (AllData.file_id r)
  | _ => Sentinel
  end.

(** The full pass: the matching rows in order, ids for landscape rows. *)
Definition full_pass (scan : Sql.plan) (d : database)
    (where_clause : AllData.row -> bool)
    (sort_clause : AllData.row -> AllData.row -> bool) : list entry :=
  Sql.select_all_data d scan full_pass_entry where_clause sort_clause.

(** The portrait pass: the same filter plus is-portrait, the same sort
    expression. *)
Definition portrait_pass (scan : Sql.plan) (d : database)
    (where_clause : AllData.row -> bool)
    (sort_clause : AllData.row -> AllData.row -> bool) : list (option Z) :=
  Sql.select_all_data d scan AllData.file_id
    (fun r => andb (where_clause r) (portrait r)) sort_clause.

(** Walk the full pass: a slot of its own for each id; for each sentinel,
    up to two ids from the front of the portrait pass. *)
Fixpoint walk_slots (full : list entry) (portraits : list (option Z)) : list tuple :=
  match full with
  | [] => []
  | Id i :: rest => [i] :: walk_slots rest portraits
  | Sentinel :: rest =>
      match portraits with
      | a :: b :: more => [a; b] :: walk_slots rest more
      | [a] => [a] :: walk_slots rest []
      | [] => walk_slots rest []
      end
  end.

Definition slots (scan scan_portraits : Sql.plan) (d : database)
    (where_clause : AllData.row -> bool)
    (sort_clause : AllData.row -> AllData.row -> bool) : list tuple :=
  walk_slots (full_pass scan d where_clause sort_clause)
             (portrait_pass scan_portraits d where_clause sort_clause).

End PairingSpec.

(** ** Vocabulary of the statements *)

(** A listed picture that cannot be stat'ed. *)
Definition unreadable (e : env) (dir file : string) : bool :=
  andb (is_image dir file) (negb (path_exists (fs e) (Py.path_join dir file))).

Definition some_unreadable (e : env) (dirs : list string) : bool :=
  existsb (fun dir => existsb (unreadable e dir) (listdir (fs e) dir)) dirs.

(** What one directory entry adds to the two lists when it can be stat'ed,
    and what the two loops collect then. *)
Definition out_of_date_entry (e : env) (d : database) (dir file : string)
  : list (string * (string * string * string * Q)) :=
  if is_image dir file then
    let full_file := Py.path_join dir file in
    if file_out_of_date e d full_file
    then [(full_file, (dir, fst (Py.splitext file), Py.lstrip_dot (snd (Py.splitext file)),
                       st_mtime (fs e) full_file))]
    else []
  else [].

Definition out_of_date_entries (e : env) (d : database) (dirs : list string)
  : list (string * (string * string * string * Q)) :=
  flat_map (fun dir => flat_map (out_of_date_entry e d dir) (listdir (fs e) dir)) dirs.

(** What [__get_exif_info] makes of a coordinate: [round(x, 4)], or [None]. *)
Definition round4 (x : option Q) : option Q := option_map (fun y => Py.round y 4) x.

(** Failure isolation for one batch of the Metadata Updater: the batch is
    not aborted, and every file whose extraction succeeds has a Meta row
    afterwards. *)
Definition isolates_failures (e : env) (files : list string) (s : cache_state) : Prop :=
  fst (update_meta_data e files s) = Return tt
  /\ forall file, In file files ->
       (exists m, get_exif_info e file = Return m) ->
       exists r, Sql.select_fname (db (snd (update_meta_data e files s))) file = Some r
                 /\ AllData.r_meta r <> None.

(** [name = ?] on a folder row. *)
Definition has_name (nm : string) (g : Folder.row) : bool := String.eqb (Folder.name g) nm.

(** What the batch of UPDATEs does to one row, every pair of the batch
    carrying the time [tm] of its folder. *)
Definition refresh (tm : string -> Z) (names : list string) (g : Folder.row) : Folder.row :=
  if existsb (String.eqb (Folder.name g)) names
  then Folder.mk (Folder.folder_id g) (Folder.name g) (inject_Z (tm (Folder.name g)))
  else g.

(** The columns of the UNIQUE constraint of [file]. *)
Definition triple (f : File.row) : Z * string * string :=
  (File.folder_id f, File.basename f, File.extension f).

Definition has_triple (fid : Z) (base ext : string) (f : File.row) : bool :=
  andb (Z.eqb (File.folder_id f) fid)
       (andb (String.eqb (File.basename f) base) (String.eqb (File.extension f) ext)).


(** What a new location row does to a row of the view: it joins the rows
    whose coordinates it matches. *)
Definition attach_location (new : Location.row) (r : AllData.row) : AllData.row :=
  if on_location (AllData.r_meta r) new
  then AllData.mk (AllData.r_file r) (AllData.r_folder r) (AllData.r_meta r) (Some new)
  else r.

(** [folder_id = ?] on a file row. *)
Definition in_folder (i : Z) (f : File.row) : bool := Z.eqb (File.folder_id f) i.

(** The meta row belongs to one of the file rows [olds]. *)
Definition meta_of_any (olds : list File.row) (m : Meta.row) : bool :=
  existsb (fun old => Z.eqb (Meta.file_id m) (File.file_id old)) olds.

(** The store without the files that satisfy [cond] and without their meta
    rows. *)
Definition without_files (cond : File.row -> bool) (d : database) : database :=
  mkdb (folder d)
       (filter (fun f => negb (cond f)) (file d))
       (filter (fun m => negb (meta_of_any (filter cond (file d)) m)) (meta d))
       (location d).

(** The store without the folder [i], without the files it owns and without
    the meta rows of those files; every other row as it was. *)
Definition without_folder (i : Z) (d : database) : database :=
  mkdb (filter (fun g => negb (Z.eqb (Folder.folder_id g) i)) (folder d))
       (filter (fun f => negb (in_folder i f)) (file d))
       (filter (fun m => negb (meta_of_any (filter (in_folder i) (file d)) m)) (meta d))
       (location d).


(** The store without the file [i] and without its meta row. *)
Definition without_file (i : Z) (d : database) : database :=
  mkdb (folder d)
       (filter (fun f => negb (Z.eqb (File.file_id f) i)) (file d))
       (filter (fun m => negb (Z.eqb (Meta.file_id m) i)) (meta d))
       (location d).

(** Idempotence of the update cycle, from the state [s] on: a cycle that
    completes is followed by one that reports no modified folder and no
    modified file and leaves every row as it is. *)
Definition second_run_idle (e : env) (s : cache_state) : Prop :=
  forall modified_folders modified_files s1,
    update_cache e s = (Return (modified_folders, modified_files), s1) ->
    update_cache e s1 = (Return ([], []), s1).

(** The invariants of the store the statements rely on: the ids of the
    folder rows are keys, and the ids of the meta rows are positive (row ids
    start at 1), hence never the -1 that [query_cache] uses as a mark. *)
Definition store_ok (d : database) : Prop :=
  NoDup (map Folder.folder_id (folder d))
  /\ (forall m, In m (meta d) -> 0 < Meta.file_id m).

(** The extensions of [EXTENSIONS] as they are stored, without the dot. *)
Definition stored_extensions : list string :=
  ["png"; "jpg"; "jpeg"; "heif"; "heic"]%string.

(** A plan meets every row it is given, once. *)
Definition complete (scan : Sql.plan) : Prop := forall l, Permutation (scan l) l.

(** No two rows of [l] tie under the sort expression [le]. *)
Definition no_ties {A : Type} (le : A -> A -> bool) (l : list A) : Prop :=
  forall x y, In x l -> In y l -> le x y = true -> le y x = true -> x = y.

(** [is_portrait = 0] *)
Definition landscape (r : AllData.row) : bool :=
  match AllData.is_portrait r with
  | Some false => true
  | _ => false
  end.

(** The PRIMARY KEY and UNIQUE constraints of the four tables.  Two
    coordinates are the same for UNIQUE(latitude, longitude) when they are
    equal as numbers. *)
Definition keys_ok (d : database) : Prop :=
  NoDup (map Folder.folder_id (folder d))
  /\ NoDup (map Folder.name (folder d))
  /\ NoDup (map File.file_id (file d))
  /\ NoDup (map triple (file d))
  /\ NoDup (map Meta.file_id (meta d))
  /\ NoDup (map Location.id (location d))
  /\ (forall a b, In a (location d) -> In b (location d) ->
        coords_match (Some (Location.latitude a)) (Some (Location.longitude a)) b = true ->
        Location.id a = Location.id b).

(** [l'] is [l] with some rows deleted. *)
Definition rows_deleted {A : Type} (l' l : list A) : Prop :=
  exists keep, l' = filter keep l.

(** The rows a batch of inserts adds to a table: each takes the id after the
    one before it, the first the id [k]. *)
Fixpoint number {A B : Type} (mk : Z -> A -> B) (k : Z) (l : list A) : list B :=
  match l with
  | [] => []
  | a :: rest => mk k a :: number mk (k + 1) rest
  end.

(** The File row of the picture [file] of the folder [dir], recorded under
    the id [k] in the folder [fid]. *)
Definition file_row (e : env) (fid : Z) (dir : string) (k : Z) (file : string) : File.row :=
  File.mk k fid (fst (Py.splitext file)) (Py.lstrip_dot (snd (Py.splitext file)))
          (st_mtime (fs e) (Py.path_join dir file)).

(** The Meta row of the key [k] that holds the values [m] as the columns of
    the table store them: f_number and iso as REAL with 0 for a missing one,
    rating as INTEGER, the five descriptive columns as TEXT. *)
Definition meta_row (k : Z) (m : Meta.row) : Meta.row :=
  Meta.mk k (Meta.orientation m) (Meta.exif_datetime m)
    (Sql.or_default (VReal 0) (Sql.to_column Sql.REAL (Meta.f_number m)))
    (Sql.to_column Sql.TEXT (Meta.exposure_time m))
    (Sql.or_default (VReal 0) (Sql.to_column Sql.REAL (Meta.iso m)))
    (Sql.to_column Sql.TEXT (Meta.focal_length m))
    (Sql.to_column Sql.TEXT (Meta.make m)) (Sql.to_column Sql.TEXT (Meta.model m))
    (Sql.to_column Sql.TEXT (Meta.lens m)) (Sql.to_column Sql.INTEGER (Meta.rating m))
    (Meta.latitude m) (Meta.longitude m) (Meta.width m) (Meta.height m).

(** The name of a picture as the view shows it after the folder. *)
Definition shown_name (f : File.row) : string :=
  (File.basename f ++ "." ++ File.extension f)%string.

(** ** Sample stores and environments *)

Module Samples.

Definition plain_meta (i : Z) (dt : Q) (w h : Z) : Meta.row :=
  Meta.mk i 1 dt VNull VNull VNull VNull VNull VNull VNull VNull None None w h.

(** [ORDER BY exif_datetime ASC] (NULL sorts first). *)
Definition by_exif_datetime (a b : AllData.row) : bool :=
  match AllData.r_meta a, AllData.r_meta b with
  | None, _ => true
  | Some _, None => false
  | Some x, Some y => Qle_bool (Meta.exif_datetime x) (Meta.exif_datetime y)
  end.

Definition anything (_ : AllData.row) : bool := true.

(** Four pictures taken in the order a (landscape), b, c (portrait),
    d (landscape); the tables hold them in another order. *)
Definition db_lppl : database :=
  mkdb [Folder.mk 1 "/pics" 10]
       [File.mk 1 1 "a" "jpg" 5; File.mk 2 1 "b" "jpg" 5;
        File.mk 3 1 "c" "jpg" 5; File.mk 4 1 "d" "jpg" 5]
       [plain_meta 3 3 3 4; plain_meta 1 1 4 3; plain_meta 4 4 4 3; plain_meta 2 2 3 4]
       [].

(** A picture taken in London, without a capture time in its tags. *)
Definition london : GetImageMeta :=
  mkexifs 1 (4000, 3000) (fun _ => VNull)
    (Some (5150123456 # 100000000)%Q, Some (-12783210 # 100000000)%Q).

(** A picture whose capture time cannot be parsed. *)
Definition garbled : GetImageMeta :=
  mkexifs 1 (4000, 3000)
    (fun tag => if String.eqb tag "EXIF DateTimeOriginal" then VText "garbage" else VNull)
    (None, None).

(** A picture directory [/p] holding [a.jpg] and [b.jpg], and a
    subdirectory [/p/sub]; every modification time is 100. *)
Definition fs_p : filesystem :=
  mkfs ["/p"; "/p/sub"]%string
       (fun _ => 100%Q)
       (fun dir => if String.eqb dir "/p" then ["a.jpg"; "b.jpg"; "sub"]%string else [])
       (fun p => existsb (String.eqb p) ["/p"; "/p/sub"; "/p/a.jpg"; "/p/b.jpg"]%string).

(** The capture times the samples need: one well-formed time (read as UTC)
    is parsed, anything else is rejected. *)
Definition parse_time (val : string) : option Q :=
  if String.eqb val "2020:01:01 00:00:00" then Some 1577836800%Q else None.

(** [a.jpg] is the garbled picture, every other one the London picture; the
    geocoder knows no place. *)
Definition env_p : env :=
  mkenv fs_p
        (fun file => if String.eqb file "/p/a.jpg" then garbled else london)
        parse_time
        (fun _ _ _ => ""%string).

Definition fresh : cache_state := mkstate empty_db true [].

(** The store once [/p] and its two pictures have been recorded, before
    any metadata is. *)
Definition scanned : cache_state :=
  mkstate (mkdb [Folder.mk 1 "/p" 100]
                [File.mk 1 1 "a" "jpg" 100; File.mk 2 1 "b" "jpg" 100]
                [] [])
          false [].

(** A process that has just started on a store already in step with the
    disk: [/p] is recorded and holds no picture. *)
Definition restarted : cache_state :=
  mkstate (mkdb [Folder.mk 1 "/p" 100] [] [] []) true [].

Definition fs_quiet : filesystem :=
  mkfs ["/p"]%string (fun _ => 100%Q) (fun _ => [])
       (fun p => String.eqb p "/p").

Definition env_quiet : env :=
  mkenv fs_quiet (fun _ => london) parse_time (fun _ _ _ => ""%string).

(** Later two folders are created under [/p]. *)
Definition fs_grown : filesystem :=
  mkfs ["/p"; "/p/x"; "/p/y"]%string
       (fun p => if String.eqb p "/p" then 200%Q else 150%Q)
       (fun dir => if String.eqb dir "/p" then ["x"; "y"]%string else [])
       (fun p => existsb (String.eqb p) ["/p"; "/p/x"; "/p/y"]%string).

Definition env_grown : env :=
  mkenv fs_grown (fun _ => london) parse_time (fun _ _ _ => ""%string).




(** The same directory after both pictures have been edited. *)
Definition fs_edited : filesystem :=
  mkfs ["/p"; "/p/sub"]%string
       (fun _ => 200%Q)
       (fun dir => if String.eqb dir "/p" then ["a.jpg"; "b.jpg"; "sub"]%string else [])
       (fun p => existsb (String.eqb p) ["/p"; "/p/sub"; "/p/a.jpg"; "/p/b.jpg"]%string).

Definition env_edited : env :=
  mkenv fs_edited (fun _ => london) parse_time (fun _ _ _ => ""%string).

(** One picture with coordinates and no cached place, and a geocoder that
    knows the place. *)
Definition located : cache_state :=
  mkstate (mkdb [Folder.mk 1 "/p" 100]
                [File.mk 1 1 "b" "jpg" 100]
                [Meta.mk 1 1 100 VNull VNull VNull VNull VNull VNull VNull VNull
                         (Some (515012 # 10000)%Q) (Some (-1278 # 10000)%Q) 4000 3000]
                [])
          false [].

Definition env_geo : env :=
  mkenv fs_p (fun _ => london) parse_time (fun _ _ _ => "London"%string).


Definition fs_old_removed : filesystem :=
  mkfs ["/p"]%string (fun _ => 100%Q)
       (fun dir => if String.eqb dir "/p" then ["a.jpg"]%string else [])
       (fun p => existsb (String.eqb p) ["/p"; "/p/a.jpg"]%string).

Definition env_old_removed : env :=
  mkenv fs_old_removed (fun _ => london) parse_time (fun _ _ _ => ""%string).



(** A picture whose tags come as the extractor hands them over: the ISO
    speed and the rating as text, the aperture as an integer, the exposure
    time as a float. *)
Definition tagged : GetImageMeta :=
  mkexifs 1 (4000, 3000)
    (fun tag => if String.eqb tag "EXIF ISOSpeedRatings" then VText "100"
                else if String.eqb tag "EXIF Rating" then VText "3"
                else if String.eqb tag "EXIF FNumber" then VInt 4
                else if String.eqb tag "EXIF ExposureTime" then VReal (1 # 250)
                else if String.eqb tag "EXIF Make" then VText "Canon"
                else VNull)
    (None, None).

Definition env_tagged : env :=
  mkenv fs_p (fun _ => tagged) parse_time (fun _ _ _ => ""%string).

(** A picture recorded without metadata whose file is gone from the disk,
    its folder being still there. *)
Definition stale_picture : database :=
  mkdb [Folder.mk 1 "/p" 100] [File.mk 1 1 "gone" "jpg" 100] [] [].

(** One picture whose row was replaced by a rescan before it ever got
    metadata: its id is 2, and the Meta table is still empty. *)
Definition replaced_picture : database :=
  mkdb [Folder.mk 1 "/p" 100] [File.mk 2 1 "a" "jpg" 200] [] [].



(** Four pictures taken at the same second: 1 and 4 landscape, 2 and 3
    portrait. *)
Definition db_same_second : database :=
  mkdb [Folder.mk 1 "/p" 100]
       [File.mk 1 1 "f1" "jpg" 100; File.mk 2 1 "f2" "jpg" 100;
        File.mk 3 1 "f3" "jpg" 100; File.mk 4 1 "f4" "jpg" 100]
       [plain_meta 1 100 4 3; plain_meta 2 100 3 4; plain_meta 3 100 3 4;
        plain_meta 4 100 4 3]
       [].

(** [ORDER BY exif_datetime DESC] *)
Definition by_exif_datetime_desc (a b : AllData.row) : bool := by_exif_datetime b a.

(** A plan that meets the rows in the order of the File table, and one that
    meets them backwards (an index walked from its end). *)
Definition in_table_order : Sql.plan := fun l => l.
Definition backwards : Sql.plan := fun l => rev l.

End Samples.

(** * Properties *)

(** ** Lists *)

Lemma filter_twice {A : Type} (p q : A -> bool) (l : list A) :
  filter p (filter q l) = filter (fun x => andb (q x) (p x)) l.
Proof.
  induction l as [|x l IH]; simpl; [reflexivity|].
  destruct (q x); simpl; [destruct (p x)|]; rewrite IH; reflexivity.
Qed.

Lemma filter_all {A : Type} (p : A -> bool) (l : list A) :
  (forall x, In x l -> p x = true) -> filter p l = l.
Proof.
  induction l as [|x l IH]; simpl; intros H; [reflexivity|].
  rewrite (H x (or_introl eq_refl)), IH; [reflexivity|].
  intros y Hy. apply H. right. exact Hy.
Qed.

Lemma filter_none {A : Type} (p : A -> bool) (l : list A) :
  (forall x, In x l -> p x = false) -> filter p l = [].
Proof.
  induction l as [|x l IH]; simpl; intros H; [reflexivity|].
  rewrite (H x (or_introl eq_refl)). apply IH.
  intros y Hy. apply H. right. exact Hy.
Qed.

(** ** ORDER BY *)

Section OrderBy.

Context {A : Type}.
Variable le : A -> A -> bool.

Lemma in_insert_sorted x y l :
  In y (Sql.insert_sorted le x l) <-> y = x \/ In y l.
Proof.
  induction l as [|z l IH]; simpl.
  - intuition congruence.
  - destruct (le x z); simpl; [intuition congruence|].
    rewrite IH. intuition congruence.
Qed.

Lemma in_order_by y l : In y (Sql.order_by le l) <-> In y l.
Proof.
  induction l as [|x l IH]; simpl; [reflexivity|].
  rewrite in_insert_sorted, IH. intuition congruence.
Qed.

Hypothesis le_total : forall a b, le a b = true \/ le b a = true.
Hypothesis le_trans : forall a b c, le a b = true -> le b c = true -> le a c = true.

Lemma ordered_insert x l :
  StronglySorted (fun a b => le a b = true) l ->
  StronglySorted (fun a b => le a b = true) (Sql.insert_sorted le x l).
Proof.
  induction 1 as [|z l Hl IH Hz]; simpl.
  - constructor; constructor.
  - destruct (le x z) eqn:E.
    + constructor; [constructor; assumption|].
      constructor; [exact E|].
      apply Forall_forall. intros y Hy. apply le_trans with z; [exact E|].
      rewrite Forall_forall in Hz. apply Hz, Hy.
    + constructor; [exact IH|].
      apply Forall_forall. intros y Hy. apply in_insert_sorted in Hy.
      destruct Hy as [->|Hy]; [|rewrite Forall_forall in Hz; apply Hz, Hy].
      destruct (le_total x z) as [H|H]; congruence.
Qed.

Lemma ordered_order_by l :
  StronglySorted (fun a b => le a b = true) (Sql.order_by le l).
Proof.
  induction l as [|x l IH]; simpl; [constructor|]. apply ordered_insert, IH.
Qed.

Lemma insert_sorted_front x l :
  (forall y, In y l -> le x y = true) -> Sql.insert_sorted le x l = x :: l.
Proof.
  destruct l as [|z l]; simpl; intros H; [reflexivity|].
  rewrite (H z (or_introl eq_refl)). reflexivity.
Qed.

Lemma filter_insert_sorted (p : A -> bool) x l :
  StronglySorted (fun a b => le a b = true) l ->
  filter p (Sql.insert_sorted le x l)
  = if p x then Sql.insert_sorted le x (filter p l) else filter p l.
Proof.
  induction 1 as [|z l Hl IH Hz]; simpl.
  - destruct (p x); reflexivity.
  - rewrite Forall_forall in Hz. destruct (le x z) eqn:E; simpl.
    + destruct (p x) eqn:Px; [|reflexivity].
      destruct (p z) eqn:Pz; simpl; [rewrite E; reflexivity|].
      symmetry. apply insert_sorted_front.
      intros y Hy. apply filter_In in Hy. apply le_trans with z; [exact E|].
      apply Hz, Hy.
    + rewrite IH. destruct (p z) eqn:Pz; simpl; [|reflexivity].
      destruct (p x); [rewrite E|]; reflexivity.
Qed.

(** Restricting the rows commutes with sorting them: the two passes of a
    query see their common rows in the same order. *)
Lemma filter_order_by (p : A -> bool) l :
  filter p (Sql.order_by le l) = Sql.order_by le (filter p l).
Proof.
  induction l as [|x l IH]; simpl; [reflexivity|].
  rewrite filter_insert_sorted by apply ordered_order_by.
  rewrite IH. destruct (p x); reflexivity.
Qed.

End OrderBy.

(** ** The pairing loop *)

Lemma pair_loop_by_rows (pre l : list tuple) (st : list tuple * list tuple) :
  fold_left (pair_step (pre ++ l)) (seq (List.length pre) (List.length l)) st
  = fold_left pair_body l st.
Proof.
  revert pre st. induction l as [|x l IH]; intros pre st; simpl; [reflexivity|].
  unfold pair_step at 2. rewrite app_nth2, Nat.sub_diag by lia. simpl.
  specialize (IH (pre ++ [x]) (pair_body st x)).
  rewrite <- app_assoc, length_app in IH. simpl in IH.
  rewrite Nat.add_1_r in IH. exact IH.
Qed.

Lemma pair_body_walk (rows : list AllData.row) (portraits : list (option Z))
    (newlist : list tuple) :
  (forall r, In r rows ->
     AllData.is_portrait r = Some false -> AllData.file_id r <> Some (-1)) ->
  fst (fold_left pair_body (map landscape_id_or_minus_one rows)
         (newlist, map (fun i => [i]) portraits))
  = (newlist ++ PairingSpec.walk_slots (map PairingSpec.full_pass_entry rows) portraits)%list.
Proof.
  revert portraits newlist.
  induction rows as [|r rows IH]; intros portraits newlist H; simpl.
  - rewrite app_nil_r. reflexivity.
  - assert (Hrows : forall r0, In r0 rows ->
              AllData.is_portrait r0 = Some false -> AllData.file_id r0 <> Some (-1))
      by (intros r0 Hr0; apply H; right; exact Hr0).
    specialize (H r (or_introl eq_refl)).
    unfold landscape_id_or_minus_one, PairingSpec.full_pass_entry.
    destruct (AllData.is_portrait r) as [[|]|] eqn:E; simpl.
    + destruct portraits as [|a [|b more]]; simpl.
      * apply (IH [] newlist Hrows).
      * rewrite (IH [] _ Hrows), <- app_assoc. reflexivity.
      * rewrite (IH more _ Hrows), <- app_assoc. reflexivity.
    + specialize (H eq_refl).
      destruct (AllData.file_id r) as [i|] eqn:Ei; simpl.
      * destruct (Z.eqb_spec i (-1)) as [->|Hne]; [congruence|]. simpl.
        rewrite (IH portraits _ Hrows), <- app_assoc. reflexivity.
      * rewrite (IH portraits _ Hrows), <- app_assoc. reflexivity.
    + destruct portraits as [|a [|b more]]; simpl.
      * apply (IH [] newlist Hrows).
      * rewrite (IH [] _ Hrows), <- app_assoc. reflexivity.
      * rewrite (IH more _ Hrows), <- app_assoc. reflexivity.
Qed.

Lemma query_cache_pairs_slots (scan scan_portraits : Sql.plan) (d : database)
    (where_clause : AllData.row -> bool)
    (sort_clause : AllData.row -> AllData.row -> bool) :
  (forall r, In r (Sql.order_by sort_clause (scan (filter where_clause (all_data d)))) ->
     AllData.is_portrait r = Some false -> AllData.file_id r <> Some (-1)) ->
  query_cache true scan scan_portraits d where_clause sort_clause
  = PairingSpec.slots scan scan_portraits d where_clause sort_clause.
Proof.
  intros H. unfold query_cache, PairingSpec.slots, PairingSpec.full_pass,
    PairingSpec.portrait_pass, Sql.select_all_data. simpl.
  match goal with
  | |- context [fold_left (pair_step ?l) _ ?st] =>
      rewrite (pair_loop_by_rows [] l st : fold_left (pair_step l) (seq 0 (List.length l)) st = _)
  end.
  rewrite <- (map_map AllData.file_id (fun i => [i])).
  rewrite pair_body_walk; [reflexivity|exact H].
Qed.

(** ** Two statements with one sort expression *)

Lemma order_by_permutation {A : Type} (le : A -> A -> bool) (l : list A) :
  Permutation (Sql.order_by le l) l.
Proof.
  induction l as [|x l IH]; cbn [Sql.order_by fold_right]; [constructor|].
  fold (Sql.order_by le l).
  transitivity (x :: Sql.order_by le l); [|constructor; exact IH].
  generalize (Sql.order_by le l) as m. clear.
  induction m as [|y m IH]; cbn [Sql.insert_sorted]; [reflexivity|].
  destruct (le x y); [reflexivity|].
  transitivity (y :: x :: m); [constructor; exact IH|constructor].
Qed.

Lemma filter_permutation {A : Type} (p : A -> bool) (l l' : list A) :
  Permutation l l' -> Permutation (filter p l) (filter p l').
Proof.
  induction 1 as [|x l l' _ IH|x y l|l l' l'' _ IH1 _ IH2]; cbn [filter].
  - constructor.
  - destruct (p x); [constructor|]; exact IH.
  - destruct (p x), (p y); try reflexivity. constructor.
  - transitivity (filter p l'); assumption.
Qed.

Lemma sorted_filter {A : Type} (R : A -> A -> Prop) (p : A -> bool) (l : list A) :
  StronglySorted R l -> StronglySorted R (filter p l).
Proof.
  induction 1 as [|x l _ IH Hx]; cbn [filter]; [constructor|].
  destruct (p x); [|exact IH]. constructor; [exact IH|].
  apply Forall_forall. intros y Hy. apply filter_In in Hy.
  rewrite Forall_forall in Hx. apply Hx, Hy.
Qed.

(** Rows that never tie have one sorted order only. *)
Lemma sorted_unique {A : Type} (le : A -> A -> bool) (l1 l2 : list A) :
  StronglySorted (fun a b => le a b = true) l1 ->
  StronglySorted (fun a b => le a b = true) l2 ->
  Permutation l1 l2 -> no_ties le l1 -> l1 = l2.
Proof.
  intros H1. revert l2. induction H1 as [|a t1 Ht1 IH Ha]; intros l2 H2 Hperm Hties.
  - apply Permutation_nil in Hperm. symmetry. exact Hperm.
  - destruct H2 as [|b t2 Ht2 Hb].
    + apply Permutation_sym, Permutation_nil in Hperm. discriminate.
    + rewrite Forall_forall in Ha, Hb.
      assert (Hab : a = b).
      { assert (Ia : In a (b :: t2))
          by (apply (Permutation_in _ Hperm); left; reflexivity).
        assert (Ib : In b (a :: t1))
          by (apply (Permutation_in _ (Permutation_sym Hperm)); left; reflexivity).
        destruct Ia as [Ia|Ia]; [symmetry; exact Ia|].
        destruct Ib as [Ib|Ib]; [exact Ib|].
        apply Hties; [left; reflexivity|right; exact Ib|apply Ha, Ib|apply Hb, Ia]. }
      subst b. f_equal. apply IH; [exact Ht2|apply (Permutation_cons_inv Hperm)|].
      intros x y Hx Hy. apply Hties; right; assumption.
Qed.

(** When no two matching portraits tie under the sort expression, the
    second statement returns the portraits in the order in which the first
    one has them. *)
Lemma portrait_pass_same_order (scan scan_portraits : Sql.plan) (d : database)
    (w : AllData.row -> bool) (le : AllData.row -> AllData.row -> bool) :
  complete scan -> complete scan_portraits ->
  (forall a b, le a b = true \/ le b a = true) ->
  (forall a b c, le a b = true -> le b c = true -> le a c = true) ->
  no_ties le (filter (fun r => andb (w r) (portrait r)) (all_data d)) ->
  Sql.order_by le (scan_portraits (filter (fun r => andb (w r) (portrait r)) (all_data d)))
  = filter portrait (Sql.order_by le (scan (filter w (all_data d)))).
Proof.
  intros Hscan Hscanp Htot Htrans Hties.
  assert (Hperm : Permutation
            (Sql.order_by le
               (scan_portraits (filter (fun r => andb (w r) (portrait r)) (all_data d))))
            (filter (fun r => andb (w r) (portrait r)) (all_data d))).
  { transitivity (scan_portraits (filter (fun r => andb (w r) (portrait r)) (all_data d)));
      [apply order_by_permutation|apply Hscanp]. }
  apply (sorted_unique le).
  - apply ordered_order_by; assumption.
  - apply (sorted_filter (fun a b => le a b = true)), ordered_order_by; assumption.
  - transitivity (filter (fun r => andb (w r) (portrait r)) (all_data d)); [exact Hperm|].
    rewrite <- filter_twice. apply filter_permutation. symmetry.
    transitivity (scan (filter w (all_data d))); [apply order_by_permutation|apply Hscan].
  - intros x y Hx Hy. apply Hties; apply (Permutation_in _ Hperm); assumption.
Qed.

(** The portraits among the rows that match, when the first statement
    returns the rows [rows]. *)
Lemma portraits_of_full_pass (scan : Sql.plan) (d : database) (w : AllData.row -> bool)
    (le : AllData.row -> AllData.row -> bool) (rows : list AllData.row) :
  complete scan ->
  Sql.order_by le (scan (filter w (all_data d))) = rows ->
  Permutation (filter (fun r => andb (w r) (portrait r)) (all_data d))
              (filter portrait rows).
Proof.
  intros Hscan <-. rewrite <- filter_twice. apply filter_permutation. symmetry.
  transitivity (scan (filter w (all_data d))); [apply order_by_permutation|apply Hscan].
Qed.

(** The claim of C1 fails when rows tie under the sort expression: four
    pictures taken at the same second come out of the first statement as
    [landscape 1, portrait 2, portrait 3, landscape 4], the second statement
    walks the index on the capture time from its end and returns the
    portraits as 3, 2, and the slots are [[1],[3,2],[4]], not
    [[1],[2,3],[4]]. *)
Lemma portrait_pairs_differ_on_ties :
  map (fun r => (AllData.file_id r, AllData.is_portrait r))
      (Sql.order_by Samples.by_exif_datetime_desc
         (Samples.in_table_order (filter Samples.anything (all_data Samples.db_same_second))))
  = [(Some 1, Some false); (Some 2, Some true); (Some 3, Some true); (Some 4, Some false)]
  /\ PairingSpec.portrait_pass Samples.backwards Samples.db_same_second Samples.anything
       Samples.by_exif_datetime_desc
     = [Some 3; Some 2]
  /\ query_cache true Samples.in_table_order Samples.backwards Samples.db_same_second
       Samples.anything Samples.by_exif_datetime_desc
     = [[Some 1]; [Some 3; Some 2]; [Some 4]]
  /\ query_cache true Samples.in_table_order Samples.backwards Samples.db_same_second
       Samples.anything Samples.by_exif_datetime_desc
     <> [[Some 1]; [Some 2; Some 3]; [Some 4]].
Proof.
  split; [vm_compute; reflexivity|]. split; [vm_compute; reflexivity|].
  split; [vm_compute; reflexivity|]. vm_compute. discriminate.
Qed.

(** C1, as the code has it.  In portrait-pairing mode [query_cache] returns,
    for every filter and sort expression, the slots obtained by walking the
    full pass (ids of the landscape rows, a sentinel for the others) and
    taking up to two ids from the front of the portrait pass at each
    sentinel.  The two passes are two statements with one sort expression:
    when no two matching portraits tie under it, the portrait pass has the
    portraits in the order of the full pass; then rows sorted as
    [landscape A, portrait B, portrait C, landscape D] give [[A],[B,C],[D]]
    and rows sorted as [portrait B, portrait C, portrait D] give
    [[B,C],[D]].  File ids are row ids, hence never the sentinel -1. *)
Theorem query_cache_portrait_pairs :
  (forall scan scan_portraits d where_clause sort_clause,
      (forall r, In r (Sql.order_by sort_clause (scan (filter where_clause (all_data d)))) ->
         AllData.is_portrait r = Some false -> AllData.file_id r <> Some (-1)) ->
      query_cache true scan scan_portraits d where_clause sort_clause
      = PairingSpec.slots scan scan_portraits d where_clause sort_clause)
  /\ (forall scan scan_portraits d w le,
      complete scan -> complete scan_portraits ->
      (forall x y, le x y = true \/ le y x = true) ->
      (forall x y z, le x y = true -> le y z = true -> le x z = true) ->
      no_ties le (filter (fun r => andb (w r) (portrait r)) (all_data d)) ->
      PairingSpec.portrait_pass scan_portraits d w le
      = map AllData.file_id
          (filter portrait (Sql.order_by le (scan (filter w (all_data d))))))
  /\ (forall scan scan_portraits d w le rA rB rC rD a b c dd,
      complete scan -> complete scan_portraits ->
      (forall x y, le x y = true \/ le y x = true) ->
      (forall x y z, le x y = true -> le y z = true -> le x z = true) ->
      Sql.order_by le (scan (filter w (all_data d))) = [rA; rB; rC; rD] ->
      AllData.is_portrait rA = Some false -> AllData.file_id rA = Some a -> a <> -1 ->
      AllData.is_portrait rB = Some true -> AllData.file_id rB = Some b ->
      AllData.is_portrait rC = Some true -> AllData.file_id rC = Some c ->
      AllData.is_portrait rD = Some false -> AllData.file_id rD = Some dd -> dd <> -1 ->
      le rC rB = false ->
      query_cache true scan scan_portraits d w le
      = [[Some a]; [Some b; Some c]; [Some dd]])
  /\ (forall scan scan_portraits d w le rB rC rD b c dd,
      complete scan -> complete scan_portraits ->
      (forall x y, le x y = true \/ le y x = true) ->
      (forall x y z, le x y = true -> le y z = true -> le x z = true) ->
      Sql.order_by le (scan (filter w (all_data d))) = [rB; rC; rD] ->
      AllData.is_portrait rB = Some true -> AllData.file_id rB = Some b ->
      AllData.is_portrait rC = Some true -> AllData.file_id rC = Some c ->
      AllData.is_portrait rD = Some true -> AllData.file_id rD = Some dd ->
      le rC rB = false -> le rD rC = false ->
      query_cache true scan scan_portraits d w le = [[Some b; Some c]; [Some dd]]).
Proof.
  split; [exact query_cache_pairs_slots|]. split; [|split].
  - intros scan scanp d w le Hscan Hscanp Htot Htrans Hties.
    unfold PairingSpec.portrait_pass, Sql.select_all_data.
    rewrite (portrait_pass_same_order scan scanp d w le); auto.
  - intros scan scanp d w le rA rB rC rD a b c dd Hscan Hscanp Htot Htrans Hrows
      PA IA Na PB IB PC IC PD ID Nd Hlt.
    pose proof (portraits_of_full_pass scan d w le _ Hscan Hrows) as Hperm.
    unfold portrait in Hperm at 2. cbn [filter] in Hperm.
    rewrite PA, PB, PC, PD in Hperm.
    assert (Hties : no_ties le (filter (fun r => andb (w r) (portrait r)) (all_data d))).
    { intros x y Hx Hy Hxy Hyx.
      apply (Permutation_in _ Hperm) in Hx. apply (Permutation_in _ Hperm) in Hy.
      destruct Hx as [<-|[<-|[]]], Hy as [<-|[<-|[]]]; congruence. }
    unfold query_cache, Sql.select_all_data. cbn [negb].
    rewrite (portrait_pass_same_order scan scanp d w le Hscan Hscanp Htot Htrans Hties).
    rewrite Hrows. unfold landscape_id_or_minus_one, portrait. simpl.
    rewrite PA, PB, PC, PD. simpl. rewrite IA, IB, IC, ID.
    unfold pair_step, pair_body. simpl.
    destruct (Z.eqb_spec a (-1)) as [|_]; [contradiction|].
    destruct (Z.eqb_spec dd (-1)) as [|_]; [contradiction|].
    reflexivity.
  - intros scan scanp d w le rB rC rD b c dd Hscan Hscanp Htot Htrans Hrows
      PB IB PC IC PD ID Hcb Hdc.
    pose proof (portraits_of_full_pass scan d w le _ Hscan Hrows) as Hperm.
    unfold portrait in Hperm at 2. cbn [filter] in Hperm.
    rewrite PB, PC, PD in Hperm.
    assert (Hdb : le rD rB = false).
    { destruct (le rD rB) eqn:E; [|reflexivity].
      destruct (Htot rB rC) as [H|H]; [|congruence].
      rewrite (Htrans _ _ _ E H) in Hdc. discriminate. }
    assert (Hties : no_ties le (filter (fun r => andb (w r) (portrait r)) (all_data d))).
    { intros x y Hx Hy Hxy Hyx.
      apply (Permutation_in _ Hperm) in Hx. apply (Permutation_in _ Hperm) in Hy.
      destruct Hx as [<-|[<-|[<-|[]]]], Hy as [<-|[<-|[<-|[]]]]; congruence. }
    unfold query_cache, Sql.select_all_data. cbn [negb].
    rewrite (portrait_pass_same_order scan scanp d w le Hscan Hscanp Htot Htrans Hties).
    rewrite Hrows. unfold landscape_id_or_minus_one, portrait. simpl.
    rewrite PB, PC, PD. simpl. rewrite IB, IC, ID. reflexivity.
Qed.

Lemma by_exif_datetime_total (x y : AllData.row) :
  Samples.by_exif_datetime x y = true \/ Samples.by_exif_datetime y x = true.
Proof.
  unfold Samples.by_exif_datetime.
  destruct (AllData.r_meta x) as [a|], (AllData.r_meta y) as [b|]; auto.
  destruct (Qlt_le_dec (Meta.exif_datetime b) (Meta.exif_datetime a)) as [H|H].
  - right. apply Qle_bool_iff. apply Qlt_le_weak. exact H.
  - left. apply Qle_bool_iff. exact H.
Qed.

Lemma by_exif_datetime_trans (x y z : AllData.row) :
  Samples.by_exif_datetime x y = true -> Samples.by_exif_datetime y z = true ->
  Samples.by_exif_datetime x z = true.
Proof.
  unfold Samples.by_exif_datetime.
  destruct (AllData.r_meta x) as [a|], (AllData.r_meta y) as [b|],
    (AllData.r_meta z) as [c|]; auto; try discriminate.
  rewrite !Qle_bool_iff. apply Qle_trans.
Qed.

Lemma sample_plans_complete :
  complete Samples.in_table_order /\ complete Samples.backwards.
Proof.
  split; intros l; [apply Permutation_refl|].
  apply Permutation_sym, Permutation_rev.
Qed.

Lemma query_cache_portrait_pairs_witness :
  (forall r, In r (Sql.order_by Samples.by_exif_datetime
                     (Samples.backwards (filter Samples.anything
                                           (all_data Samples.db_lppl)))) ->
     AllData.is_portrait r = Some false -> AllData.file_id r <> Some (-1))
  /\ query_cache true Samples.backwards Samples.in_table_order Samples.db_lppl
       Samples.anything Samples.by_exif_datetime
     = [[Some 1]; [Some 2; Some 3]; [Some 4]]
  /\ no_ties Samples.by_exif_datetime
       (filter (fun r => andb (Samples.anything r) (portrait r))
               (all_data Samples.db_lppl))
  /\ PairingSpec.portrait_pass Samples.in_table_order Samples.db_lppl Samples.anything
       Samples.by_exif_datetime
     = map AllData.file_id
         (filter portrait
            (Sql.order_by Samples.by_exif_datetime
               (Samples.backwards (filter Samples.anything (all_data Samples.db_lppl))))).
Proof.
  assert (H : forall r, In r (Sql.order_by Samples.by_exif_datetime
                     (Samples.backwards (filter Samples.anything
                                           (all_data Samples.db_lppl)))) ->
     AllData.is_portrait r = Some false -> AllData.file_id r <> Some (-1)).
  { intros r Hr _. vm_compute in Hr.
    destruct Hr as [<-|[<-|[<-|[<-|[]]]]]; vm_compute; discriminate. }
  assert (Hties : no_ties Samples.by_exif_datetime
                    (filter (fun r => andb (Samples.anything r) (portrait r))
                            (all_data Samples.db_lppl))).
  { intros x y Hx Hy. vm_compute in Hx, Hy.
    destruct Hx as [<-|[<-|[]]], Hy as [<-|[<-|[]]]; intros H1 H2;
      try reflexivity; vm_compute in H1, H2; discriminate. }
  split; [exact H|]. split.
  - rewrite (proj1 query_cache_portrait_pairs Samples.backwards Samples.in_table_order
               Samples.db_lppl Samples.anything Samples.by_exif_datetime H).
    vm_compute. reflexivity.
  - split; [exact Hties|].
    apply (proj1 (proj2 query_cache_portrait_pairs) Samples.backwards
             Samples.in_table_order Samples.db_lppl Samples.anything
             Samples.by_exif_datetime
             (proj2 sample_plans_complete) (proj1 sample_plans_complete)
             by_exif_datetime_total by_exif_datetime_trans Hties).
Defined.

(** ** Looking a record up *)

Lemma find_none_iff {A : Type} (p : A -> bool) (l : list A) :
  find p l = None <-> (forall x, In x l -> p x = false).
Proof.
  split; [apply find_none|].
  intros H. destruct (find p l) eqn:E; [|reflexivity].
  apply find_some in E. destruct E as [Hin Hp]. rewrite (H _ Hin) in Hp. discriminate.
Qed.

(** C9. For a file id that no row of the view carries, [get_file_info] does
    not return: the lookup yields no row and the field access on it raises
    (TypeError), leaving the store and the geocoder untouched. *)
Theorem get_file_info_unknown_id_raises (e : env) (s : cache_state) (i : Z) :
  (forall r, In r (all_data (db s)) -> AllData.file_id r <> Some i) ->
  select_by_file_id (db s) i = None
  /\ get_file_info e i s = (Raise TypeError, s).
Proof.
  intros H.
  assert (Hnone : select_by_file_id (db s) i = None).
  { apply find_none_iff. intros r Hr. specialize (H r Hr).
    destruct (AllData.file_id r) as [j|]; simpl; [|reflexivity].
    destruct (Z.eqb_spec j i); congruence. }
  split; [exact Hnone|].
  unfold get_file_info, bind, get_db. rewrite Hnone. reflexivity.
Qed.

Lemma get_file_info_unknown_id_raises_witness :
  (forall r, In r (all_data (db Samples.fresh)) -> AllData.file_id r <> Some 12)
  /\ get_file_info Samples.env_p 12 Samples.fresh = (Raise TypeError, Samples.fresh).
Proof.
  assert (H : forall r, In r (all_data (db Samples.fresh)) -> AllData.file_id r <> Some 12)
    by (intros r []).
  split; [exact H|].
  exact (proj2 (get_file_info_unknown_id_raises Samples.env_p Samples.fresh 12 H)).
Defined.

(** ** Rounding of coordinates *)

Lemma round_half_even_near (y : Q) :
  (Qabs (y - inject_Z (Py.round_half_even y)) <= 1 # 2)%Q.
Proof.
  unfold Py.round_half_even.
  pose proof (Qfloor_le y) as Hlo. pose proof (Qlt_floor y) as Hhi.
  rewrite inject_Z_plus in Hhi. change (inject_Z 1) with 1%Q in Hhi.
  apply Qabs_Qle_condition.
  destruct (Qcompare (y - inject_Z (Qfloor y)) (1 # 2)) eqn:E.
  - apply Qeq_alt in E.
    destruct (Z.even (Qfloor y));
      [|rewrite inject_Z_plus; change (inject_Z 1) with 1%Q]; lra.
  - apply Qlt_alt in E. lra.
  - apply Qgt_alt in E. rewrite inject_Z_plus. change (inject_Z 1) with 1%Q. lra.
Qed.

Lemma round4_near (x : Q) : (Qabs (x - Py.round x 4) <= 1 # 20000)%Q.
Proof.
  unfold Py.round.
  change (Z.pow 10 (Z.of_nat 4)) with 10000.
  change (Z.to_pos 10000) with 10000%positive.
  pose proof (round_half_even_near (x * inject_Z 10000)) as H.
  apply Qabs_Qle_condition in H. apply Qabs_Qle_condition.
  set (k := Py.round_half_even (x * inject_Z 10000)) in *.
  assert (Hk : (k # 10000 == inject_Z k * (1 # 10000))%Q)
    by (unfold Qeq, Qmult, inject_Z; simpl; lia).
  rewrite Hk. change (inject_Z 10000) with (10000 # 1)%Q in H.
  split; lra.
Qed.

Lemma get_exif_info_gps (e : env) (file : string) (m : Meta.row) :
  get_exif_info e file = Return m ->
  Meta.latitude m = round4 (fst (get_location (image_meta e file)))
  /\ Meta.longitude m = round4 (snd (get_location (image_meta e file))).
Proof.
  unfold get_exif_info.
  destruct (get_size (image_meta e file)) as [w h].
  destruct (swaps_sides _).
  all: destruct (get_exif (image_meta e file) "EXIF DateTimeOriginal") as [| | |val];
    try discriminate.
  all: unfold getmtime.
  all: try (destruct (path_exists (fs e) file); try discriminate).
  all: try (destruct (strptime_mktime e val); try discriminate).
  all: destruct (get_location (image_meta e file)) as [lat lon].
  all: intros H; injection H as <-; split; reflexivity.
Qed.

Lemma collect_meta_in (e : env) (files : list string) (l : list (string * Meta.row)) :
  collect_meta e files = Return l ->
  forall p, In p l -> In (fst p) files /\ get_exif_info e (fst p) = Return (snd p).
Proof.
  revert l. induction files as [|file files IH]; simpl; intros l H p Hp.
  - injection H as <-. destruct Hp.
  - destruct (get_exif_info e file) as [m|x] eqn:E; [|discriminate].
    destruct (collect_meta e files) as [l'|x]; [|discriminate].
    injection H as <-. destruct Hp as [<-|Hp]; simpl.
    + split; [left; reflexivity|exact E].
    + destruct (IH l' eq_refl p Hp) as [H1 H2]. split; [right; exact H1|exact H2].
Qed.

Lemma insert_meta_rows (l : list (string * Meta.row)) (d : database) (row : Meta.row) :
  In row (meta (fold_left Sql.insert_or_replace_meta l d)) ->
  In row (meta d)
  \/ exists p, In p l /\ Meta.latitude row = Meta.latitude (snd p)
               /\ Meta.longitude row = Meta.longitude (snd p).
Proof.
  revert d. induction l as [|[fn m] l IH]; simpl; intros d H; [left; exact H|].
  apply IH in H. destruct H as [H|[p [Hp Hll]]].
  - unfold Sql.insert_or_replace_meta in H. simpl in H.
    apply in_app_or in H. destruct H as [H|[<-|[]]].
    + left. apply filter_In in H. apply H.
    + right. exists (fn, m). simpl. auto.
  - right. exists p. auto.
Qed.

(** ** The Metadata Updater *)

Lemma collect_meta_raises (e : env) (files : list string) (file : string) (x : exn) :
  In file files -> get_exif_info e file = Raise x ->
  exists y, collect_meta e files = Raise y.
Proof.
  induction files as [|f files IH]; simpl; intros Hin Hx; [destruct Hin|].
  destruct (get_exif_info e f) as [m|y] eqn:E; [|exists y; reflexivity].
  destruct Hin as [->|Hin]; [congruence|].
  destruct (IH Hin Hx) as [y Hy]. rewrite Hy. exists y. reflexivity.
Qed.

Lemma collect_meta_returns (e : env) (files : list string) :
  (forall file, In file files -> exists m, get_exif_info e file = Return m) ->
  exists l, collect_meta e files = Return l /\ map fst l = files.
Proof.
  induction files as [|f files IH]; simpl; intros H.
  - exists []. split; reflexivity.
  - destruct (H f (or_introl eq_refl)) as [m Hm]. rewrite Hm.
    destruct IH as [l [Hl Hfst]]; [intros file Hf; apply H; right; exact Hf|].
    rewrite Hl. exists ((f, m) :: l). simpl. rewrite Hfst. split; reflexivity.
Qed.

(** The last statement of a batch leaves its row at the end of the table. *)
Lemma last_meta_row_stored (e : env) (pre : list string) (file : string) (s : cache_state) :
  (forall f, In f (pre ++ [file]) -> exists m, get_exif_info e f = Return m) ->
  exists s' rows row,
    update_meta_data e (pre ++ [file]) s = (Return tt, s')
    /\ meta (db s') = (rows ++ [row])%list
    /\ Meta.latitude row = round4 (fst (get_location (image_meta e file)))
    /\ Meta.longitude row = round4 (snd (get_location (image_meta e file))).
Proof.
  intros H. destruct (collect_meta_returns e _ H) as [l [Hl Hfst]].
  destruct (exists_last (l := l)) as [l' [[f m] ->]].
  { intros ->. destruct pre; discriminate Hfst. }
  rewrite map_app in Hfst. apply app_inj_tail in Hfst. destruct Hfst as [_ Hf].
  cbn [fst] in Hf. subst f.
  destruct (collect_meta_in e _ _ Hl (file, m)) as [_ Hm];
    [apply in_or_app; right; left; reflexivity|].
  cbn [fst snd] in Hm. apply get_exif_info_gps in Hm. destruct Hm as [Hla Hlo].
  unfold update_meta_data. rewrite Hl, fold_left_app. cbn [fold_left].
  unfold Sql.insert_or_replace_meta at 1. cbv zeta.
  eexists. eexists. eexists. split; [reflexivity|].
  cbn [db set_db meta set_meta]. split; [reflexivity|].
  cbn [Meta.latitude Meta.longitude]. split; assumption.
Qed.

(** C7. The latitude and longitude read from a file are rounded to 4
    decimal places (a multiple of 1/10000 at most 1/20000 away) before they
    are stored in the Meta row, an absent coordinate staying NULL: a batch
    whose extractions succeed is written, its last statement leaving at the
    end of the Meta table a row that holds the rounded coordinates of its
    file, and every row the table holds after a batch was there before or
    holds the rounded coordinates of a file of the batch.  The reading
    (51.50123456, -0.12783210) is stored as (51.5012, -0.1278), whether the
    reading is taken as the decimal fractions written or as the doubles
    nearest to them (906019299896627 / 2^44 and -143926149481497 / 2^50). *)
Theorem gps_rounded_to_4_places :
  (forall e file m,
      get_exif_info e file = Return m ->
      Meta.latitude m = round4 (fst (get_location (image_meta e file)))
      /\ Meta.longitude m = round4 (snd (get_location (image_meta e file))))
  /\ (forall e pre file s,
      (forall f, In f (pre ++ [file]) -> exists m, get_exif_info e f = Return m) ->
      exists s' rows row,
        update_meta_data e (pre ++ [file]) s = (Return tt, s')
        /\ meta (db s') = (rows ++ [row])%list
        /\ Meta.latitude row = round4 (fst (get_location (image_meta e file)))
        /\ Meta.longitude row = round4 (snd (get_location (image_meta e file))))
  /\ (forall e files s s' row,
      update_meta_data e files s = (Return tt, s') ->
      In row (meta (db s')) ->
      In row (meta (db s))
      \/ exists file, In file files
           /\ Meta.latitude row = round4 (fst (get_location (image_meta e file)))
           /\ Meta.longitude row = round4 (snd (get_location (image_meta e file))))
  /\ (forall x, (exists k, Py.round x 4 = (k # 10000)%Q)
                /\ (Qabs (x - Py.round x 4) <= 1 # 20000)%Q)
  /\ round4 None = None
  /\ Py.round (5150123456 # 100000000) 4 = (515012 # 10000)%Q
  /\ Py.round (-12783210 # 100000000) 4 = (-1278 # 10000)%Q
  /\ Py.round (906019299896627 # 17592186044416) 4 = (515012 # 10000)%Q
  /\ Py.round (-143926149481497 # 1125899906842624) 4 = (-1278 # 10000)%Q.
Proof.
  split; [exact get_exif_info_gps|].
  split; [exact last_meta_row_stored|].
  split.
  - intros e files s s' row H Hrow. unfold update_meta_data in H.
    destruct (collect_meta e files) as [l|x] eqn:E; [|discriminate].
    injection H as <-. simpl in Hrow.
    apply insert_meta_rows in Hrow. destruct Hrow as [Hrow|[p [Hp [Hla Hlo]]]].
    + left. exact Hrow.
    + right. destruct (collect_meta_in e files l E p Hp) as [Hin Hexif].
      exists (fst p). apply get_exif_info_gps in Hexif. destruct Hexif as [H1 H2].
      split; [exact Hin|]. split; congruence.
  - split; [|repeat split; reflexivity].
    intros x. split; [|apply round4_near].
    eexists. reflexivity.
Qed.

Lemma gps_rounded_to_4_places_witness :
  get_location (image_meta Samples.env_geo "/p/b.jpg"%string)
  = (Some (5150123456 # 100000000)%Q, Some (-12783210 # 100000000)%Q)
  /\ update_meta_data Samples.env_geo (["/p/a.jpg"%string] ++ ["/p/b.jpg"%string])%list Samples.scanned
     = (Return tt,
        mkstate (mkdb [Folder.mk 1 "/p" 100]
                      [File.mk 1 1 "a" "jpg" 100; File.mk 2 1 "b" "jpg" 100]
                      [Meta.mk 1 1 100 (VReal 0) VNull (VReal 0) VNull VNull VNull VNull VNull
                               (Some (515012 # 10000)%Q) (Some (-1278 # 10000)%Q) 4000 3000;
                       Meta.mk 2 1 100 (VReal 0) VNull (VReal 0) VNull VNull VNull VNull VNull
                               (Some (515012 # 10000)%Q) (Some (-1278 # 10000)%Q) 4000 3000]
                      [])
                false [])
  /\ exists s' rows row,
       update_meta_data Samples.env_geo (["/p/a.jpg"%string] ++ ["/p/b.jpg"%string])%list Samples.scanned
       = (Return tt, s')
       /\ meta (db s') = (rows ++ [row])%list
       /\ Meta.latitude row
          = round4 (fst (get_location (image_meta Samples.env_geo "/p/b.jpg"%string)))
       /\ Meta.longitude row
          = round4 (snd (get_location (image_meta Samples.env_geo "/p/b.jpg"%string))).
Proof.
  split; [reflexivity|]. split; [vm_compute; reflexivity|].
  apply (proj1 (proj2 gps_rounded_to_4_places) Samples.env_geo
           ["/p/a.jpg"%string] "/p/b.jpg"%string Samples.scanned).
  intros f Hf. eexists. destruct Hf as [<-|[<-|[]]]; vm_compute; reflexivity.
Defined.

(** The claim of C3 fails on the sample batch: [a.jpg] carries a capture
    time that does not parse, the exception leaves the updater, and
    [b.jpg], whose extraction succeeds, gets no Meta row. *)
Lemma update_meta_data_not_isolated :
  update_cache Samples.env_p Samples.fresh = (Raise ValueError, Samples.scanned)
  /\ get_exif_info Samples.env_p "/p/a.jpg"%string = Raise ValueError
  /\ update_meta_data Samples.env_p ["/p/a.jpg"; "/p/b.jpg"]%string Samples.scanned
     = (Raise ValueError, Samples.scanned)
  /\ ~ isolates_failures Samples.env_p ["/p/a.jpg"; "/p/b.jpg"]%string Samples.scanned.
Proof.
  split; [vm_compute; reflexivity|].
  split; [vm_compute; reflexivity|].
  split; [vm_compute; reflexivity|].
  intros [H _]. vm_compute in H. discriminate.
Qed.

(** C3, as the code has it. An extraction failure on one file of a batch is
    not isolated: the exception leaves the Metadata Updater before anything
    is written, so no Meta row of the batch is upserted, for the failing
    file or for any other, and it leaves [update_cache] as well.  The rows
    of a batch are upserted only when no extraction fails. *)
Theorem extraction_failure_aborts_batch :
  (forall e files s file x,
      In file files -> get_exif_info e file = Raise x ->
      exists y, update_meta_data e files s = (Raise y, s))
  /\ (forall e s modified_folders s1 files s2 file x,
      update_modified_folders e s = (Return modified_folders, s1) ->
      update_modified_files e modified_folders s1 = (Return files, s2) ->
      In file files -> get_exif_info e file = Raise x ->
      exists y, update_cache e s = (Raise y, s2))
  /\ (forall e files s,
      (forall file, In file files -> exists m, get_exif_info e file = Return m) ->
      exists l, collect_meta e files = Return l /\ map fst l = files
        /\ update_meta_data e files s
           = (Return tt, set_db s (fold_left Sql.insert_or_replace_meta l (db s)))).
Proof.
  split; [|split].
  - intros e files s file x Hin Hx.
    destruct (collect_meta_raises e files file x Hin Hx) as [y Hy].
    exists y. unfold update_meta_data. rewrite Hy. reflexivity.
  - intros e s mf s1 files s2 file x H1 H2 Hin Hx.
    destruct (collect_meta_raises e files file x Hin Hx) as [y Hy].
    exists y. unfold update_cache, bind. rewrite H1, H2.
    unfold update_meta_data. rewrite Hy. reflexivity.
  - intros e files s H.
    destruct (collect_meta_returns e files H) as [l [Hl Hfst]].
    exists l. split; [exact Hl|]. split; [exact Hfst|].
    unfold update_meta_data. rewrite Hl. reflexivity.
Qed.

Lemma extraction_failure_aborts_batch_witness :
  In "/p/a.jpg"%string ["/p/a.jpg"; "/p/b.jpg"]%string
  /\ get_exif_info Samples.env_p "/p/a.jpg"%string = Raise ValueError
  /\ exists y, update_meta_data Samples.env_p ["/p/a.jpg"; "/p/b.jpg"]%string Samples.scanned
               = (Raise y, Samples.scanned).
Proof.
  assert (Hin : In "/p/a.jpg"%string ["/p/a.jpg"; "/p/b.jpg"]%string)
    by (left; reflexivity).
  assert (Hx : get_exif_info Samples.env_p "/p/a.jpg"%string = Raise ValueError)
    by (vm_compute; reflexivity).
  split; [exact Hin|]. split; [exact Hx|].
  exact (proj1 extraction_failure_aborts_batch Samples.env_p _ Samples.scanned _ _ Hin Hx).
Defined.

(** ** The Directory Scanner *)

Lemma scan_folders_sound (e : env) (d : database) (first : bool) (dirs : list string) :
  forall p, In p (fst (scan_folders e d first dirs)) ->
    In (snd p) dirs /\ folder_out_of_date e d (snd p) = true
    /\ fst p = Py.int (st_mtime (fs e) (snd p)).
Proof.
  induction dirs as [|dir rest IH]; simpl; intros p Hp; [destruct Hp|].
  destruct (folder_out_of_date e d dir) eqn:E.
  - destruct first.
    + destruct Hp as [<-|[]]. simpl. auto.
    + destruct (scan_folders e d false rest) as [l fr]. simpl in *.
      destruct Hp as [<-|Hp]; simpl; [auto|].
      destruct (IH p Hp) as [H1 H2]. auto.
  - destruct (IH p Hp) as [H1 H2]. auto.
Qed.

(** With the flag clear the scan walks the whole tree. *)
Lemma scan_folders_whole_tree (e : env) (d : database) (dirs : list string) :
  scan_folders e d false dirs
  = (map (fun dir => (Py.int (st_mtime (fs e) dir), dir))
         (filter (folder_out_of_date e d) dirs), false).
Proof.
  induction dirs as [|dir rest IH]; simpl; [reflexivity|].
  destruct (folder_out_of_date e d dir); [|exact IH].
  rewrite IH. reflexivity.
Qed.

(** With the flag set the scan stops at the first folder out of date, and
    the flag is cleared only if there is one. *)
Lemma scan_folders_first_run (e : env) (d : database) (dirs : list string) :
  scan_folders e d true dirs
  = match filter (folder_out_of_date e d) dirs with
    | [] => ([], true)
    | dir :: _ => ([(Py.int (st_mtime (fs e) dir), dir)], false)
    end.
Proof.
  induction dirs as [|dir rest IH]; simpl; [reflexivity|].
  destruct (folder_out_of_date e d dir); [reflexivity|exact IH].
Qed.

Lemma scan_folders_nothing (e : env) (d : database) (first : bool) (dirs : list string) :
  (forall dir, In dir dirs -> folder_out_of_date e d dir = false) ->
  scan_folders e d first dirs = ([], first).
Proof.
  intros H. destruct first.
  - rewrite scan_folders_first_run, (filter_none _ _ H). reflexivity.
  - rewrite scan_folders_whole_tree, (filter_none _ _ H). reflexivity.
Qed.

(** ** Upserts of folder rows *)

Lemma insert_folders_other_tables (l : list (Z * string)) (d : database) :
  file (fold_left Sql.insert_or_ignore_folder l d) = file d
  /\ meta (fold_left Sql.insert_or_ignore_folder l d) = meta d
  /\ location (fold_left Sql.insert_or_ignore_folder l d) = location d.
Proof.
  revert d. induction l as [|[t nm] l IH]; intros d; cbn [fold_left]; [auto|].
  destruct (IH (Sql.insert_or_ignore_folder d (t, nm))) as [H1 [H2 H3]].
  rewrite H1, H2, H3. unfold Sql.insert_or_ignore_folder.
  destruct (existsb _ (folder d)); auto.
Qed.

Lemma update_folders_other_tables (l : list (Z * string)) (d : database) :
  file (fold_left Sql.update_folder l d) = file d
  /\ meta (fold_left Sql.update_folder l d) = meta d
  /\ location (fold_left Sql.update_folder l d) = location d.
Proof.
  revert d. induction l as [|[t nm] l IH]; intros d; cbn [fold_left]; [auto|].
  destruct (IH (Sql.update_folder d (t, nm))) as [H1 [H2 H3]].
  rewrite H1, H2, H3. auto.
Qed.

(** INSERT OR IGNORE only appends, and afterwards every name of the batch
    is in the table. *)
Lemma insert_folders_appends (l : list (Z * string)) (d : database) :
  exists extra,
    folder (fold_left Sql.insert_or_ignore_folder l d) = (folder d ++ extra)%list
    /\ (forall nm, In nm (map snd l) ->
          existsb (has_name nm) (folder d ++ extra) = true).
Proof.
  revert d. induction l as [|[t nm] l IH]; intros d; cbn [fold_left map snd].
  - exists []. rewrite app_nil_r. split; [reflexivity|intros nm []].
  - destruct (IH (Sql.insert_or_ignore_folder d (t, nm))) as [extra [Heq Hnames]].
    rewrite Heq. clear Heq. unfold Sql.insert_or_ignore_folder in *.
    fold (has_name nm) in *.
    destruct (existsb (has_name nm) (folder d)) eqn:E.
    + exists extra. split; [reflexivity|].
      intros nm' [<-|Hin]; [|apply Hnames, Hin].
      rewrite existsb_app, E. reflexivity.
    + cbn [folder set_folder] in *.
      exists (Folder.mk (new_rowid (map Folder.folder_id (folder d))) nm
                (inject_Z t) :: extra).
      rewrite <- app_assoc in *. cbn [app] in *. split; [reflexivity|].
      intros nm' [<-|Hin]; [|apply Hnames, Hin].
      rewrite existsb_app. cbn [existsb]. unfold has_name at 2. cbn [Folder.name].
      rewrite String.eqb_refl, orb_true_r. reflexivity.
Qed.

Lemma refresh_name tm names g : Folder.name (refresh tm names g) = Folder.name g.
Proof. unfold refresh. destruct (existsb _ names); reflexivity. Qed.

Lemma refresh_id tm names g : Folder.folder_id (refresh tm names g) = Folder.folder_id g.
Proof. unfold refresh. destruct (existsb _ names); reflexivity. Qed.

Lemma update_folders_refresh (tm : string -> Z) (l : list (Z * string)) (d : database) :
  (forall p, In p l -> fst p = tm (snd p)) ->
  folder (fold_left Sql.update_folder l d) = map (refresh tm (map snd l)) (folder d).
Proof.
  revert d. induction l as [|[t nm] l IH]; intros d H; simpl.
  - unfold refresh. simpl. symmetry. apply map_id.
  - rewrite IH by (intros p Hp; apply H; right; exact Hp).
    simpl. rewrite map_map. apply map_ext. intros g.
    pose proof (H (t, nm) (or_introl eq_refl)) as Ht. simpl in Ht. subst t.
    unfold refresh. simpl.
    destruct (String.eqb_spec (Folder.name g) nm) as [->|Hne]; simpl.
    + destruct (existsb (String.eqb nm) (map snd l)); reflexivity.
    + reflexivity.
Qed.

Lemma Qlt_bool_irrefl (x : Q) : Qlt_bool x x = false.
Proof.
  unfold Qlt_bool. replace (Qle_bool x x) with true; [reflexivity|].
  symmetry. apply Qle_bool_iff. apply Qle_refl.
Qed.


Lemma update_modified_folders_unfold (e : env) (s : cache_state) :
  update_modified_folders e s
  = (let insert_data := fst (scan_folders e (db s) (first_run s) (walk (fs e))) in
     (Return (map snd insert_data),
      mkstate (fold_left Sql.update_folder insert_data
                 (fold_left Sql.insert_or_ignore_folder insert_data (db s)))
              (snd (scan_folders e (db s) (first_run s) (walk (fs e))))
              (geo_log s))).
Proof.
  unfold update_modified_folders.
  destruct (scan_folders e (db s) (first_run s) (walk (fs e))) as [l fr]. reflexivity.
Qed.


(** ** The File Enumerator *)

Lemma scan_file_in (e : env) (d : database) (dir file : string)
    (q : string * (string * string * string * Q)) :
  In q (out_of_date_entry e d dir file) <->
  is_image dir file = true
  /\ file_out_of_date e d (Py.path_join dir file) = true
  /\ q = (Py.path_join dir file,
          (dir, fst (Py.splitext file), Py.lstrip_dot (snd (Py.splitext file)),
           st_mtime (fs e) (Py.path_join dir file))).
Proof.
  unfold out_of_date_entry.
  destruct (is_image dir file); [|simpl; intuition discriminate].
  destruct (file_out_of_date e d (Py.path_join dir file)); simpl;
    intuition (try discriminate; try congruence).
Qed.

Lemma scan_files_in (e : env) (d : database) (dirs : list string)
    (q : string * (string * string * string * Q)) :
  In q (out_of_date_entries e d dirs) <->
  exists dir file,
    In dir dirs /\ In file (listdir (fs e) dir)
    /\ is_image dir file = true
    /\ file_out_of_date e d (Py.path_join dir file) = true
    /\ q = (Py.path_join dir file,
            (dir, fst (Py.splitext file), Py.lstrip_dot (snd (Py.splitext file)),
             st_mtime (fs e) (Py.path_join dir file))).
Proof.
  unfold out_of_date_entries. rewrite in_flat_map. split.
  - intros [dir [Hdir Hq]]. apply in_flat_map in Hq. destruct Hq as [file [Hfile Hq]].
    apply scan_file_in in Hq. exists dir, file. tauto.
  - intros [dir [file [Hdir [Hfile H]]]]. exists dir. split; [exact Hdir|].
    apply in_flat_map. exists file. split; [exact Hfile|]. apply scan_file_in. exact H.
Qed.

(** The loops raise at a listed picture that cannot be stat'ed, and collect
    the out-of-date entries otherwise. *)
Lemma scan_file_outcome (e : env) (d : database) (dir file : string) :
  scan_file e d dir file
  = if unreadable e dir file then Raise OSError
    else Return (out_of_date_entry e d dir file).
Proof.
  unfold scan_file, unreadable, out_of_date_entry, getmtime.
  destruct (Py.splitext file) as [base ext]. cbn [fst snd].
  destruct (is_image dir file); [|reflexivity].
  destruct (path_exists (fs e) (Py.path_join dir file)); [|reflexivity].
  cbn [andb negb]. destruct (file_out_of_date e d (Py.path_join dir file)); reflexivity.
Qed.

Lemma scan_dir_outcome (e : env) (d : database) (dir : string) (entries : list string) :
  scan_dir e d dir entries
  = if existsb (unreadable e dir) entries then Raise OSError
    else Return (flat_map (out_of_date_entry e d dir) entries).
Proof.
  induction entries as [|file rest IH]; cbn [scan_dir existsb flat_map]; [reflexivity|].
  rewrite scan_file_outcome, IH.
  destruct (unreadable e dir file); [reflexivity|].
  destruct (existsb (unreadable e dir) rest); reflexivity.
Qed.

Lemma scan_files_outcome (e : env) (d : database) (dirs : list string) :
  scan_files e d dirs
  = if some_unreadable e dirs then Raise OSError
    else Return (out_of_date_entries e d dirs).
Proof.
  unfold some_unreadable, out_of_date_entries.
  induction dirs as [|dir rest IH]; cbn [scan_files existsb flat_map]; [reflexivity|].
  rewrite scan_dir_outcome, IH.
  destruct (existsb (unreadable e dir) (listdir (fs e) dir)); [reflexivity|].
  destruct (existsb _ rest); reflexivity.
Qed.


Lemma update_modified_files_unfold (e : env) (dirs : list string) (s : cache_state) :
  update_modified_files e dirs s
  = if some_unreadable e dirs then (Raise OSError, s)
    else match executemany_file (map snd (out_of_date_entries e (db s) dirs)) s with
         | (Return _, s1) => (Return (map fst (out_of_date_entries e (db s) dirs)), s1)
         | (Raise x, s1) => (Raise x, s1)
         end.
Proof.
  unfold update_modified_files, bind, get_db, lift. rewrite scan_files_outcome.
  destruct (some_unreadable e dirs); reflexivity.
Qed.

Lemma insert_file_other_tables (d d' : database) (p : string * string * string * Q) :
  Sql.insert_or_replace_file d p = Some d' ->
  folder d' = folder d /\ meta d' = meta d /\ location d' = location d.
Proof.
  destruct p as [[[dir base] ext] t]. unfold Sql.insert_or_replace_file.
  destruct (Sql.select_folder_id d dir); [|discriminate].
  intros H. injection H as <-. auto.
Qed.

(** Whatever its outcome, the file upsert touches the file table only. *)
Lemma executemany_file_other_tables (rows : list (string * string * string * Q))
    (s s' : cache_state) (res : outcome unit) :
  executemany_file rows s = (res, s') ->
  folder (db s') = folder (db s) /\ meta (db s') = meta (db s)
  /\ location (db s') = location (db s)
  /\ first_run s' = first_run s /\ geo_log s' = geo_log s.
Proof.
  revert s. induction rows as [|r rows IH]; intros s; cbn [executemany_file].
  - unfold ret. intros H. injection H as _ <-. auto.
  - destruct (Sql.insert_or_replace_file (db s) r) as [d1|] eqn:E.
    + intros H. apply IH in H. cbn [db set_db first_run geo_log] in H.
      destruct (insert_file_other_tables _ _ _ E) as [H1 [H2 H3]].
      destruct H as [K1 [K2 [K3 [K4 K5]]]].
      rewrite K1, K2, K3, K4, K5, H1, H2, H3. auto.
    + intros H. injection H as _ <-. auto.
Qed.


(** Every row the upsert leaves in the file table is an old one or carries
    the name and the exact time of a row of the batch, and the id of that
    row's folder. *)
Lemma executemany_file_rows (rows : list (string * string * string * Q))
    (s s' : cache_state) (res : outcome unit) (f : File.row) :
  executemany_file rows s = (res, s') -> In f (file (db s')) ->
  In f (file (db s))
  \/ exists dir, In (dir, File.basename f, File.extension f, File.last_modified f) rows
                 /\ Sql.select_folder_id (db s) dir = Some (File.folder_id f).
Proof.
  revert s. induction rows as [|[[[dir base] ext] t] rows IH]; intros s;
    cbn [executemany_file].
  - unfold ret. intros H. injection H as _ <-. auto.
  - destruct (Sql.insert_or_replace_file (db s) (dir, base, ext, t)) as [d1|] eqn:E.
    + intros H Hf. destruct (IH _ H Hf) as [Hold|[dir' [Hin Hfid]]].
      * cbn [db set_db] in Hold. unfold Sql.insert_or_replace_file in E.
        destruct (Sql.select_folder_id (db s) dir) as [fid|] eqn:F; [|discriminate].
        injection E as <-. cbn [file set_file] in Hold.
        apply in_app_or in Hold. destruct Hold as [Hold|[<-|[]]].
        -- left. apply filter_In in Hold. apply Hold.
        -- right. exists dir. split; [left; reflexivity|exact F].
      * right. exists dir'. split; [right; exact Hin|].
        revert Hfid. cbn [db set_db]. unfold Sql.select_folder_id, Sql.select_folder.
        destruct (insert_file_other_tables _ _ _ E) as [-> _]. auto.
    + intros H. injection H as _ <-. auto.
Qed.


(** Whatever its outcome, the File Enumerator touches the File table only. *)
Lemma update_modified_files_other_tables (e : env) (dirs : list string)
    (s s' : cache_state) (res : outcome (list string)) :
  update_modified_files e dirs s = (res, s') ->
  folder (db s') = folder (db s) /\ meta (db s') = meta (db s)
  /\ location (db s') = location (db s)
  /\ first_run s' = first_run s /\ geo_log s' = geo_log s.
Proof.
  rewrite update_modified_files_unfold.
  destruct (some_unreadable e dirs); [intros H; injection H as _ <-; auto|].
  destruct (executemany_file _ s) as [[u|x] s1] eqn:E; intros H; injection H as _ <-;
    apply (executemany_file_other_tables _ _ _ _ E).
Qed.


(** On a cycle that starts with the first-run flag set the scan reports at
    most one folder, and a scan that reports a folder leaves the flag clear,
    so that the scans after it walk the whole tree. *)
Lemma first_run_reports_at_most_one (e : env) (s : cache_state) :
  first_run s = true ->
  exists out s', update_modified_folders e s = (Return out, s')
                 /\ (List.length out <= 1)%nat.
Proof.
  intros H. rewrite update_modified_folders_unfold. cbv zeta.
  eexists. eexists. split; [reflexivity|].
  rewrite H, scan_folders_first_run.
  destruct (filter (folder_out_of_date e (db s)) (walk (fs e))); cbn; lia.
Qed.

Lemma flag_clear_after_report (e : env) (s s' : cache_state) (out : list string) :
  update_modified_folders e s = (Return out, s') -> out <> [] -> first_run s' = false.
Proof.
  rewrite update_modified_folders_unfold. cbv zeta. intros H Hout.
  injection H as <- <-. cbn [first_run]. destruct (first_run s).
  - rewrite scan_folders_first_run in *.
    destruct (filter (folder_out_of_date e (db s)) (walk (fs e)));
      [contradiction|reflexivity].
  - rewrite scan_folders_whole_tree. reflexivity.
Qed.

Lemma flag_clear_whole_tree (e : env) (s : cache_state) :
  first_run s = false ->
  fst (update_modified_folders e s)
  = Return (filter (folder_out_of_date e (db s)) (walk (fs e))).
Proof.
  intros H. rewrite update_modified_folders_unfold. cbv zeta. cbn [fst].
  rewrite H, scan_folders_whole_tree. cbn [fst]. rewrite map_map. cbn [snd].
  rewrite map_id. reflexivity.
Qed.

(** C8: the code at the failing input. A process starts on a store in step
    with the disk: its first cycle scans everything, finds nothing out of
    date and leaves the first-run flag set.  When three folders are out of
    date at a later cycle, the scan of that cycle stops at the first one. *)
Theorem first_run_stop_outlives_first_cycle :
  first_run Samples.restarted = true
  /\ update_cache Samples.env_quiet Samples.restarted
     = (Return ([], []), Samples.restarted)
  /\ filter (folder_out_of_date Samples.env_grown (db Samples.restarted))
            (walk (fs Samples.env_grown))
     = ["/p"; "/p/x"; "/p/y"]%string
  /\ fst (update_modified_folders Samples.env_grown Samples.restarted)
     = Return ["/p"%string].
Proof. repeat split; vm_compute; reflexivity. Qed.

(** ** Row ids *)

Lemma fold_max_ge (l : list Z) (a : Z) :
  a <= fold_left Z.max l a /\ (forall x, In x l -> x <= fold_left Z.max l a).
Proof.
  revert a. induction l as [|y l IH]; intros a; simpl.
  - split; [lia|intros x []].
  - destruct (IH (Z.max a y)) as [H1 H2]. split; [lia|].
    intros x [<-|Hx]; [lia|apply H2, Hx].
Qed.

(** A new row id is larger than every id in use. *)
Lemma new_rowid_fresh (ids : list Z) (i : Z) : In i ids -> i < new_rowid ids.
Proof.
  destruct ids as [|j rest]; simpl; [intros []|].
  destruct (fold_max_ge rest j) as [H1 H2].
  intros [<-|Hi]; [lia|]. specialize (H2 i Hi). lia.
Qed.

(** ** Upserts of file rows *)

Lemma has_triple_iff (fid : Z) (base ext : string) (f : File.row) :
  has_triple fid base ext f = true <-> triple f = (fid, base, ext).
Proof.
  unfold has_triple, triple. rewrite !andb_true_iff, Z.eqb_eq, !String.eqb_eq.
  split; [intros [-> [-> ->]]; reflexivity|intros H; injection H; auto].
Qed.

Lemma same_triple_has (f new : File.row) :
  Sql.same_triple f new
  = has_triple (File.folder_id new) (File.basename new) (File.extension new) f.
Proof. reflexivity. Qed.

Lemma insert_file_step (d d' : database) (dir base ext : string) (t : Q) :
  Sql.insert_or_replace_file d (dir, base, ext, t) = Some d' ->
  exists fid,
    Sql.select_folder_id d dir = Some fid
    /\ file d' = (filter (fun f => negb (has_triple fid base ext f)) (file d)
                  ++ [File.mk (new_rowid (map File.file_id (file d))) fid base ext t])%list.
Proof.
  unfold Sql.insert_or_replace_file.
  destruct (Sql.select_folder_id d dir) as [fid|]; [|discriminate].
  intros H. injection H as <-. exists fid. split; reflexivity.
Qed.


Lemma NoDup_map_filter {A B : Type} (g : A -> B) (p : A -> bool) (l : list A) :
  NoDup (map g l) -> NoDup (map g (filter p l)).
Proof.
  induction l as [|x l IH]; simpl; intros H; [constructor|].
  inversion H as [|? ? Hx Hl]; subst. destruct (p x); simpl; [|apply IH, Hl].
  constructor; [|apply IH, Hl].
  intros Hin. apply Hx. apply in_map_iff in Hin. destruct Hin as [y [Hy Hin]].
  apply filter_In in Hin. apply in_map_iff. exists y. tauto.
Qed.

(** One upsert keeps the triples unique. *)
Lemma insert_file_unique (d d' : database) (p : string * string * string * Q) :
  Sql.insert_or_replace_file d p = Some d' ->
  NoDup (map triple (file d)) -> NoDup (map triple (file d')).
Proof.
  destruct p as [[[dir base] ext] t]. intros H Hnd.
  apply insert_file_step in H. destruct H as [fid [_ ->]].
  rewrite map_app. cbn [map]. apply NoDup_app; [apply NoDup_map_filter, Hnd| |].
  - constructor; [intros []|constructor].
  - intros x Hx [<-|[]]. apply in_map_iff in Hx. destruct Hx as [f [Hf Hin]].
    apply filter_In in Hin. destruct Hin as [_ Hneg].
    apply negb_true_iff in Hneg.
    assert (Ht : has_triple fid base ext f = true) by (apply has_triple_iff; exact Hf).
    congruence.
Qed.


Lemma executemany_file_unique (rows : list (string * string * string * Q))
    (s s' : cache_state) (res : outcome unit) :
  executemany_file rows s = (res, s') ->
  NoDup (map triple (file (db s))) -> NoDup (map triple (file (db s'))).
Proof.
  revert s. induction rows as [|r rows IH]; intros s; cbn [executemany_file].
  - unfold ret. intros H. injection H as _ <-. auto.
  - destruct (Sql.insert_or_replace_file (db s) r) as [d1|] eqn:E.
    + intros H Hnd. apply (IH _ H). cbn [db set_db].
      apply (insert_file_unique _ _ _ E Hnd).
    + intros H. injection H as _ <-. auto.
Qed.




(** ** The view *)

Lemma in_left_join {A B : Type} (on : A -> B -> bool) (bs : list B) (a : A) (o : option B) :
  In o (left_join on bs a) <->
  match o with
  | Some b => In b bs /\ on a b = true
  | None => filter (on a) bs = []
  end.
Proof.
  unfold left_join. destruct (filter (on a) bs) as [|b0 ms] eqn:E.
  - destruct o as [b|]; simpl.
    + split; [intros [H|[]]; discriminate|].
      intros H. apply filter_In in H. rewrite E in H. destruct H.
    + tauto.
  - rewrite <- E. destruct o as [b|].
    + rewrite <- filter_In. split.
      * intros H. apply in_map_iff in H. destruct H as [x [Hx Hin]]. congruence.
      * intros H. apply in_map. exact H.
    + split; [|rewrite E; discriminate].
      intros H. apply in_map_iff in H. destruct H as [x [Hx _]]. discriminate.
Qed.

Lemma in_all_data (d : database) (r : AllData.row) :
  In r (all_data d) <->
  In (AllData.r_file r) (file d)
  /\ In (AllData.r_folder r) (folder d)
  /\ on_folder (AllData.r_file r) (AllData.r_folder r) = true
  /\ In (AllData.r_meta r) (left_join on_meta (meta d) (AllData.r_file r))
  /\ In (AllData.r_location r) (left_join on_location (location d) (AllData.r_meta r)).
Proof.
  unfold all_data, join_file. rewrite in_flat_map. split.
  - intros [f [Hf H]]. apply in_flat_map in H. destruct H as [g [Hg H]].
    apply in_flat_map in H. destruct H as [m [Hm H]].
    apply in_map_iff in H. destruct H as [l [<- Hl]]. cbn.
    apply filter_In in Hg. tauto.
  - intros [Hf [Hg [Hon [Hm Hl]]]]. exists (AllData.r_file r). split; [exact Hf|].
    apply in_flat_map. exists (AllData.r_folder r). split; [apply filter_In; tauto|].
    apply in_flat_map. exists (AllData.r_meta r). split; [exact Hm|].
    apply in_map_iff. exists (AllData.r_location r). split; [destruct r; reflexivity|exact Hl].
Qed.

Lemma flat_map_map {A B C : Type} (F : A -> list B) (h : B -> C) (l : list A) :
  flat_map (fun x => map h (F x)) l = map h (flat_map F l).
Proof.
  induction l as [|x l IH]; simpl; [reflexivity|]. rewrite map_app, IH. reflexivity.
Qed.

Lemma find_map_same {A : Type} (p : A -> bool) (h : A -> A) (l : list A) :
  (forall x, p (h x) = p x) -> find p (map h l) = option_map h (find p l).
Proof.
  intros H. induction l as [|x l IH]; simpl; [reflexivity|].
  rewrite H. destruct (p x); [reflexivity|exact IH].
Qed.

(** ** The geocode cache *)

Lemma Qeq_bool_trans (a b c : Q) :
  Qeq_bool a b = true -> Qeq_bool b c = true -> Qeq_bool a c = true.
Proof.
  rewrite !Qeq_bool_iff. apply Qeq_trans.
Qed.

Lemma Qeq_bool_sym (a b : Q) : Qeq_bool a b = Qeq_bool b a.
Proof.
  destruct (Qeq_bool a b) eqn:E1, (Qeq_bool b a) eqn:E2; try reflexivity.
  - apply Qeq_bool_iff in E1. apply Qeq_sym in E1. apply Qeq_bool_iff in E1. congruence.
  - apply Qeq_bool_iff in E2. apply Qeq_sym in E2. apply Qeq_bool_iff in E2. congruence.
Qed.

Lemma coords_match_same (lat lon : Q) (l : Location.row) (la lo : option Q) (new : Location.row) :
  Location.latitude new = lat -> Location.longitude new = lon ->
  coords_match la lo new = true -> coords_match la lo l = true ->
  coords_match (Some lat) (Some lon) l = true.
Proof.
  intros <- <-. destruct la as [la|], lo as [lo|]; simpl; try discriminate.
  rewrite !andb_true_iff. intros [H1 H2] [H3 H4]. split.
  - apply Qeq_bool_trans with la; [exact H3|]. rewrite Qeq_bool_sym. exact H1.
  - apply Qeq_bool_trans with lo; [exact H4|]. rewrite Qeq_bool_sym. exact H2.
Qed.

(** Appending a location row that clashes with none attaches it to the rows
    of the view with its coordinates and changes nothing else. *)
Lemma left_join_new_location (locs : list Location.row) (new : Location.row)
    (m : option Meta.row) :
  (forall l, In l locs ->
     coords_match (Some (Location.latitude new)) (Some (Location.longitude new)) l = false) ->
  left_join on_location (locs ++ [new]) m
  = map (fun o => if on_location m new then Some new else o)
        (left_join on_location locs m).
Proof.
  intros Hfree. unfold left_join. rewrite filter_app. cbn [filter].
  destruct (on_location m new) eqn:E.
  - rewrite (filter_none (on_location m) locs).
    + reflexivity.
    + intros l Hl. destruct (on_location m l) eqn:El; [|reflexivity].
      destruct m as [mm|]; [|discriminate]. cbn [on_location] in *.
      rewrite <- (Hfree l Hl). symmetry.
      apply (coords_match_same _ _ l _ _ new eq_refl eq_refl E El).
  - rewrite app_nil_r. symmetry. apply map_id.
Qed.

Lemma all_data_new_location (d : database) (new : Location.row) :
  (forall l, In l (location d) ->
     coords_match (Some (Location.latitude new)) (Some (Location.longitude new)) l = false) ->
  all_data (set_location d (location d ++ [new])) = map (attach_location new) (all_data d).
Proof.
  intros Hfree. unfold all_data. rewrite <- flat_map_map.
  apply flat_map_ext. intros f. unfold join_file. cbn [folder meta location set_location].
  rewrite <- flat_map_map. apply flat_map_ext. intros g.
  rewrite <- flat_map_map. apply flat_map_ext. intros m.
  rewrite (left_join_new_location _ _ _ Hfree), !map_map.
  apply map_ext. intros o. unfold attach_location. cbn.
  destruct (on_location m new); reflexivity.
Qed.

Lemma get_file_info_cached (e : env) (s : cache_state) (i : Z) (row : AllData.row) :
  select_by_file_id (db s) i = Some row ->
  AllData.location row <> None ->
  get_file_info e i s = (Return (Some row), s).
Proof.
  intros Hsel Hloc. unfold get_file_info, bind, get_db. rewrite Hsel.
  destruct (AllData.latitude row), (AllData.longitude row), (AllData.location row);
    try reflexivity.
  contradiction.
Qed.

Lemma meta_of_coords (row : AllData.row) (lat lon : Q) :
  AllData.latitude row = Some lat -> AllData.longitude row = Some lon ->
  exists m, AllData.r_meta row = Some m
            /\ Meta.latitude m = Some lat /\ Meta.longitude m = Some lon.
Proof.
  unfold AllData.latitude, AllData.longitude.
  destruct (AllData.r_meta row) as [m|]; [|discriminate].
  intros H1 H2. exists m. auto.
Qed.

(** A record without a place has coordinates no location row carries. *)
Lemma no_location_no_clash (d : database) (row : AllData.row) (lat lon : Q) :
  In row (all_data d) ->
  AllData.latitude row = Some lat -> AllData.longitude row = Some lon ->
  AllData.location row = None ->
  forall l, In l (location d) -> coords_match (Some lat) (Some lon) l = false.
Proof.
  intros Hin Hlat Hlon Hloc l Hl.
  destruct (meta_of_coords row lat lon Hlat Hlon) as [m [Hm [Hla Hlo]]].
  apply in_all_data in Hin. destruct Hin as [_ [_ [_ [_ Hjoin]]]].
  unfold AllData.location in Hloc.
  destruct (AllData.r_location row) as [l0|]; [discriminate|].
  apply in_left_join in Hjoin. rewrite Hm in Hjoin.
  destruct (coords_match (Some lat) (Some lon) l) eqn:E; [|reflexivity].
  assert (K : In l (filter (on_location (Some m)) (location d))).
  { apply filter_In. split; [exact Hl|]. cbn [on_location]. rewrite Hla, Hlo. exact E. }
  rewrite Hjoin in K. destruct K.
Qed.

Lemma select_by_file_id_in (d : database) (i : Z) (row : AllData.row) :
  select_by_file_id d i = Some row -> In row (all_data d).
Proof. intros H. apply find_some in H. apply H. Qed.

Lemma insert_location_appends (d : database) (lat lon : Q) (answer : string) :
  (forall l, In l (location d) -> coords_match (Some lat) (Some lon) l = false) ->
  Sql.insert_or_replace_location d lat lon answer
  = set_location d
      (location d ++ [Location.mk (new_rowid (map Location.id (location d))) lat lon answer]).
Proof.
  intros H. unfold Sql.insert_or_replace_location. rewrite filter_all; [reflexivity|].
  intros l Hl. rewrite (H l Hl). reflexivity.
Qed.

Lemma select_after_new_location (d : database) (new : Location.row) (i : Z) :
  (forall l, In l (location d) ->
     coords_match (Some (Location.latitude new)) (Some (Location.longitude new)) l = false) ->
  select_by_file_id (set_location d (location d ++ [new])) i
  = option_map (attach_location new) (select_by_file_id d i).
Proof.
  intros H. unfold select_by_file_id. rewrite (all_data_new_location d new H).
  apply find_map_same. intros r. unfold attach_location.
  destruct (on_location (AllData.r_meta r) new); reflexivity.
Qed.

Lemma string_length_zero (a : string) : Nat.eqb (String.length a) 0 = true <-> a = ""%string.
Proof.
  destruct a; simpl; split; intros H; try reflexivity; discriminate.
Qed.

Lemma Qeq_bool_refl (x : Q) : Qeq_bool x x = true.
Proof. apply Qeq_bool_iff. apply Qeq_refl. Qed.

(** A record whose coordinates a location row carries has a place. *)
Lemma located_when_row_matches (d : database) (row : AllData.row) (l : Location.row)
    (la lo : Q) :
  In row (all_data d) -> In l (location d) ->
  AllData.latitude row = Some la -> AllData.longitude row = Some lo ->
  coords_match (Some la) (Some lo) l = true ->
  AllData.location row <> None.
Proof.
  intros Hin Hl Hla Hlo Hmatch Hnone.
  rewrite (no_location_no_clash d row la lo Hin Hla Hlo Hnone l Hl) in Hmatch.
  discriminate.
Qed.

Lemma get_file_info_resolves (e : env) (s : cache_state) (i : Z) (row : AllData.row)
    (lat lon : Q) :
  select_by_file_id (db s) i = Some row ->
  AllData.latitude row = Some lat -> AllData.longitude row = Some lon ->
  AllData.location row = None ->
  get_address e (List.length (geo_log s)) lat lon <> ""%string ->
  let new := Location.mk (new_rowid (map Location.id (location (db s)))) lat lon
               (get_address e (List.length (geo_log s)) lat lon) in
  get_file_info e i s
  = (Return (Some (attach_location new row)),
     mkstate (set_location (db s) (location (db s) ++ [new])) (first_run s)
             (geo_log s ++ [(lat, lon)]))
  /\ AllData.location (attach_location new row)
     = Some (get_address e (List.length (geo_log s)) lat lon).
Proof.
  intros Hsel Hlat Hlon Hloc Hans new.
  pose proof (no_location_no_clash (db s) row lat lon
                (select_by_file_id_in _ _ _ Hsel) Hlat Hlon Hloc) as Hfree.
  split.
  - unfold get_file_info, bind, get_db. rewrite Hsel, Hlat, Hlon, Hloc.
    unfold get_geo_location.
    destruct (Nat.eqb (String.length (get_address e (List.length (geo_log s)) lat lon)) 0)
      eqn:E; [apply string_length_zero in E; contradiction|].
    cbn [db set_db first_run geo_log].
    rewrite (insert_location_appends (db s) lat lon _ Hfree).
    unfold ret. fold new.
    rewrite (select_after_new_location (db s) new i Hfree), Hsel. reflexivity.
  - destruct (meta_of_coords row lat lon Hlat Hlon) as [m [Hm [Hla Hlo]]].
    unfold attach_location. rewrite Hm. cbn [on_location]. rewrite Hla, Hlo.
    cbn [coords_match new Location.latitude Location.longitude].
    rewrite !Qeq_bool_refl. reflexivity.
Qed.

(** C6. For a record with coordinates and no cached place: a non-empty
    answer of the geocoder is written into Location and the record is read
    again, so that it is returned with the place, the geocoder having been
    called once; from then on a request for any record with that (rounded)
    pair of coordinates is served from the Location row without a call.  An
    empty answer is not cached: the store stays as it is and every later
    request for the record calls the geocoder again. *)
Theorem geocode_result_cached_unless_empty (e : env) (s : cache_state) (i : Z)
    (row : AllData.row) (lat lon : Q) :
  select_by_file_id (db s) i = Some row ->
  AllData.latitude row = Some lat -> AllData.longitude row = Some lon ->
  AllData.location row = None ->
  let answer := get_address e (List.length (geo_log s)) lat lon in
  (answer <> ""%string ->
   exists row' s',
     get_file_info e i s = (Return (Some row'), s')
     /\ geo_log s' = (geo_log s ++ [(lat, lon)])%list
     /\ (exists l, In l (location (db s'))
                   /\ Location.latitude l = lat /\ Location.longitude l = lon
                   /\ Location.description l = answer)
     /\ AllData.r_file row' = AllData.r_file row
     /\ AllData.r_meta row' = AllData.r_meta row
     /\ AllData.location row' = Some answer
     /\ get_file_info e i s' = (Return (Some row'), s')
     /\ (forall j row2 la lo,
           select_by_file_id (db s') j = Some row2 ->
           AllData.latitude row2 = Some la -> AllData.longitude row2 = Some lo ->
           (la == lat)%Q -> (lo == lon)%Q ->
           get_file_info e j s' = (Return (Some row2), s')))
  /\ (answer = ""%string ->
      get_file_info e i s
      = (Return (Some row), mkstate (db s) (first_run s) (geo_log s ++ [(lat, lon)]))
      /\ forall s1, db s1 = db s ->
           exists res s2, get_file_info e i s1 = (res, s2)
                          /\ geo_log s2 = (geo_log s1 ++ [(lat, lon)])%list).
Proof.
  intros Hsel Hlat Hlon Hloc answer. split.
  - subst answer. intros Hans.
    destruct (get_file_info_resolves e s i row lat lon Hsel Hlat Hlon Hloc Hans)
      as [Hget Hplace].
    pose proof (no_location_no_clash (db s) row lat lon
                  (select_by_file_id_in _ _ _ Hsel) Hlat Hlon Hloc) as Hfree.
    set (new := Location.mk (new_rowid (map Location.id (location (db s)))) lat lon
                  (get_address e (List.length (geo_log s)) lat lon)) in *.
    set (s' := mkstate (set_location (db s) (location (db s) ++ [new])) (first_run s)
                       (geo_log s ++ [(lat, lon)])) in *.
    assert (Hnew : In new (location (db s')))
      by (cbn; apply in_or_app; right; left; reflexivity).
    assert (Hcached : forall j row2 la lo,
              select_by_file_id (db s') j = Some row2 ->
              AllData.latitude row2 = Some la -> AllData.longitude row2 = Some lo ->
              (la == lat)%Q -> (lo == lon)%Q ->
              get_file_info e j s' = (Return (Some row2), s')).
    { intros j row2 la lo Hsel2 Hla Hlo Ela Elo.
      apply get_file_info_cached; [exact Hsel2|].
      apply (located_when_row_matches (db s') row2 new la lo);
        [apply (select_by_file_id_in _ _ _ Hsel2)|exact Hnew|exact Hla|exact Hlo|].
      cbn [coords_match new Location.latitude Location.longitude].
      apply andb_true_iff. split; apply Qeq_bool_iff; apply Qeq_sym; assumption. }
    assert (Hsel' : select_by_file_id (db s') i = Some (attach_location new row)).
    { cbn [db s']. rewrite (select_after_new_location (db s) new i Hfree), Hsel.
      reflexivity. }
    exists (attach_location new row), s'.
    split; [exact Hget|]. split; [reflexivity|].
    split; [exists new; repeat split; exact Hnew|].
    split; [unfold attach_location; destruct (on_location _ new); reflexivity|].
    split; [unfold attach_location; destruct (on_location _ new); reflexivity|].
    split; [exact Hplace|].
    split.
    + apply get_file_info_cached; [exact Hsel'|]. rewrite Hplace. discriminate.
    + exact Hcached.
  - intros Hans.
    assert (Hcall : forall s1, db s1 = db s ->
              exists res s2, get_file_info e i s1 = (res, s2)
                             /\ geo_log s2 = (geo_log s1 ++ [(lat, lon)])%list).
    { intros s1 Hdb. unfold get_file_info, bind, get_db.
      rewrite Hdb, Hsel, Hlat, Hlon, Hloc. unfold get_geo_location.
      destruct (Nat.eqb (String.length (get_address e (List.length (geo_log s1)) lat lon)) 0).
      - eexists. eexists. split; reflexivity.
      - cbn [db set_db first_run geo_log]. unfold ret.
        eexists. eexists. split; reflexivity. }
    split; [|exact Hcall].
    unfold get_file_info, bind, get_db. rewrite Hsel, Hlat, Hlon, Hloc.
    unfold get_geo_location. fold answer. rewrite Hans. reflexivity.
Qed.

Lemma geocode_result_cached_unless_empty_witness :
  select_by_file_id (db Samples.located) 1
  = Some (AllData.mk (File.mk 1 1 "b" "jpg" 100) (Folder.mk 1 "/p" 100)
            (Some (Meta.mk 1 1 100 VNull VNull VNull VNull VNull VNull VNull VNull
                     (Some (515012 # 10000)%Q) (Some (-1278 # 10000)%Q) 4000 3000))
            None)
  /\ exists row' s',
       get_file_info Samples.env_geo 1 Samples.located = (Return (Some row'), s')
       /\ geo_log s' = [((515012 # 10000)%Q, (-1278 # 10000)%Q)]
       /\ AllData.location row' = Some "London"%string
       /\ get_file_info Samples.env_geo 1 s' = (Return (Some row'), s').
Proof.
  split; [reflexivity|].
  destruct (proj1 (geocode_result_cached_unless_empty Samples.env_geo Samples.located 1
                     _ (515012 # 10000)%Q (-1278 # 10000)%Q
                     eq_refl eq_refl eq_refl eq_refl))
    as [row' [s' [H1 [H2 [_ [_ [_ [H3 [H4 _]]]]]]]]].
  - discriminate.
  - exists row', s'. repeat split; assumption.
Defined.

(** ** Deletes and their triggers *)

Lemma set_meta_same (d : database) : set_meta d (meta d) = d.
Proof. destruct d. reflexivity. Qed.

Lemma set_folder_same (d : database) : set_folder d (folder d) = d.
Proof. destruct d. reflexivity. Qed.

Lemma clean_meta_fold (olds : list File.row) (d : database) :
  fold_left Sql.clean_meta_trigger olds d
  = set_meta d (filter (fun m => negb (meta_of_any olds m)) (meta d)).
Proof.
  revert d. induction olds as [|old olds IH]; intros d; cbn [fold_left].
  - rewrite filter_all by reflexivity. symmetry. apply set_meta_same.
  - rewrite IH. unfold Sql.clean_meta_trigger. cbn [meta set_meta].
    rewrite filter_twice. unfold set_meta. cbn [folder file location].
    f_equal. apply filter_ext. intros m. unfold meta_of_any. cbn [existsb].
    rewrite negb_orb. reflexivity.
Qed.

Lemma delete_from_file_eq (cond : File.row -> bool) (d : database) :
  Sql.delete_from_file cond d = without_files cond d.
Proof.
  unfold Sql.delete_from_file. rewrite clean_meta_fold. reflexivity.
Qed.

Lemma without_files_twice (cond : File.row -> bool) (d : database) :
  without_files cond (without_files cond d) = without_files cond d.
Proof.
  unfold without_files. cbn [folder file meta location].
  assert (Hnone : filter cond (filter (fun f => negb (cond f)) (file d)) = []).
  { apply filter_none. intros f Hf. apply filter_In in Hf.
    destruct Hf as [_ Hf]. destruct (cond f); [discriminate|reflexivity]. }
  rewrite Hnone. f_equal.
  - rewrite filter_twice. apply filter_ext. intros f. destruct (cond f); reflexivity.
  - apply filter_all. reflexivity.
Qed.

Lemma clean_file_fold (i : Z) (olds : list Folder.row) (d : database) :
  (forall g, In g olds -> Folder.folder_id g = i) ->
  fold_left Sql.clean_file_trigger olds d
  = match olds with [] => d | _ => without_files (in_folder i) d end.
Proof.
  revert d. induction olds as [|old olds IH]; intros d H; [reflexivity|].
  cbn [fold_left]. rewrite IH by (intros g Hg; apply H; right; exact Hg).
  unfold Sql.clean_file_trigger. rewrite (H old (or_introl eq_refl)).
  fold (in_folder i). rewrite delete_from_file_eq.
  destruct olds; [reflexivity|apply without_files_twice].
Qed.

(** DELETE FROM folder WHERE folder_id = i: the cascade when a row goes,
    nothing when none does. *)
Lemma delete_folder_eq (d : database) (i : Z) :
  Sql.delete_folder d i
  = if existsb (fun g => Z.eqb (Folder.folder_id g) i) (folder d)
    then without_folder i d else d.
Proof.
  unfold Sql.delete_folder, Sql.delete_from_folder.
  rewrite (clean_file_fold i).
  2:{ intros g Hg. apply filter_In in Hg. apply Z.eqb_eq, Hg. }
  destruct (filter (fun g => Z.eqb (Folder.folder_id g) i) (folder d)) as [|g0 olds] eqn:E.
  - replace (existsb (fun g => Z.eqb (Folder.folder_id g) i) (folder d)) with false.
    + rewrite filter_all; [apply set_folder_same|].
      intros g Hg. destruct (Z.eqb (Folder.folder_id g) i) eqn:Eg; [|reflexivity].
      assert (K : In g (filter (fun g => Z.eqb (Folder.folder_id g) i) (folder d)))
        by (apply filter_In; auto).
      rewrite E in K. destruct K.
    + symmetry. apply not_true_is_false. intros Hex. apply existsb_exists in Hex.
      destruct Hex as [g [Hg Hid]].
      assert (K : In g (filter (fun g => Z.eqb (Folder.folder_id g) i) (folder d)))
        by (apply filter_In; auto).
      rewrite E in K. destruct K.
  - replace (existsb (fun g => Z.eqb (Folder.folder_id g) i) (folder d)) with true.
    + reflexivity.
    + symmetry. apply existsb_exists. exists g0.
      assert (K : In g0 (filter (fun g => Z.eqb (Folder.folder_id g) i) (folder d)))
        by (rewrite E; left; reflexivity).
      apply filter_In in K. exact K.
Qed.

(** DELETE FROM file WHERE file_id = i. *)
Lemma delete_file_eq (d : database) (i : Z) :
  Sql.delete_file d (Some i)
  = if existsb (fun f => Z.eqb (File.file_id f) i) (file d)
    then without_file i d else d.
Proof.
  cbn [Sql.delete_file]. rewrite delete_from_file_eq. unfold without_files, without_file.
  destruct (existsb (fun f => Z.eqb (File.file_id f) i) (file d)) eqn:E.
  - f_equal. apply filter_ext. intros m. f_equal. unfold meta_of_any.
    apply existsb_exists in E. destruct E as [f0 [Hf0 Hid]]. apply Z.eqb_eq in Hid.
    destruct (Z.eqb_spec (Meta.file_id m) i) as [->|Hne].
    + apply existsb_exists. exists f0. split; [apply filter_In; split;
        [exact Hf0|apply Z.eqb_eq; exact Hid]|apply Z.eqb_eq; congruence].
    + apply not_true_is_false. intros Hex. apply existsb_exists in Hex.
      destruct Hex as [f [Hf Hm]]. apply filter_In in Hf. destruct Hf as [_ Hf].
      apply Z.eqb_eq in Hf, Hm. congruence.
  - assert (Hall : forall f, In f (file d) -> Z.eqb (File.file_id f) i = false).
    { intros f Hf. destruct (Z.eqb (File.file_id f) i) eqn:Ef; [|reflexivity].
      exfalso. apply not_true_iff_false in E. apply E. apply existsb_exists.
      exists f. auto. }
    rewrite (filter_none _ _ Hall). rewrite filter_all, filter_all.
    + destruct d; reflexivity.
    + reflexivity.
    + intros f Hf. rewrite (Hall f Hf). reflexivity.
Qed.

(** ** The Purge Pass *)

Lemma delete_folder_tables (d : database) (i : Z) :
  folder (Sql.delete_folder d i)
  = filter (fun g => negb (Z.eqb (Folder.folder_id g) i)) (folder d)
  /\ incl (file (Sql.delete_folder d i)) (file d)
  /\ incl (meta (Sql.delete_folder d i)) (meta d)
  /\ location (Sql.delete_folder d i) = location d.
Proof.
  rewrite delete_folder_eq.
  destruct (existsb (fun g => Z.eqb (Folder.folder_id g) i) (folder d)) eqn:E.
  - cbn. repeat split; try apply incl_filter.
  - repeat split; try apply incl_refl.
    symmetry. apply filter_all. intros g Hg.
    destruct (Z.eqb (Folder.folder_id g) i) eqn:Eg; [|reflexivity].
    exfalso. apply not_true_iff_false in E. apply E. apply existsb_exists. exists g. auto.
Qed.

Lemma delete_folders_tables (ids : list Z) (d : database) :
  folder (fold_left Sql.delete_folder ids d)
  = filter (fun g => negb (existsb (Z.eqb (Folder.folder_id g)) ids)) (folder d)
  /\ incl (file (fold_left Sql.delete_folder ids d)) (file d)
  /\ incl (meta (fold_left Sql.delete_folder ids d)) (meta d)
  /\ location (fold_left Sql.delete_folder ids d) = location d.
Proof.
  revert d. induction ids as [|i ids IH]; intros d; cbn [fold_left].
  - repeat split; try apply incl_refl. symmetry. apply filter_all. reflexivity.
  - destruct (IH (Sql.delete_folder d i)) as [H1 [H2 [H3 H4]]].
    destruct (delete_folder_tables d i) as [K1 [K2 [K3 K4]]].
    rewrite H1, H4, K1, K4, filter_twice. repeat split.
    + apply filter_ext. intros g. cbn [existsb]. rewrite negb_orb. reflexivity.
    + eapply incl_tran; eassumption.
    + eapply incl_tran; eassumption.
Qed.

Lemma delete_file_tables (d : database) (o : option Z) :
  folder (Sql.delete_file d o) = folder d
  /\ file (Sql.delete_file d o)
     = filter (fun f => negb (value_eqb o (Some (File.file_id f)))) (file d)
  /\ incl (meta (Sql.delete_file d o)) (meta d)
  /\ location (Sql.delete_file d o) = location d.
Proof.
  destruct o as [i|].
  - rewrite delete_file_eq.
    destruct (existsb (fun f => Z.eqb (File.file_id f) i) (file d)) eqn:E.
    + cbn. repeat split; [|apply incl_filter].
      apply filter_ext. intros f. rewrite Z.eqb_sym. reflexivity.
    + repeat split; [|apply incl_refl].
      symmetry. apply filter_all. intros f Hf. cbn [value_eqb].
      destruct (Z.eqb i (File.file_id f)) eqn:Ef; [|reflexivity].
      exfalso. apply not_true_iff_false in E. apply E. apply existsb_exists.
      exists f. rewrite Z.eqb_sym. auto.
  - cbn. repeat split; [|apply incl_refl]. symmetry. apply filter_all. reflexivity.
Qed.

Lemma delete_files_tables (ids : list (option Z)) (d : database) :
  folder (fold_left Sql.delete_file ids d) = folder d
  /\ file (fold_left Sql.delete_file ids d)
     = filter (fun f => negb (existsb (fun o => value_eqb o (Some (File.file_id f))) ids))
              (file d)
  /\ incl (meta (fold_left Sql.delete_file ids d)) (meta d)
  /\ location (fold_left Sql.delete_file ids d) = location d.
Proof.
  revert d. induction ids as [|o ids IH]; intros d; cbn [fold_left].
  - repeat split; try apply incl_refl. symmetry. apply filter_all. reflexivity.
  - destruct (IH (Sql.delete_file d o)) as [H1 [H2 [H3 H4]]].
    destruct (delete_file_tables d o) as [K1 [K2 [K3 K4]]].
    rewrite H1, H2, H4, K1, K2, K4, filter_twice. repeat split.
    + apply filter_ext. intros f. cbn [existsb]. rewrite negb_orb. reflexivity.
    + eapply incl_tran; eassumption.
Qed.

Lemma delete_files_nothing (ids : list (option Z)) (d : database) :
  (forall o, In o ids -> o = None) -> fold_left Sql.delete_file ids d = d.
Proof.
  revert d. induction ids as [|o ids IH]; intros d H; cbn [fold_left]; [reflexivity|].
  rewrite (H o (or_introl eq_refl)). cbn [Sql.delete_file].
  apply IH. intros o' Ho'. apply H. right. exact Ho'.
Qed.

(** The folder ids handed to the first DELETE, and the file ids handed to
    the second. *)
Lemma purge_unfold (e : env) (d : database) :
  purge e d
  = fold_left Sql.delete_file
      (map AllData.file_id
         (filter (missing_file e)
            (all_data (fold_left Sql.delete_folder
                         (map Folder.folder_id (filter (missing_folder e) (folder d))) d))))
      (fold_left Sql.delete_folder
         (map Folder.folder_id (filter (missing_folder e) (folder d))) d).
Proof. reflexivity. Qed.

(** After the purge every folder row left is on disk. *)
Lemma purge_folders_exist (e : env) (d : database) (g : Folder.row) :
  In g (folder (purge e d)) -> missing_folder e g = false.
Proof.
  rewrite purge_unfold.
  destruct (delete_files_tables
              (map AllData.file_id
                 (filter (missing_file e)
                    (all_data (fold_left Sql.delete_folder
                       (map Folder.folder_id (filter (missing_folder e) (folder d))) d))))
              (fold_left Sql.delete_folder
                 (map Folder.folder_id (filter (missing_folder e) (folder d))) d))
    as [-> _].
  destruct (delete_folders_tables
              (map Folder.folder_id (filter (missing_folder e) (folder d))) d) as [-> _].
  intros Hg. apply filter_In in Hg. destruct Hg as [Hg Hkeep].
  destruct (missing_folder e g) eqn:E; [|reflexivity].
  apply negb_true_iff in Hkeep. apply not_true_iff_false in Hkeep.
  exfalso. apply Hkeep. apply existsb_exists. exists (Folder.folder_id g).
  split; [|apply Z.eqb_refl]. apply in_map. apply filter_In. auto.
Qed.

(** After the purge, a row of the view whose file is gone from the disk
    has no meta row: its NULL id is what kept the DELETE from reaching it. *)
Lemma purge_missing_files_have_no_meta (e : env) (d : database) (r : AllData.row) :
  In r (all_data (purge e d)) -> missing_file e r = true -> AllData.file_id r = None.
Proof.
  rewrite purge_unfold.
  set (d1 := fold_left Sql.delete_folder
               (map Folder.folder_id (filter (missing_folder e) (folder d))) d).
  set (ids := map AllData.file_id (filter (missing_file e) (all_data d1))).
  destruct (delete_files_tables ids d1) as [Hfolder [Hfile [Hmeta Hloc]]].
  intros Hin Hmiss. destruct (AllData.file_id r) as [i|] eqn:Ei; [|reflexivity].
  exfalso. apply in_all_data in Hin. rewrite Hfolder, Hfile, Hloc in Hin.
  destruct Hin as [Hf [Hg [Hon [Hm Hl]]]].
  apply filter_In in Hf. destruct Hf as [Hf Hkeep].
  unfold AllData.file_id in Ei.
  destruct (AllData.r_meta r) as [m|] eqn:Em; [|discriminate].
  cbn in Ei. injection Ei as Ei.
  apply in_left_join in Hm. destruct Hm as [Hm Hjoin].
  assert (Hr : In r (all_data d1)).
  { apply in_all_data. rewrite Em. repeat split; try assumption.
    apply in_left_join. split; [apply Hmeta, Hm|exact Hjoin]. }
  apply negb_true_iff in Hkeep. apply not_true_iff_false in Hkeep. apply Hkeep.
  apply existsb_exists. exists (Some i). split.
  - unfold ids. apply in_map_iff. exists r. split.
    + unfold AllData.file_id. rewrite Em. cbn. congruence.
    + apply filter_In. auto.
  - cbn [value_eqb]. unfold on_meta in Hjoin. apply Z.eqb_eq in Hjoin.
    apply Z.eqb_eq. congruence.
Qed.

(** A store with every folder on disk, and with no meta row for the files
    gone from it, is left as it is. *)
Lemma purge_nothing (e : env) (d : database) :
  (forall g, In g (folder d) -> missing_folder e g = false) ->
  (forall r, In r (all_data d) -> missing_file e r = true -> AllData.file_id r = None) ->
  purge e d = d.
Proof.
  intros Hfolders Hfiles. rewrite purge_unfold.
  rewrite (filter_none _ _ Hfolders). cbn [map fold_left].
  apply delete_files_nothing. intros o Ho. apply in_map_iff in Ho.
  destruct Ho as [r [<- Hr]]. apply filter_In in Hr. apply Hfiles; tauto.
Qed.

(** Purging twice is purging once. *)
Lemma purge_twice (e : env) (d : database) : purge e (purge e d) = purge e d.
Proof.
  apply purge_nothing.
  - apply purge_folders_exist.
  - apply purge_missing_files_have_no_meta.
Qed.

Lemma left_join_inhabited {A B : Type} (on : A -> B -> bool) (bs : list B) (a : A) :
  exists o, In o (left_join on bs a).
Proof.
  unfold left_join. destruct (filter (on a) bs) as [|b ms].
  - exists None. left. reflexivity.
  - exists (Some b). left. reflexivity.
Qed.

(** The view has a row for every file row and folder row that join. *)
Lemma all_data_has_row (d : database) (f : File.row) (g : Folder.row) :
  In f (file d) -> In g (folder d) -> on_folder f g = true ->
  exists r, In r (all_data d) /\ AllData.r_file r = f /\ AllData.r_folder r = g.
Proof.
  intros Hf Hg Hon.
  destruct (left_join_inhabited on_meta (meta d) f) as [m Hm].
  destruct (left_join_inhabited on_location (location d) m) as [l Hl].
  exists (AllData.mk f g m l). split; [|split; reflexivity].
  apply in_all_data. cbn. auto.
Qed.





(** ** One update cycle *)

Lemma state_eta (s : cache_state) : mkstate (db s) (first_run s) (geo_log s) = s.
Proof. destruct s. reflexivity. Qed.

Lemma set_db_same (s : cache_state) : set_db s (db s) = s.
Proof. destruct s. reflexivity. Qed.

(** When no folder is out of date a cycle is its purge. *)
Lemma update_cache_quiet (e : env) (s : cache_state) :
  (forall dir, In dir (walk (fs e)) -> folder_out_of_date e (db s) dir = false) ->
  update_cache e s = (Return ([], []), set_db s (purge e (db s))).
Proof.
  intros H. unfold update_cache, bind.
  rewrite update_modified_folders_unfold, (scan_folders_nothing e (db s) _ _ H).
  cbn [fst snd map fold_left]. rewrite state_eta.
  rewrite update_modified_files_unfold.
  cbn [some_unreadable existsb out_of_date_entries flat_map map executemany_file ret].
  unfold update_meta_data. cbn [collect_meta fold_left]. rewrite set_db_same.
  reflexivity.
Qed.


(** A scan that leaves the first-run flag as it found it has walked the
    whole tree. *)
Lemma scan_folders_flag_kept (e : env) (d : database) (first : bool) (dirs : list string) :
  snd (scan_folders e d first dirs) = first ->
  fst (scan_folders e d first dirs)
  = map (fun dir => (Py.int (st_mtime (fs e) dir), dir))
        (filter (folder_out_of_date e d) dirs).
Proof.
  destruct first.
  - rewrite scan_folders_first_run.
    destruct (filter (folder_out_of_date e d) dirs); [reflexivity|discriminate].
  - rewrite scan_folders_whole_tree. reflexivity.
Qed.

Lemma find_app_some {A : Type} (p : A -> bool) (l1 l2 : list A) (x : A) :
  find p l1 = Some x -> find p (l1 ++ l2) = Some x.
Proof.
  induction l1 as [|y l1 IH]; simpl; [discriminate|].
  destruct (p y); [auto|exact IH].
Qed.

Lemma find_filter_keep {A : Type} (p keep : A -> bool) (l : list A) (x : A) :
  find p l = Some x -> keep x = true -> find p (filter keep l) = Some x.
Proof.
  induction l as [|y l IH]; simpl; [discriminate|].
  destruct (p y) eqn:Py.
  - intros H Hk. injection H as ->. rewrite Hk. simpl. rewrite Py. reflexivity.
  - intros H Hk. destruct (keep y); simpl; [rewrite Py|]; apply IH; assumption.
Qed.

Lemma existsb_find {A : Type} (p : A -> bool) (l : list A) :
  existsb p l = true -> exists x, find p l = Some x.
Proof.
  induction l as [|y l IH]; simpl; [discriminate|].
  destruct (p y); [eauto|exact IH].
Qed.

Lemma NoDup_map_inj {A B : Type} (g : A -> B) (l : list A) (x y : A) :
  NoDup (map g l) -> In x l -> In y l -> g x = g y -> x = y.
Proof.
  induction l as [|z l IH]; simpl; intros Hnd Hx Hy Heq; [destruct Hx|].
  inversion Hnd as [|? ? Hz Hl]; subst.
  destruct Hx as [->|Hx], Hy as [->|Hy]; [reflexivity| | |auto].
  - exfalso. apply Hz. rewrite Heq. apply in_map, Hy.
  - exfalso. apply Hz. rewrite <- Heq. apply in_map, Hx.
Qed.

Lemma insert_folders_keys (l : list (Z * string)) (d : database) :
  NoDup (map Folder.folder_id (folder d)) ->
  NoDup (map Folder.folder_id (folder (fold_left Sql.insert_or_ignore_folder l d))).
Proof.
  revert d. induction l as [|[t nm] l IH]; intros d Hnd; cbn [fold_left]; [exact Hnd|].
  apply IH. unfold Sql.insert_or_ignore_folder.
  destruct (existsb _ (folder d)); [exact Hnd|].
  cbn [folder set_folder]. rewrite map_app. cbn [map Folder.folder_id].
  apply NoDup_app; [exact Hnd|constructor; [intros []|constructor]|].
  intros i Hi [<-|[]]. apply new_rowid_fresh in Hi. lia.
Qed.

Lemma insert_metas_other_tables (l : list (string * Meta.row)) (d : database) :
  folder (fold_left Sql.insert_or_replace_meta l d) = folder d.
Proof.
  revert d. induction l as [|[fn m] l IH]; intros d; cbn [fold_left]; [reflexivity|].
  rewrite IH. reflexivity.
Qed.

(** With folder ids that are keys, the purge removes exactly the folder
    rows that are gone from the disk. *)
Lemma purge_folders_with_keys (e : env) (d : database) :
  NoDup (map Folder.folder_id (folder d)) ->
  folder (purge e d) = filter (fun g => negb (missing_folder e g)) (folder d).
Proof.
  intros Hnd. rewrite purge_unfold.
  destruct (delete_files_tables
              (map AllData.file_id
                 (filter (missing_file e)
                    (all_data (fold_left Sql.delete_folder
                       (map Folder.folder_id (filter (missing_folder e) (folder d))) d))))
              (fold_left Sql.delete_folder
                 (map Folder.folder_id (filter (missing_folder e) (folder d))) d))
    as [-> _].
  destruct (delete_folders_tables
              (map Folder.folder_id (filter (missing_folder e) (folder d))) d) as [-> _].
  apply filter_ext_in. intros g Hg. f_equal.
  destruct (missing_folder e g) eqn:E.
  - apply existsb_exists. exists (Folder.folder_id g). split; [|apply Z.eqb_refl].
    apply in_map, filter_In. auto.
  - apply not_true_is_false. intros Hex. apply existsb_exists in Hex.
    destruct Hex as [i [Hi Hid]]. apply Z.eqb_eq in Hid. subst i.
    apply in_map_iff in Hi. destruct Hi as [g' [Hid Hg']].
    apply filter_In in Hg'. destruct Hg' as [Hin Hm].
    rewrite (NoDup_map_inj Folder.folder_id (folder d) g' g Hnd Hin Hg Hid) in Hm.
    congruence.
Qed.

(** The stages of a cycle that completes. *)
Lemma update_cache_stages (e : env) (s s1 : cache_state)
    (modified_folders modified_files : list string) :
  update_cache e s = (Return (modified_folders, modified_files), s1) ->
  exists sA sB sC,
    update_modified_folders e s = (Return modified_folders, sA)
    /\ update_modified_files e modified_folders sA = (Return modified_files, sB)
    /\ update_meta_data e modified_files sB = (Return tt, sC)
    /\ s1 = set_db sC (purge e (db sC)).
Proof.
  unfold update_cache, bind.
  destruct (update_modified_folders e s) as [[mf|x] sA] eqn:E1; [|discriminate].
  destruct (update_modified_files e mf sA) as [[mfiles|x] sB] eqn:E2; [|discriminate].
  destruct (update_meta_data e mfiles sB) as [[[]|x] sC] eqn:E3; [|discriminate].
  unfold purge_missing_files_and_folders, bind, get_db, put_db, ret.
  intros H. injection H as <- <- <-. exists sA, sB, sC.
  repeat split; assumption.
Qed.

Lemma select_folder_find (d : database) (dir : string) :
  Sql.select_folder d dir = find (has_name dir) (folder d).
Proof. reflexivity. Qed.

(** After a scan that was not cut short, every folder of the tree is
    recorded with a time that is not behind the disk. *)
Lemma folders_recorded_after_scan (e : env) (s sA : cache_state) (mf : list string) :
  update_modified_folders e s = (Return mf, sA) ->
  first_run sA = first_run s ->
  forall dir, In dir (walk (fs e)) ->
    exists g, Sql.select_folder (db sA) dir = Some g
              /\ Folder.name g = dir
              /\ Qlt_bool (Folder.last_modified g)
                          (inject_Z (Py.int (st_mtime (fs e) dir))) = false.
Proof.
  rewrite update_modified_folders_unfold. cbv zeta.
  intros H Hflag dir Hdir. injection H as _ <-. cbn [db first_run] in *.
  pose proof (scan_folders_flag_kept e (db s) (first_run s) (walk (fs e)) Hflag) as HL.
  set (tm := fun dir => Py.int (st_mtime (fs e) dir)) in *.
  set (l := fst (scan_folders e (db s) (first_run s) (walk (fs e)))) in *.
  assert (Hnames : map snd l = filter (folder_out_of_date e (db s)) (walk (fs e))).
  { rewrite HL, map_map. cbn [snd]. apply map_id. }
  rewrite select_folder_find.
  rewrite (update_folders_refresh tm).
  2:{ intros p Hp. rewrite HL in Hp. apply in_map_iff in Hp.
      destruct Hp as [x [<- _]]. reflexivity. }
  destruct (insert_folders_appends l (db s)) as [extra [Heq Hins]]. rewrite Heq.
  rewrite find_map_same by (intros g; unfold has_name; rewrite refresh_name; reflexivity).
  destruct (folder_out_of_date e (db s) dir) eqn:Eood.
  - assert (Hin : In dir (map snd l)) by (rewrite Hnames; apply filter_In; auto).
    destruct (existsb_find _ _ (Hins dir Hin)) as [g1 Hg1]. rewrite Hg1. cbn [option_map].
    pose proof (find_some _ _ Hg1) as [_ Hnm]. apply String.eqb_eq in Hnm.
    exists (refresh tm (map snd l) g1). split; [reflexivity|].
    split; [rewrite refresh_name; exact Hnm|].
    unfold refresh.
    replace (existsb (String.eqb (Folder.name g1)) (map snd l)) with true.
    + cbn [Folder.last_modified]. rewrite Hnm. apply Qlt_bool_irrefl.
    + symmetry. apply existsb_exists. exists dir. split; [exact Hin|].
      apply String.eqb_eq. exact Hnm.
  - unfold folder_out_of_date in Eood. rewrite select_folder_find in Eood.
    destruct (find (has_name dir) (folder (db s))) as [g0|] eqn:Eg0; [|discriminate].
    rewrite (find_app_some _ _ extra _ Eg0). cbn [option_map].
    pose proof (find_some _ _ Eg0) as [_ Hnm]. apply String.eqb_eq in Hnm.
    assert (Hsame : refresh tm (map snd l) g0 = g0).
    { unfold refresh.
      replace (existsb (String.eqb (Folder.name g0)) (map snd l)) with false; [reflexivity|].
      symmetry. apply not_true_is_false. intros Hex. apply existsb_exists in Hex.
      destruct Hex as [nm [Hin Hn]]. apply String.eqb_eq in Hn. subst nm.
      rewrite Hnames, Hnm in Hin. apply filter_In in Hin.
      unfold folder_out_of_date in Hin. rewrite select_folder_find, Eg0 in Hin.
      destruct Hin as [_ Hin]. congruence. }
    rewrite Hsame. exists g0. auto.
Qed.

Lemma folder_keys_after_scan (e : env) (s sA : cache_state) (mf : list string) :
  update_modified_folders e s = (Return mf, sA) ->
  NoDup (map Folder.folder_id (folder (db s))) ->
  NoDup (map Folder.folder_id (folder (db sA))).
Proof.
  rewrite update_modified_folders_unfold. cbv zeta.
  intros H Hnd. injection H as _ <-. cbn [db].
  set (l := fst (scan_folders e (db s) (first_run s) (walk (fs e)))).
  rewrite (update_folders_refresh (fun dir => Py.int (st_mtime (fs e) dir))).
  2:{ intros p Hp. apply (scan_folders_sound e (db s) (first_run s) (walk (fs e)) p Hp). }
  rewrite map_map.
  rewrite (map_ext _ Folder.folder_id) by (intros g; apply refresh_id).
  apply insert_folders_keys. exact Hnd.
Qed.

Lemma update_modified_files_frame (e : env) (dirs out : list string) (s s' : cache_state) :
  update_modified_files e dirs s = (Return out, s') ->
  folder (db s') = folder (db s) /\ first_run s' = first_run s.
Proof.
  rewrite update_modified_files_unfold.
  destruct (some_unreadable e dirs); [discriminate|].
  destruct (executemany_file _ s) as [[u|x] s2] eqn:E; [|discriminate].
  intros H. injection H as _ <-.
  destruct (executemany_file_other_tables _ _ _ _ E) as [H1 [_ [_ [H2 _]]]]. auto.
Qed.

Lemma update_meta_data_frame (e : env) (files : list string) (s s' : cache_state) :
  update_meta_data e files s = (Return tt, s') ->
  folder (db s') = folder (db s) /\ first_run s' = first_run s.
Proof.
  unfold update_meta_data. destruct (collect_meta e files) as [l|x]; [|discriminate].
  intros H. injection H as <-. cbn [db set_db first_run].
  rewrite insert_metas_other_tables. auto.
Qed.

(** The claim of C4 fails from a fresh start: the first cycle stops at
    [/p], and the second cycle reports [/p/sub] as modified and records
    it. *)
Lemma second_cycle_after_first_run_not_idle :
  fst (update_cache Samples.env_geo Samples.fresh)
  = Return (["/p"]%string, ["/p/a.jpg"; "/p/b.jpg"]%string)
  /\ fst (update_cache Samples.env_geo (snd (update_cache Samples.env_geo Samples.fresh)))
     = Return (["/p/sub"]%string, [])
  /\ ~ second_run_idle Samples.env_geo Samples.fresh.
Proof.
  split; [vm_compute; reflexivity|]. split; [vm_compute; reflexivity|].
  intros H.
  specialize (H ["/p"]%string ["/p/a.jpg"; "/p/b.jpg"]%string
                (snd (update_cache Samples.env_geo Samples.fresh))).
  assert (K : update_cache Samples.env_geo Samples.fresh
              = (Return (["/p"]%string, ["/p/a.jpg"; "/p/b.jpg"]%string),
                 snd (update_cache Samples.env_geo Samples.fresh)))
    by (vm_compute; reflexivity).
  apply H in K. vm_compute in K. discriminate K.
Qed.

(** C4, as the code has it. Two update cycles in a row on an unchanged
    disk, the first of which completes and is not cut short by the
    first-run stop (it leaves the first-run flag as it found it): the second
    reports no modified folder and no modified file and changes no row of
    the store.  Folder ids are keys, and the folders of the tree exist. *)
Theorem second_cycle_changes_nothing (e : env) (s s1 : cache_state)
    (modified_folders modified_files : list string) :
  NoDup (map Folder.folder_id (folder (db s))) ->
  (forall dir, In dir (walk (fs e)) -> path_exists (fs e) dir = true) ->
  update_cache e s = (Return (modified_folders, modified_files), s1) ->
  first_run s1 = first_run s ->
  update_cache e s1 = (Return ([], []), s1).
Proof.
  intros Hkeys Hexist Hrun Hflag.
  destruct (update_cache_stages e s s1 _ _ Hrun) as [sA [sB [sC [HA [HB [HC ->]]]]]].
  destruct (update_modified_files_frame _ _ _ _ _ HB) as [FB1 FB2].
  destruct (update_meta_data_frame _ _ _ _ HC) as [FC1 FC2].
  cbn [first_run set_db] in Hflag.
  assert (HflagA : first_run sA = first_run s) by congruence.
  assert (HkeysC : NoDup (map Folder.folder_id (folder (db sC)))).
  { rewrite FC1, FB1. apply (folder_keys_after_scan e s sA _ HA Hkeys). }
  rewrite update_cache_quiet.
  - cbn [db set_db]. rewrite purge_twice. reflexivity.
  - intros dir Hdir. cbn [db set_db].
    destruct (folders_recorded_after_scan e s sA _ HA HflagA dir Hdir)
      as [g [Hsel [Hnm Hlt]]].
    unfold folder_out_of_date. rewrite select_folder_find.
    rewrite (purge_folders_with_keys e (db sC) HkeysC), FC1, FB1.
    rewrite select_folder_find in Hsel.
    rewrite (find_filter_keep _ _ _ g Hsel); [exact Hlt|].
    unfold missing_folder. rewrite Hnm, (Hexist dir Hdir). reflexivity.
Qed.

Lemma second_cycle_changes_nothing_witness :
  fst (update_cache Samples.env_edited Samples.scanned)
  = Return (["/p"; "/p/sub"]%string, ["/p/a.jpg"; "/p/b.jpg"]%string)
  /\ update_cache Samples.env_edited (snd (update_cache Samples.env_edited Samples.scanned))
     = (Return ([], []), snd (update_cache Samples.env_edited Samples.scanned)).
Proof.
  split; [vm_compute; reflexivity|].
  apply (second_cycle_changes_nothing Samples.env_edited Samples.scanned _
           ["/p"; "/p/sub"]%string ["/p/a.jpg"; "/p/b.jpg"]%string).
  - cbn. constructor; [intros []|constructor].
  - intros dir [<-|[<-|[]]]; reflexivity.
  - vm_compute. reflexivity.
  - vm_compute. reflexivity.
Defined.

(** ** Invariants of the store *)

Lemma store_ok_empty : store_ok empty_db.
Proof. split; [constructor|intros m []]. Qed.

Lemma new_rowid_positive (ids : list Z) :
  (forall i, In i ids -> 0 < i) -> 0 < new_rowid ids.
Proof.
  intros H. destruct ids as [|i rest]; [reflexivity|].
  pose proof (new_rowid_fresh (i :: rest) i (or_introl eq_refl)).
  specialize (H i (or_introl eq_refl)). lia.
Qed.

Lemma view_file_id_in_meta (d : database) (r : AllData.row) (i : Z) :
  In r (all_data d) -> AllData.file_id r = Some i ->
  exists m, In m (meta d) /\ Meta.file_id m = i.
Proof.
  intros Hr Hi. apply in_all_data in Hr. destruct Hr as [_ [_ [_ [Hm _]]]].
  unfold AllData.file_id in Hi. destruct (AllData.r_meta r) as [m|]; [|discriminate].
  cbn in Hi. injection Hi as Hi. apply in_left_join in Hm. exists m. tauto.
Qed.

Lemma insert_meta_positive (d : database) (p : string * Meta.row) :
  (forall m, In m (meta d) -> 0 < Meta.file_id m) ->
  forall m, In m (meta (Sql.insert_or_replace_meta d p)) -> 0 < Meta.file_id m.
Proof.
  destruct p as [fn row]. intros H m Hm. unfold Sql.insert_or_replace_meta in Hm.
  cbn [meta set_meta] in Hm. apply in_app_or in Hm. destruct Hm as [Hm|[<-|[]]].
  - apply filter_In in Hm. apply H, Hm.
  - cbn [Meta.file_id]. unfold Sql.select_file_id.
    destruct (Sql.select_fname d fn) as [r|] eqn:Er.
    + destruct (AllData.file_id r) as [i|] eqn:Ei.
      * apply find_some in Er. destruct Er as [Er _].
        destruct (view_file_id_in_meta d r i Er Ei) as [m0 [Hm0 <-]]. apply H, Hm0.
      * apply new_rowid_positive. intros i Hi. apply in_map_iff in Hi.
        destruct Hi as [m0 [<- Hm0]]. apply H, Hm0.
    + apply new_rowid_positive. intros i Hi. apply in_map_iff in Hi.
      destruct Hi as [m0 [<- Hm0]]. apply H, Hm0.
Qed.

Lemma insert_metas_positive (l : list (string * Meta.row)) (d : database) :
  (forall m, In m (meta d) -> 0 < Meta.file_id m) ->
  forall m, In m (meta (fold_left Sql.insert_or_replace_meta l d)) -> 0 < Meta.file_id m.
Proof.
  revert d. induction l as [|p l IH]; intros d H; cbn [fold_left]; [exact H|].
  apply IH. apply insert_meta_positive. exact H.
Qed.

Lemma purge_keeps_store_ok (e : env) (d : database) : store_ok d -> store_ok (purge e d).
Proof.
  intros [Hkeys Hpos]. split.
  - rewrite (purge_folders_with_keys e d Hkeys). apply NoDup_map_filter. exact Hkeys.
  - intros m Hm. apply Hpos. rewrite purge_unfold in Hm.
    destruct (delete_files_tables
                (map AllData.file_id
                   (filter (missing_file e)
                      (all_data (fold_left Sql.delete_folder
                         (map Folder.folder_id (filter (missing_folder e) (folder d))) d))))
                (fold_left Sql.delete_folder
                   (map Folder.folder_id (filter (missing_folder e) (folder d))) d))
      as [_ [_ [H1 _]]].
    destruct (delete_folders_tables
                (map Folder.folder_id (filter (missing_folder e) (folder d))) d)
      as [_ [_ [H2 _]]].
    apply H2, H1, Hm.
Qed.

Lemma update_modified_folders_meta (e : env) (s : cache_state) :
  meta (db (snd (update_modified_folders e s))) = meta (db s).
Proof.
  rewrite update_modified_folders_unfold. cbv zeta. cbn [snd db].
  destruct (update_folders_other_tables
              (fst (scan_folders e (db s) (first_run s) (walk (fs e))))
              (fold_left Sql.insert_or_ignore_folder
                 (fst (scan_folders e (db s) (first_run s) (walk (fs e)))) (db s)))
    as [_ [-> _]].
  destruct (insert_folders_other_tables
              (fst (scan_folders e (db s) (first_run s) (walk (fs e)))) (db s))
    as [_ [-> _]].
  reflexivity.
Qed.

(** Whatever its outcome, an update cycle keeps the invariants. *)
Lemma update_cache_keeps_store_ok (e : env) (s s' : cache_state)
    (res : outcome (list string * list string)) :
  update_cache e s = (res, s') -> store_ok (db s) -> store_ok (db s').
Proof.
  intros H [Hkeys Hpos]. unfold update_cache, bind in H.
  destruct (update_modified_folders e s) as [[mf|x] sA] eqn:EA.
  2:{ rewrite update_modified_folders_unfold in EA. discriminate. }
  assert (HA : store_ok (db sA)).
  { split; [apply (folder_keys_after_scan e s sA mf EA Hkeys)|].
    pose proof (update_modified_folders_meta e s) as Hm. rewrite EA in Hm.
    cbn [snd] in Hm. rewrite Hm. exact Hpos. }
  assert (HB : forall r sB, update_modified_files e mf sA = (r, sB) -> store_ok (db sB)).
  { intros r sB EB. rewrite update_modified_files_unfold in EB.
    destruct (some_unreadable e mf); [injection EB as _ <-; exact HA|].
    destruct (executemany_file _ sA) as [[u|x] s2] eqn:E; injection EB as _ <-;
      destruct (executemany_file_other_tables _ _ _ _ E) as [F1 [F2 _]];
      destruct HA as [K1 K2]; split; rewrite ?F1, ?F2; assumption. }
  destruct (update_modified_files e mf sA) as [[mfiles|x] sB] eqn:EB.
  2:{ injection H as _ <-. apply (HB _ _ eq_refl). }
  specialize (HB _ _ eq_refl).
  assert (HC : forall r sC, update_meta_data e mfiles sB = (r, sC) -> store_ok (db sC)).
  { intros r sC EC. unfold update_meta_data in EC.
    destruct (collect_meta e mfiles) as [l|x]; injection EC as _ <-; [|exact HB].
    destruct HB as [K1 K2]. cbn [db set_db]. split.
    - rewrite insert_metas_other_tables. exact K1.
    - apply insert_metas_positive. exact K2. }
  destruct (update_meta_data e mfiles sB) as [[[]|x] sC] eqn:EC.
  2:{ injection H as _ <-. apply (HC _ _ eq_refl). }
  specialize (HC _ _ eq_refl).
  unfold purge_missing_files_and_folders, bind, get_db, put_db, ret in H.
  injection H as _ <-. cbn [db set_db]. apply purge_keeps_store_ok. exact HC.
Qed.

(** In a store that keeps the invariants no row of the view carries the
    mark -1 as its id. *)
Lemma store_ok_no_sentinel_id (d : database) (r : AllData.row) :
  store_ok d -> In r (all_data d) -> AllData.file_id r <> Some (-1).
Proof.
  intros [_ Hpos] Hr Hid.
  destruct (view_file_id_in_meta d r (-1) Hr Hid) as [m [Hm Hneg]].
  specialize (Hpos m Hm). lia.
Qed.

(** * Further properties *)

(** ** Names of picture files *)

Lemma substring_split (p : string) (n : nat) :
  (n <= String.length p)%nat ->
  (String.substring 0 n p ++ String.substring n (String.length p - n) p)%string = p.
Proof.
  revert n. induction p as [|c r IH]; intros n Hn.
  - destruct n; [reflexivity|simpl in Hn; lia].
  - destruct n as [|n].
    + simpl. clear IH Hn. f_equal. induction r as [|c' r IH]; [reflexivity|].
      simpl. f_equal. exact IH.
    + simpl in *. f_equal. apply IH. lia.
Qed.

Lemma rfind_from_bound (c : ascii) (s : string) (i j : nat) :
  Py.rfind_from c s i = Some j -> (i <= j < i + String.length s)%nat.
Proof.
  revert i. induction s as [|a r IH]; intros i; simpl; [discriminate|].
  destruct (Py.rfind_from c r (S i)) as [k|] eqn:E.
  - intros H. injection H as <-. apply IH in E. lia.
  - destruct (Ascii.eqb a c); [|discriminate]. intros H. injection H as <-. lia.
Qed.

Lemma string_app_nil (p : string) : (p ++ "")%string = p.
Proof. induction p; simpl; congruence. Qed.

Lemma string_app_assoc (a b c : string) : ((a ++ b) ++ c)%string = (a ++ b ++ c)%string.
Proof. induction a; simpl; congruence. Qed.

Lemma string_app_length (a b : string) :
  String.length (a ++ b) = (String.length a + String.length b)%nat.
Proof. induction a; simpl; congruence. Qed.

(** [splitext] cuts the name in two without losing a character. *)
Lemma splitext_rejoin (p : string) :
  (fst (Py.splitext p) ++ snd (Py.splitext p))%string = p.
Proof.
  unfold Py.splitext.
  destruct (Py.rfind_from "."%char p 0) as [dot|] eqn:E.
  - destruct (andb _ _); cbn [fst snd].
    + apply substring_split. apply rfind_from_bound in E. lia.
    + apply string_app_nil.
  - cbn [fst snd]. apply string_app_nil.
Qed.

Lemma lower_dot (c : ascii) : Py.lower_ascii c = "."%char -> c = "."%char.
Proof.
  destruct c as [[] [] [] [] [] [] [] []]; vm_compute; intros H;
    try discriminate H; reflexivity.
Qed.

Lemma lstrip_dot_cons (c : ascii) (r : string) :
  Py.lstrip_dot (String c r)
  = if Ascii.eqb c "."%char then Py.lstrip_dot r else String c r.
Proof. destruct c as [[] [] [] [] [] [] [] []]; reflexivity. Qed.

Lemma lstrip_dot_letter (rest : string) (t0 : ascii) (tr : string) :
  Py.lower rest = String t0 tr -> t0 <> "."%char -> Py.lstrip_dot rest = rest.
Proof.
  destruct rest as [|c r]; intros H Ht; simpl in H; [discriminate|].
  injection H as Hc _. rewrite lstrip_dot_cons.
  destruct (Ascii.eqb_spec c "."%char) as [->|_]; [|reflexivity].
  exfalso. apply Ht. rewrite <- Hc. reflexivity.
Qed.

(** A supported extension is a dot followed by one of the five names, in
    any case; stripping the dots on its left removes just that dot. *)
Lemma supported_extension (ext : string) :
  existsb (String.eqb (Py.lower ext)) EXTENSIONS = true ->
  exists rest, ext = String "."%char rest
               /\ Py.lstrip_dot ext = rest
               /\ In (Py.lower rest) stored_extensions.
Proof.
  intros H. apply existsb_exists in H. destruct H as [x [Hx Heq]].
  apply String.eqb_eq in Heq.
  destruct ext as [|c0 rest]; simpl in Heq.
  - subst x. simpl in Hx. intuition discriminate.
  - exists rest.
    assert (Hcases : exists t0 tr, Py.lower_ascii c0 = "."%char
                       /\ Py.lower rest = String t0 tr /\ t0 <> "."%char
                       /\ In (Py.lower rest) stored_extensions).
    { simpl in Hx.
      destruct Hx as [<-|[<-|[<-|[<-|[<-|[]]]]]]; injection Heq as H0 Hr;
        eexists; eexists; (split; [exact H0|]); rewrite Hr;
        (split; [reflexivity|]); (split; [discriminate|]); simpl; auto 6. }
    destruct Hcases as [t0 [tr [H0 [Hr [Ht Hin]]]]].
    apply lower_dot in H0. subst c0.
    split; [reflexivity|]. split; [|exact Hin].
    rewrite lstrip_dot_cons. simpl. apply (lstrip_dot_letter rest t0 tr Hr Ht).
Qed.

Lemma prefix_nil (s : string) : String.prefix "" s = true.
Proof. destruct s; reflexivity. Qed.

Lemma startswith_dot_app (c : ascii) (r x : string) :
  Py.startswith (String c r ++ x) "." = Py.startswith (String c r) ".".
Proof.
  unfold Py.startswith.
  change (String.prefix "." (String c r ++ x))
    with (if ascii_dec "."%char c then String.prefix "" (r ++ x) else false).
  change (String.prefix "." (String c r))
    with (if ascii_dec "."%char c then String.prefix "" r else false).
  rewrite !prefix_nil. reflexivity.
Qed.

Lemma is_image_parts (dir file : string) :
  is_image dir file = true ->
  existsb (String.eqb (Py.lower (snd (Py.splitext file)))) EXTENSIONS = true
  /\ Py.contains dir ".AppleDouble" = false
  /\ Py.startswith file "." = false.
Proof.
  unfold is_image. rewrite !andb_true_iff, !negb_true_iff. tauto.
Qed.

(** What the scanner stores for a picture: base name and extension put
    together again give the name of the directory entry, the extension is a
    supported one and the base name is not hidden. *)
Lemma image_name_parts (dir file : string) :
  is_image dir file = true ->
  (fst (Py.splitext file) ++ "." ++ Py.lstrip_dot (snd (Py.splitext file)))%string = file
  /\ In (Py.lower (Py.lstrip_dot (snd (Py.splitext file)))) stored_extensions
  /\ fst (Py.splitext file) <> ""%string
  /\ Py.startswith (fst (Py.splitext file)) "." = false.
Proof.
  intros H. destruct (is_image_parts dir file H) as [Hext [_ Hhidden]].
  destruct (supported_extension _ Hext) as [rest [Hsnd [Hstrip Hin]]].
  pose proof (splitext_rejoin file) as Hjoin. rewrite Hsnd in Hjoin.
  rewrite Hstrip. split; [exact Hjoin|]. split; [exact Hin|].
  destruct (fst (Py.splitext file)) as [|c r] eqn:Eb.
  - exfalso. simpl in Hjoin. rewrite <- Hjoin in Hhidden.
    unfold Py.startswith in Hhidden. simpl in Hhidden.
    rewrite prefix_nil in Hhidden. discriminate Hhidden.
  - split; [discriminate|]. rewrite <- Hjoin, startswith_dot_app in Hhidden.
    exact Hhidden.
Qed.

Lemma scan_files_pictures (e : env) (d : database) (dirs : list string)
    (dir base ext : string) (t : Q) :
  In (dir, base, ext, t) (map snd (out_of_date_entries e d dirs)) ->
  exists file,
    In dir dirs /\ In file (listdir (fs e) dir) /\ is_image dir file = true
    /\ base = fst (Py.splitext file)
    /\ ext = Py.lstrip_dot (snd (Py.splitext file))
    /\ t = st_mtime (fs e) (Py.path_join dir file).
Proof.
  intros H. apply in_map_iff in H. destruct H as [q [Hq Hin]].
  apply scan_files_in in Hin. destruct Hin as [dir0 [file [Hd [Hf [Himg [_ ->]]]]]].
  cbn [snd] in Hq. injection Hq as <- <- <- <-. exists file. auto 7.
Qed.

(** X1. Whatever its outcome, the File Enumerator adds to the File table
    only pictures: a row it writes has one of the five supported extensions
    (in any case, stored without the dot), a base name that is neither empty
    nor hidden, comes from an entry of a folder outside any Apple sidecar
    directory, whose name is the base name, a dot and the extension, and
    carries the modification time of that entry. *)
Theorem enumerator_records_pictures_only (e : env) (dirs : list string)
    (s s' : cache_state) (res : outcome (list string)) (f : File.row) :
  update_modified_files e dirs s = (res, s') ->
  In f (file (db s')) ->
  In f (file (db s))
  \/ (In (Py.lower (File.extension f)) stored_extensions
      /\ File.basename f <> ""%string
      /\ Py.startswith (File.basename f) "." = false
      /\ exists dir file,
           In dir dirs /\ In file (listdir (fs e) dir)
           /\ Py.contains dir ".AppleDouble" = false
           /\ (File.basename f ++ "." ++ File.extension f)%string = file
           /\ File.last_modified f = st_mtime (fs e) (Py.path_join dir file)).
Proof.
  intros H Hf. rewrite update_modified_files_unfold in H.
  destruct (some_unreadable e dirs); [injection H as _ <-; left; exact Hf|].
  assert (E : exists r, executemany_file (map snd (out_of_date_entries e (db s) dirs)) s
                        = (r, s')).
  { destruct (executemany_file _ s) as [[u|x] s1]; injection H as _ <-; eauto. }
  destruct E as [r E].
  destruct (executemany_file_rows _ _ _ _ f E Hf) as [Hold|[dir [Hrow _]]];
    [left; exact Hold|].
  right. apply scan_files_pictures in Hrow.
  destruct Hrow as [file [Hdir [Hfile [Himg [Hb [Hx Ht]]]]]].
  destruct (image_name_parts dir file Himg) as [Hjoin [Hext [Hne Hhid]]].
  destruct (is_image_parts dir file Himg) as [_ [Happle _]].
  rewrite Hb, Hx. repeat split; try assumption.
  exists dir, file. rewrite Ht. auto 6.
Qed.

Lemma enumerator_records_pictures_only_witness :
  update_modified_files Samples.env_edited ["/p"%string] Samples.scanned
  = (Return ["/p/a.jpg"; "/p/b.jpg"]%string,
     mkstate (mkdb [Folder.mk 1 "/p" 100]
                   [File.mk 3 1 "a" "jpg" 200; File.mk 4 1 "b" "jpg" 200] [] [])
             false [])
  /\ (In (File.mk 3 1 "a" "jpg" 200) (file (db Samples.scanned))
      \/ In (Py.lower "jpg") stored_extensions).
Proof.
  assert (H : update_modified_files Samples.env_edited ["/p"%string] Samples.scanned
              = (Return ["/p/a.jpg"; "/p/b.jpg"]%string,
                 mkstate (mkdb [Folder.mk 1 "/p" 100]
                               [File.mk 3 1 "a" "jpg" 200; File.mk 4 1 "b" "jpg" 200] [] [])
                         false []))
    by (vm_compute; reflexivity).
  split; [exact H|].
  destruct (enumerator_records_pictures_only Samples.env_edited _ Samples.scanned _ _
              (File.mk 3 1 "a" "jpg" 200) H (or_introl eq_refl)) as [Hold|[Hext _]].
  - left. exact Hold.
  - right. exact Hext.
Defined.

Lemma path_join_plain (dir file : string) :
  Py.startswith file "/" = false -> dir <> ""%string -> Py.endswith_slash dir = false ->
  Py.path_join dir file = (dir ++ "/" ++ file)%string.
Proof.
  intros H1 H2 H3. unfold Py.path_join. rewrite H1, H3.
  destruct (String.eqb_spec dir ""); [contradiction|reflexivity].
Qed.

Lemma path_join_slash (dir file : string) :
  Py.startswith file "/" = false -> Py.endswith_slash dir = true ->
  Py.path_join dir file = (dir ++ file)%string.
Proof.
  intros H1 H3. unfold Py.path_join. rewrite H1, H3, orb_true_r. reflexivity.
Qed.

(** X2. The File row written for a picture is found again under the path
    the scanner will look up: the view has a row whose [fname] is
    [os.path.join(dir, pic)] and whose time is the one written, as long as
    the folder path is not empty and has no trailing slash.  With a
    trailing slash the names the view gives the rows of that folder carry a
    doubled slash and are never the path looked up. *)
Theorem recorded_picture_found_under_its_path (d d' : database) (dir pic : string)
    (t : Q) :
  is_image dir pic = true ->
  Py.startswith pic "/" = false ->
  Sql.insert_or_replace_file d
    (dir, fst (Py.splitext pic), Py.lstrip_dot (snd (Py.splitext pic)), t) = Some d' ->
  (dir <> ""%string -> Py.endswith_slash dir = false ->
   exists r, In r (all_data d')
             /\ AllData.fname r = Py.path_join dir pic
             /\ AllData.last_modified r = t)
  /\ (Py.endswith_slash dir = true ->
      forall r, Folder.name (AllData.r_folder r) = dir ->
        File.basename (AllData.r_file r) = fst (Py.splitext pic) ->
        File.extension (AllData.r_file r) = Py.lstrip_dot (snd (Py.splitext pic)) ->
        AllData.fname r <> Py.path_join dir pic).
Proof.
  intros Himg Hrel Hins.
  destruct (image_name_parts dir pic Himg) as [Hjoin _]. split.
  - intros Hne Hslash. rewrite (path_join_plain dir pic Hrel Hne Hslash).
    destruct (insert_file_step _ _ _ _ _ _ Hins) as [fid [Hfid Hfile]].
    destruct (insert_file_other_tables _ _ _ Hins) as [Hfolder _].
    unfold Sql.select_folder_id in Hfid.
    destruct (Sql.select_folder d dir) as [g|] eqn:Eg; [|discriminate].
    cbn in Hfid. injection Hfid as Hid.
    apply find_some in Eg. destruct Eg as [Hg Hnm]. apply String.eqb_eq in Hnm.
    destruct (all_data_has_row d'
                (File.mk (new_rowid (map File.file_id (file d))) fid
                   (fst (Py.splitext pic)) (Py.lstrip_dot (snd (Py.splitext pic))) t) g)
      as [r [Hr [Hrf Hrg]]].
    + rewrite Hfile. apply in_or_app. right. left. reflexivity.
    + rewrite Hfolder. exact Hg.
    + unfold on_folder. cbn. apply Z.eqb_eq. exact Hid.
    + exists r. split; [exact Hr|]. unfold AllData.fname, AllData.last_modified.
      rewrite Hrf, Hrg, Hnm. cbn [File.basename File.extension File.last_modified].
      rewrite Hjoin. split; reflexivity.
  - intros Hslash r Hn Hb Hx. rewrite (path_join_slash dir pic Hrel Hslash).
    unfold AllData.fname. rewrite Hn, Hb, Hx, Hjoin. intros Heq.
    apply (f_equal String.length) in Heq.
    rewrite !string_app_length in Heq. simpl in Heq. lia.
Qed.

Lemma recorded_picture_found_under_its_path_witness :
  Sql.insert_or_replace_file (db Samples.scanned)
    ("/p"%string, "a"%string, "jpg"%string, 200%Q)
  = Some (mkdb [Folder.mk 1 "/p" 100]
               [File.mk 2 1 "b" "jpg" 100; File.mk 3 1 "a" "jpg" 200] [] [])
  /\ exists r,
       In r (all_data (mkdb [Folder.mk 1 "/p" 100]
                            [File.mk 2 1 "b" "jpg" 100; File.mk 3 1 "a" "jpg" 200] [] []))
       /\ AllData.fname r = "/p/a.jpg"%string
       /\ AllData.last_modified r = 200%Q.
Proof.
  split; [reflexivity|].
  apply (proj1 (recorded_picture_found_under_its_path (db Samples.scanned) _
                  "/p" "a.jpg" 200 eq_refl eq_refl eq_refl)).
  - discriminate.
  - reflexivity.
Defined.

(** ** Slots *)

Lemma walk_slots_sizes (full : list PairingSpec.entry) (portraits : list (option Z)) :
  forall slot, In slot (PairingSpec.walk_slots full portraits) ->
    List.length slot = 1%nat \/ List.length slot = 2%nat.
Proof.
  revert portraits. induction full as [|[i|] full IH]; intros portraits slot; simpl.
  - intros [].
  - intros [<-|H]; [left; reflexivity|apply (IH _ _ H)].
  - destruct portraits as [|a [|b more]]; simpl.
    + apply IH.
    + intros [<-|H]; [left; reflexivity|apply (IH _ _ H)].
    + intros [<-|H]; [right; reflexivity|apply (IH _ _ H)].
Qed.

Lemma full_pass_entry_landscape (r : AllData.row) :
  PairingSpec.full_pass_entry r
  = if landscape r then PairingSpec.Id (AllData.file_id r) else PairingSpec.Sentinel.
Proof.
  unfold PairingSpec.full_pass_entry, landscape.
  destruct (AllData.is_portrait r) as [[|]|]; reflexivity.
Qed.

(** As long as there are at most two portraits for each sentinel, the walk
    uses up the portrait pass. *)
Lemma walk_slots_keeps_all (rows : list AllData.row) (portraits : list (option Z)) :
  (List.length portraits
   <= 2 * List.length (filter (fun r => negb (landscape r)) rows))%nat ->
  Permutation (List.concat (PairingSpec.walk_slots (map PairingSpec.full_pass_entry rows)
                         portraits))
              (map AllData.file_id (filter landscape rows) ++ portraits).
Proof.
  revert portraits. induction rows as [|r rows IH]; intros portraits Hlen.
  - simpl in *. destruct portraits; [constructor|simpl in Hlen; lia].
  - cbn [map filter] in *. rewrite full_pass_entry_landscape.
    destruct (landscape r) eqn:E; cbn [negb] in *.
    + cbn. constructor. apply IH. exact Hlen.
    + cbn [List.length] in Hlen. cbn [PairingSpec.walk_slots].
      destruct portraits as [|a [|b more]].
      * apply IH. simpl. lia.
      * cbn [List.concat app]. apply Permutation_cons_app. rewrite app_nil_r.
        specialize (IH [] ltac:(simpl; lia)). rewrite app_nil_r in IH. exact IH.
      * cbn [List.concat app].
        apply (Permutation_trans (l' := [a; b] ++ map AllData.file_id (filter landscape rows)
                                          ++ more)).
        -- cbn [app]. do 2 constructor. apply IH. cbn [List.length] in Hlen. lia.
        -- apply (Permutation_app_swap_app [a; b]).
Qed.

Lemma filter_length_le {A : Type} (p q : A -> bool) (l : list A) :
  (forall x, p x = true -> q x = true) ->
  (List.length (filter p l) <= List.length (filter q l))%nat.
Proof.
  intros H. induction l as [|x l IH]; simpl; [lia|].
  destruct (p x) eqn:Px.
  - rewrite (H x Px). simpl. lia.
  - destruct (q x); simpl; lia.
Qed.

Lemma in_full_pass (scan : Sql.plan) (d : database) (w : AllData.row -> bool)
    (le : AllData.row -> AllData.row -> bool) (r : AllData.row) :
  complete scan ->
  In r (Sql.order_by le (scan (filter w (all_data d)))) ->
  In r (all_data d) /\ w r = true.
Proof.
  intros Hscan Hr. apply in_order_by in Hr. apply (Permutation_in _ (Hscan _)) in Hr.
  apply filter_In in Hr. exact Hr.
Qed.

Lemma portrait_pass_permutation (scan scan_portraits : Sql.plan) (d : database)
    (w : AllData.row -> bool) (le : AllData.row -> AllData.row -> bool) :
  complete scan -> complete scan_portraits ->
  Permutation
    (Sql.order_by le (scan_portraits (filter (fun r => andb (w r) (portrait r)) (all_data d))))
    (filter portrait (Sql.order_by le (scan (filter w (all_data d))))).
Proof.
  intros Hscan Hscanp.
  transitivity (filter (fun r => andb (w r) (portrait r)) (all_data d)).
  - transitivity (scan_portraits (filter (fun r => andb (w r) (portrait r)) (all_data d)));
      [apply order_by_permutation|apply Hscanp].
  - apply (portraits_of_full_pass scan d w le _ Hscan eq_refl).
Qed.

(** X3. Pairing loses no picture and shows none twice: whatever the sort
    expression and the plans of the two statements, every slot
    [query_cache] returns in portrait-pairing mode holds one or two ids, and
    the ids of all the slots together are the ids of the matching landscape
    rows and of the matching portrait rows, each once. *)
Theorem pairing_keeps_every_picture (scan scan_portraits : Sql.plan) (d : database)
    (w : AllData.row -> bool) (le : AllData.row -> AllData.row -> bool) :
  complete scan -> complete scan_portraits ->
  (forall r, In r (all_data d) ->
     AllData.is_portrait r = Some false -> AllData.file_id r <> Some (-1)) ->
  (forall slot, In slot (query_cache true scan scan_portraits d w le) ->
     List.length slot = 1%nat \/ List.length slot = 2%nat)
  /\ Permutation
       (List.concat (query_cache true scan scan_portraits d w le))
       (map AllData.file_id
          (filter landscape (Sql.order_by le (scan (filter w (all_data d)))))
        ++ map AllData.file_id
             (filter portrait (Sql.order_by le (scan (filter w (all_data d)))))).
Proof.
  intros Hscan Hscanp Hids.
  rewrite (query_cache_pairs_slots scan scan_portraits d w le).
  2:{ intros r Hr. apply Hids. apply (in_full_pass scan d w le r Hscan Hr). }
  unfold PairingSpec.slots, PairingSpec.full_pass, PairingSpec.portrait_pass,
    Sql.select_all_data.
  pose proof (portrait_pass_permutation scan scan_portraits d w le Hscan Hscanp) as Hperm.
  split; [apply walk_slots_sizes|].
  etransitivity.
  - apply walk_slots_keeps_all. rewrite length_map, (Permutation_length Hperm).
    pose proof (filter_length_le portrait (fun r => negb (landscape r))
                  (Sql.order_by le (scan (filter w (all_data d))))) as H.
    assert (Himp : forall x, portrait x = true -> negb (landscape x) = true).
    { intros x. unfold portrait, landscape.
      destruct (AllData.is_portrait x) as [[|]|]; auto. }
    specialize (H Himp). lia.
  - apply Permutation_app_head, Permutation_map, Hperm.
Qed.

Lemma pairing_keeps_every_picture_witness :
  query_cache true Samples.in_table_order Samples.backwards Samples.db_same_second
    Samples.anything Samples.by_exif_datetime_desc
  = [[Some 1]; [Some 3; Some 2]; [Some 4]]
  /\ Permutation
       (List.concat (query_cache true Samples.in_table_order Samples.backwards
                       Samples.db_same_second Samples.anything
                       Samples.by_exif_datetime_desc))
       ([Some 1; Some 4] ++ [Some 2; Some 3]).
Proof.
  split; [vm_compute; reflexivity|].
  refine (proj2 (pairing_keeps_every_picture Samples.in_table_order Samples.backwards
                   Samples.db_same_second Samples.anything Samples.by_exif_datetime_desc
                   _ _ _)).
  - intros l. reflexivity.
  - intros l. apply Permutation_sym, Permutation_rev.
  - intros r Hr _. vm_compute in Hr.
    destruct Hr as [<-|[<-|[<-|[<-|[]]]]]; vm_compute; discriminate.
Defined.

Lemma walk_slots_landscape_only (rows : list AllData.row) (portraits : list (option Z)) :
  (forall r, In r rows -> landscape r = true) ->
  PairingSpec.walk_slots (map PairingSpec.full_pass_entry rows) portraits
  = map (fun r => [AllData.file_id r]) rows.
Proof.
  induction rows as [|r rows IH]; intros H; [reflexivity|].
  cbn [map]. rewrite full_pass_entry_landscape, (H r (or_introl eq_refl)).
  cbn [PairingSpec.walk_slots]. rewrite IH; [reflexivity|].
  intros r0 Hr0. apply H. right. exact Hr0.
Qed.

(** X4. When every matching row is a landscape picture, portrait-pairing
    mode returns what plain mode returns: one single-id tuple per matching
    row, in the order of the sort, whatever the plan of the second
    statement. *)
Theorem pairs_equal_plain_without_portraits (scan scan_portraits : Sql.plan)
    (d : database) (w : AllData.row -> bool)
    (le : AllData.row -> AllData.row -> bool) :
  complete scan ->
  (forall r, In r (all_data d) -> w r = true ->
     AllData.is_portrait r = Some false /\ AllData.file_id r <> Some (-1)) ->
  query_cache true scan scan_portraits d w le
  = query_cache false scan scan_portraits d w le.
Proof.
  intros Hscan H.
  assert (Hrows : forall r, In r (Sql.order_by le (scan (filter w (all_data d)))) ->
            AllData.is_portrait r = Some false /\ AllData.file_id r <> Some (-1)).
  { intros r Hr. apply (in_full_pass scan d w le r Hscan) in Hr. apply H; tauto. }
  unfold query_cache. cbn [negb]. unfold Sql.select_all_data.
  rewrite (pair_loop_by_rows [] _ _
           : fold_left (pair_step (map landscape_id_or_minus_one
                                     (Sql.order_by le (scan (filter w (all_data d))))))
               (seq 0 (List.length (map landscape_id_or_minus_one
                                      (Sql.order_by le (scan (filter w (all_data d)))))))
               _ = _).
  rewrite <- (map_map AllData.file_id (fun i => [i])
               (Sql.order_by le
                  (scan_portraits (filter (fun r => andb (w r) (portrait r)) (all_data d))))).
  rewrite pair_body_walk by (intros r Hr _; apply (Hrows r Hr)).
  cbn [app]. rewrite walk_slots_landscape_only; [reflexivity|].
  intros r Hr. unfold landscape. destruct (Hrows r Hr) as [-> _]. reflexivity.
Qed.

Lemma pairs_equal_plain_without_portraits_witness :
  (forall r, In r (all_data Samples.db_lppl) -> landscape r = true ->
     AllData.is_portrait r = Some false /\ AllData.file_id r <> Some (-1))
  /\ query_cache true Samples.in_table_order Samples.backwards Samples.db_lppl landscape
       Samples.by_exif_datetime
     = [[Some 1]; [Some 4]].
Proof.
  assert (H : forall r, In r (all_data Samples.db_lppl) -> landscape r = true ->
     AllData.is_portrait r = Some false /\ AllData.file_id r <> Some (-1)).
  { intros r Hr Hl. vm_compute in Hr.
    destruct Hr as [<-|[<-|[<-|[<-|[]]]]]; vm_compute in Hl; try discriminate Hl;
      (split; [reflexivity|vm_compute; discriminate]). }
  split; [exact H|].
  rewrite (pairs_equal_plain_without_portraits Samples.in_table_order Samples.backwards
             Samples.db_lppl landscape Samples.by_exif_datetime
             (fun l => Permutation_refl l) H).
  vm_compute. reflexivity.
Defined.

(** ** Folder rows through a scan *)



(** ** Who writes what *)

Lemma insert_metas_location (l : list (string * Meta.row)) (d : database) :
  location (fold_left Sql.insert_or_replace_meta l d) = location d.
Proof.
  revert d. induction l as [|[fn m] l IH]; intros d; cbn [fold_left]; [reflexivity|].
  rewrite IH. reflexivity.
Qed.

Lemma purge_location (e : env) (d : database) : location (purge e d) = location d.
Proof.
  rewrite purge_unfold.
  destruct (delete_files_tables
              (map AllData.file_id
                 (filter (missing_file e)
                    (all_data (fold_left Sql.delete_folder
                       (map Folder.folder_id (filter (missing_folder e) (folder d))) d))))
              (fold_left Sql.delete_folder
                 (map Folder.folder_id (filter (missing_folder e) (folder d))) d))
    as [_ [_ [_ ->]]].
  destruct (delete_folders_tables
              (map Folder.folder_id (filter (missing_folder e) (folder d))) d)
    as [_ [_ [_ ->]]].
  reflexivity.
Qed.

Lemma scan_location_frame (e : env) (s : cache_state) :
  location (db (snd (update_modified_folders e s))) = location (db s)
  /\ geo_log (snd (update_modified_folders e s)) = geo_log s.
Proof.
  rewrite update_modified_folders_unfold. cbv zeta. cbn [snd db geo_log].
  destruct (update_folders_other_tables
              (fst (scan_folders e (db s) (first_run s) (walk (fs e))))
              (fold_left Sql.insert_or_ignore_folder
                 (fst (scan_folders e (db s) (first_run s) (walk (fs e)))) (db s)))
    as [_ [_ ->]].
  destruct (insert_folders_other_tables
              (fst (scan_folders e (db s) (first_run s) (walk (fs e)))) (db s))
    as [_ [_ ->]].
  split; reflexivity.
Qed.

Lemma update_cache_location_frame (e : env) (s : cache_state) :
  location (db (snd (update_cache e s))) = location (db s)
  /\ geo_log (snd (update_cache e s)) = geo_log s.
Proof.
  unfold update_cache, bind.
  destruct (update_modified_folders e s) as [[mf|x] sA] eqn:EA.
  2:{ rewrite update_modified_folders_unfold in EA. discriminate. }
  assert (HA : location (db sA) = location (db s) /\ geo_log sA = geo_log s).
  { destruct (scan_location_frame e s) as [H1 H2]. rewrite EA in H1, H2.
    auto. }
  destruct HA as [LA GA].
  destruct (update_modified_files e mf sA) as [[mfiles|x] sB] eqn:EB;
    destruct (update_modified_files_other_tables _ _ _ _ _ EB) as [_ [_ [LB [_ GB]]]].
  2:{ cbn [snd]. split; congruence. }
  unfold update_meta_data.
  destruct (collect_meta e mfiles) as [l|x].
  2:{ cbn [snd]. split; congruence. }
  unfold purge_missing_files_and_folders, bind, get_db, put_db, ret.
  cbn [snd db set_db geo_log]. rewrite purge_location, insert_metas_location.
  split; congruence.
Qed.

(** X6. An update cycle never touches the geocode cache and never calls the
    geocoder, whether it completes or an exception ends it: the Location
    table and the list of geocoder calls are after the cycle what they were
    before it. *)
Theorem update_cache_leaves_geocode_cache (e : env) (s : cache_state) :
  location (db (snd (update_cache e s))) = location (db s)
  /\ geo_log (snd (update_cache e s)) = geo_log s.
Proof. apply update_cache_location_frame. Qed.

(** X7. A request for a record writes nothing but the geocode cache, calls
    the geocoder at most once, and never changes or removes a Location row:
    after [get_file_info], whatever its outcome, Folder, File, Meta and the
    first-run flag are as before, and either nothing was written, or one
    Location row was appended, with a description that is not empty, for
    coordinates that no row carried, the geocoder having been called once,
    for those coordinates. *)
Theorem get_file_info_only_appends_location (e : env) (i : Z) (s : cache_state) :
  folder (db (snd (get_file_info e i s))) = folder (db s)
  /\ file (db (snd (get_file_info e i s))) = file (db s)
  /\ meta (db (snd (get_file_info e i s))) = meta (db s)
  /\ first_run (snd (get_file_info e i s)) = first_run s
  /\ ((location (db (snd (get_file_info e i s))) = location (db s)
       /\ (geo_log (snd (get_file_info e i s)) = geo_log s
           \/ exists lat lon,
                geo_log (snd (get_file_info e i s)) = (geo_log s ++ [(lat, lon)])%list))
      \/ exists new,
           location (db (snd (get_file_info e i s))) = (location (db s) ++ [new])%list
           /\ Location.description new <> ""%string
           /\ (forall l, In l (location (db s)) ->
                 coords_match (Some (Location.latitude new))
                              (Some (Location.longitude new)) l = false)
           /\ geo_log (snd (get_file_info e i s))
              = (geo_log s ++ [(Location.latitude new, Location.longitude new)])%list).
Proof.
  unfold get_file_info, bind, get_db.
  destruct (select_by_file_id (db s) i) as [row|] eqn:Hsel.
  2:{ cbn. repeat split. left. auto. }
  destruct (AllData.latitude row) as [lat|] eqn:Hlat.
  2:{ cbn. repeat split. left. auto. }
  destruct (AllData.longitude row) as [lon|] eqn:Hlon.
  2:{ cbn. repeat split. left. auto. }
  destruct (AllData.location row) as [place|] eqn:Hloc.
  1:{ cbn. repeat split. left. auto. }
  pose proof (no_location_no_clash (db s) row lat lon
                (select_by_file_id_in _ _ _ Hsel) Hlat Hlon Hloc) as Hfree.
  unfold get_geo_location.
  destruct (Nat.eqb (String.length (get_address e (List.length (geo_log s)) lat lon)) 0)
    eqn:E.
  - cbn. repeat split. left. split; [reflexivity|]. right. exists lat, lon. reflexivity.
  - cbn [db set_db first_run geo_log]. unfold ret. cbn [snd db first_run geo_log].
    rewrite (insert_location_appends (db s) lat lon _ Hfree).
    cbn [folder file meta location set_location]. repeat split.
    right. eexists. split; [reflexivity|]. cbn [Location.description Location.latitude
                                                 Location.longitude].
    split; [|split; [exact Hfree|reflexivity]].
    intros Hempty. rewrite Hempty in E. discriminate E.
Qed.

(** ** What the purge removes *)

Lemma purge_removes_only (e : env) (d : database) :
  incl (folder (purge e d)) (folder d)
  /\ incl (file (purge e d)) (file d)
  /\ incl (meta (purge e d)) (meta d).
Proof.
  rewrite purge_unfold.
  set (d1 := fold_left Sql.delete_folder
               (map Folder.folder_id (filter (missing_folder e) (folder d))) d).
  destruct (delete_files_tables
              (map AllData.file_id (filter (missing_file e) (all_data d1))) d1)
    as [H1 [H2 [H3 _]]].
  destruct (delete_folders_tables
              (map Folder.folder_id (filter (missing_folder e) (folder d))) d)
    as [K1 [K2 [K3 _]]].
  fold d1 in K1, K2, K3. rewrite H1, H2, K1. repeat split.
  - apply incl_filter.
  - eapply incl_tran; [apply incl_filter|exact K2].
  - eapply incl_tran; [exact H3|exact K3].
Qed.

(** X8. After the purge every Folder row left is on disk and every row of
    the view that has metadata is on disk; the purge only removes rows of
    Folder, File and Meta, leaves Location alone, and a second purge on the
    same disk changes nothing. *)
Theorem purge_leaves_what_is_on_disk (e : env) (d : database) :
  (forall g, In g (folder (purge e d)) -> path_exists (fs e) (Folder.name g) = true)
  /\ (forall r, In r (all_data (purge e d)) -> AllData.file_id r <> None ->
        path_exists (fs e) (AllData.fname r) = true)
  /\ incl (folder (purge e d)) (folder d)
  /\ incl (file (purge e d)) (file d)
  /\ incl (meta (purge e d)) (meta d)
  /\ location (purge e d) = location d
  /\ purge e (purge e d) = purge e d.
Proof.
  destruct (purge_removes_only e d) as [H1 [H2 H3]].
  split; [|split; [|repeat split; auto using purge_location, purge_twice]].
  - intros g Hg. apply purge_folders_exist in Hg. unfold missing_folder in Hg.
    apply negb_false_iff in Hg. exact Hg.
  - intros r Hr Hid. destruct (path_exists (fs e) (AllData.fname r)) eqn:E; [reflexivity|].
    exfalso. apply Hid. apply (purge_missing_files_have_no_meta e d r Hr).
    unfold missing_file. rewrite E. reflexivity.
Qed.

Lemma file_survives_folder_deletes (ids : list Z) (d : database) (f : File.row) :
  In f (file d) -> ~ In (File.folder_id f) ids ->
  In f (file (fold_left Sql.delete_folder ids d)).
Proof.
  revert d. induction ids as [|i ids IH]; intros d Hf Hnot; cbn [fold_left]; [exact Hf|].
  apply IH.
  - rewrite delete_folder_eq.
    destruct (existsb (fun g => Z.eqb (Folder.folder_id g) i) (folder d)); [|exact Hf].
    cbn [file without_folder]. apply filter_In. split; [exact Hf|].
    apply negb_true_iff. unfold in_folder. apply Z.eqb_neq.
    intros Heq. apply Hnot. left. symmetry. exact Heq.
  - intros Hin. apply Hnot. right. exact Hin.
Qed.

(** X9. The purge does not reach a picture that has no metadata: a File row
    without a Meta row, in a folder that is still on disk, stays in the
    store even when the file itself is gone, because the id handed to the
    DELETE is the view's, which is NULL for such a row. *)
Theorem purge_keeps_file_without_meta (e : env) (d : database) (f : File.row) :
  In f (file d) ->
  (forall m, In m (meta d) -> Meta.file_id m <> File.file_id f) ->
  (forall g, In g (folder d) -> Folder.folder_id g = File.folder_id f ->
     path_exists (fs e) (Folder.name g) = true) ->
  In f (file (purge e d)).
Proof.
  intros Hf Hnometa Hfolder. rewrite purge_unfold.
  set (d1 := fold_left Sql.delete_folder
               (map Folder.folder_id (filter (missing_folder e) (folder d))) d).
  destruct (delete_files_tables
              (map AllData.file_id (filter (missing_file e) (all_data d1))) d1)
    as [_ [-> _]].
  destruct (delete_folders_tables
              (map Folder.folder_id (filter (missing_folder e) (folder d))) d)
    as [_ [_ [Hmeta _]]].
  fold d1 in Hmeta.
  apply filter_In. split.
  - apply file_survives_folder_deletes; [exact Hf|].
    intros Hin. apply in_map_iff in Hin. destruct Hin as [g [Hid Hg]].
    apply filter_In in Hg. destruct Hg as [Hg Hmiss].
    unfold missing_folder in Hmiss. rewrite (Hfolder g Hg Hid) in Hmiss. discriminate.
  - apply negb_true_iff, not_true_is_false. intros Hex.
    apply existsb_exists in Hex. destruct Hex as [o [Ho Heq]].
    apply in_map_iff in Ho. destruct Ho as [r [<- Hr]].
    apply filter_In in Hr. destruct Hr as [Hr _].
    destruct (AllData.file_id r) as [j|] eqn:Ej; [|discriminate].
    cbn [value_eqb] in Heq. apply Z.eqb_eq in Heq. subst j.
    destruct (view_file_id_in_meta d1 r _ Hr Ej) as [m [Hm Hid]].
    apply (Hnometa m (Hmeta m Hm) Hid).
Qed.

Lemma purge_keeps_file_without_meta_witness :
  path_exists (fs Samples.env_old_removed) "/p/gone.jpg"%string = false
  /\ all_data Samples.stale_picture
     = [AllData.mk (File.mk 1 1 "gone" "jpg" 100) (Folder.mk 1 "/p" 100) None None]
  /\ In (File.mk 1 1 "gone" "jpg" 100)
        (file (purge Samples.env_old_removed Samples.stale_picture)).
Proof.
  split; [reflexivity|]. split; [reflexivity|].
  apply (purge_keeps_file_without_meta Samples.env_old_removed Samples.stale_picture).
  - left. reflexivity.
  - intros m [].
  - intros g [<-|[]] _. reflexivity.
Defined.

(** ** The constraints of the schema *)

Lemma rows_deleted_refl {A : Type} (l : list A) : rows_deleted l l.
Proof. exists (fun _ => true). symmetry. apply filter_all. reflexivity. Qed.

Lemma rows_deleted_trans {A : Type} (l1 l2 l3 : list A) :
  rows_deleted l1 l2 -> rows_deleted l2 l3 -> rows_deleted l1 l3.
Proof.
  intros [p ->] [q ->]. exists (fun x => andb (q x) (p x)). apply filter_twice.
Qed.

Lemma rows_deleted_keys {A B : Type} (g : A -> B) (l' l : list A) :
  rows_deleted l' l -> NoDup (map g l) -> NoDup (map g l').
Proof. intros [p ->]. apply NoDup_map_filter. Qed.

Lemma rows_deleted_incl {A : Type} (l' l : list A) : rows_deleted l' l -> incl l' l.
Proof. intros [p ->]. apply incl_filter. Qed.

Lemma delete_folder_deletes (d : database) (i : Z) :
  rows_deleted (folder (Sql.delete_folder d i)) (folder d)
  /\ rows_deleted (file (Sql.delete_folder d i)) (file d)
  /\ rows_deleted (meta (Sql.delete_folder d i)) (meta d).
Proof.
  rewrite delete_folder_eq.
  destruct (existsb (fun g => Z.eqb (Folder.folder_id g) i) (folder d)).
  - unfold without_folder. cbn [folder file meta]. repeat split; eexists; reflexivity.
  - repeat split; apply rows_deleted_refl.
Qed.

Lemma delete_file_deletes (d : database) (o : option Z) :
  rows_deleted (folder (Sql.delete_file d o)) (folder d)
  /\ rows_deleted (file (Sql.delete_file d o)) (file d)
  /\ rows_deleted (meta (Sql.delete_file d o)) (meta d).
Proof.
  destruct o as [i|]; [|repeat split; apply rows_deleted_refl].
  rewrite delete_file_eq.
  destruct (existsb (fun f => Z.eqb (File.file_id f) i) (file d)).
  - unfold without_file. cbn [folder file meta].
    repeat split; [apply rows_deleted_refl|eexists; reflexivity|eexists; reflexivity].
  - repeat split; apply rows_deleted_refl.
Qed.

Lemma statements_delete {A : Type} (stmt : database -> A -> database) (l : list A) :
  (forall d a, rows_deleted (folder (stmt d a)) (folder d)
               /\ rows_deleted (file (stmt d a)) (file d)
               /\ rows_deleted (meta (stmt d a)) (meta d)) ->
  forall d, rows_deleted (folder (fold_left stmt l d)) (folder d)
            /\ rows_deleted (file (fold_left stmt l d)) (file d)
            /\ rows_deleted (meta (fold_left stmt l d)) (meta d).
Proof.
  intros Hstep. induction l as [|a l IH]; intros d; cbn [fold_left].
  - repeat split; apply rows_deleted_refl.
  - destruct (IH (stmt d a)) as [H1 [H2 H3]]. destruct (Hstep d a) as [K1 [K2 K3]].
    repeat split; eapply rows_deleted_trans; eassumption.
Qed.

(** The purge only deletes rows, of every table. *)
Lemma purge_deletes (e : env) (d : database) :
  rows_deleted (folder (purge e d)) (folder d)
  /\ rows_deleted (file (purge e d)) (file d)
  /\ rows_deleted (meta (purge e d)) (meta d).
Proof.
  rewrite purge_unfold.
  set (d1 := fold_left Sql.delete_folder
               (map Folder.folder_id (filter (missing_folder e) (folder d))) d).
  destruct (statements_delete Sql.delete_file
              (map AllData.file_id (filter (missing_file e) (all_data d1)))
              delete_file_deletes d1) as [H1 [H2 H3]].
  destruct (statements_delete Sql.delete_folder
              (map Folder.folder_id (filter (missing_folder e) (folder d)))
              delete_folder_deletes d) as [K1 [K2 K3]].
  fold d1 in K1, K2, K3.
  repeat split; eapply rows_deleted_trans; eassumption.
Qed.

Lemma purge_keeps_keys (e : env) (d : database) : keys_ok d -> keys_ok (purge e d).
Proof.
  intros [H1 [H2 [H3 [H4 [H5 [H6 H7]]]]]].
  destruct (purge_deletes e d) as [K1 [K2 K3]].
  unfold keys_ok. rewrite purge_location.
  repeat split; try (eapply rows_deleted_keys; eassumption); assumption.
Qed.

Lemma NoDup_snoc {A : Type} (l : list A) (x : A) :
  NoDup l -> ~ In x l -> NoDup (l ++ [x]).
Proof.
  intros Hl Hx. apply NoDup_app; [exact Hl|constructor; [intros []|constructor]|].
  intros a Ha [<-|[]]. exact (Hx Ha).
Qed.

Lemma insert_folder_keeps_keys (d : database) (p : Z * string) :
  NoDup (map Folder.folder_id (folder d)) -> NoDup (map Folder.name (folder d)) ->
  NoDup (map Folder.folder_id (folder (Sql.insert_or_ignore_folder d p)))
  /\ NoDup (map Folder.name (folder (Sql.insert_or_ignore_folder d p))).
Proof.
  destruct p as [t nm]. intros Hid Hnm. unfold Sql.insert_or_ignore_folder.
  destruct (existsb (fun g => String.eqb (Folder.name g) nm) (folder d)) eqn:E;
    [split; assumption|].
  cbn [folder set_folder]. rewrite !map_app. cbn [map Folder.folder_id Folder.name].
  split; apply NoDup_snoc; try assumption.
  - intros Hin. apply new_rowid_fresh in Hin. lia.
  - intros Hin. apply in_map_iff in Hin. destruct Hin as [g [Hg Hin]].
    assert (Ht : existsb (fun g => String.eqb (Folder.name g) nm) (folder d) = true).
    { apply existsb_exists. exists g. split; [exact Hin|]. apply String.eqb_eq. exact Hg. }
    congruence.
Qed.

Lemma update_folder_keeps_columns (d : database) (p : Z * string) :
  map Folder.folder_id (folder (Sql.update_folder d p)) = map Folder.folder_id (folder d)
  /\ map Folder.name (folder (Sql.update_folder d p)) = map Folder.name (folder d).
Proof.
  destruct p as [t nm]. unfold Sql.update_folder. cbn [folder set_folder].
  rewrite !map_map. split; apply map_ext; intros g;
    destruct (String.eqb (Folder.name g) nm); reflexivity.
Qed.

Lemma scan_keeps_folder_keys (e : env) (s : cache_state) :
  NoDup (map Folder.folder_id (folder (db s))) -> NoDup (map Folder.name (folder (db s))) ->
  NoDup (map Folder.folder_id (folder (db (snd (update_modified_folders e s)))))
  /\ NoDup (map Folder.name (folder (db (snd (update_modified_folders e s))))).
Proof.
  rewrite update_modified_folders_unfold. cbv zeta. cbn [snd db].
  generalize (fst (scan_folders e (db s) (first_run s) (walk (fs e)))) as l.
  intros l Hid Hnm.
  assert (Hins : NoDup (map Folder.folder_id
                          (folder (fold_left Sql.insert_or_ignore_folder l (db s))))
                 /\ NoDup (map Folder.name
                             (folder (fold_left Sql.insert_or_ignore_folder l (db s))))).
  { revert Hid Hnm. generalize (db s) as d.
    induction l as [|p l IH]; intros d Hid Hnm; cbn [fold_left]; [split; assumption|].
    destruct (insert_folder_keeps_keys d p Hid Hnm) as [K1 K2]. apply IH; assumption. }
  revert Hins.
  generalize (fold_left Sql.insert_or_ignore_folder l (db s)) as d.
  clear. induction l as [|p l IH]; intros d Hd; cbn [fold_left]; [exact Hd|].
  apply IH. destruct (update_folder_keeps_columns d p) as [-> ->]. exact Hd.
Qed.

Lemma insert_file_keeps_ids (d d' : database) (p : string * string * string * Q) :
  Sql.insert_or_replace_file d p = Some d' ->
  NoDup (map File.file_id (file d)) -> NoDup (map File.file_id (file d')).
Proof.
  destruct p as [[[dir base] ext] t]. intros H Hnd.
  apply insert_file_step in H. destruct H as [fid [_ ->]].
  rewrite map_app. cbn [map File.file_id]. apply NoDup_snoc.
  - apply NoDup_map_filter. exact Hnd.
  - intros Hin. apply in_map_iff in Hin. destruct Hin as [f [Hf Hin]].
    apply filter_In in Hin. destruct Hin as [Hin _].
    assert (Hlt : File.file_id f < new_rowid (map File.file_id (file d))).
    { apply new_rowid_fresh. apply in_map. exact Hin. }
    lia.
Qed.

Lemma executemany_file_keeps_ids (rows : list (string * string * string * Q))
    (s s' : cache_state) (res : outcome unit) :
  executemany_file rows s = (res, s') ->
  NoDup (map File.file_id (file (db s))) -> NoDup (map File.file_id (file (db s'))).
Proof.
  revert s. induction rows as [|r rows IH]; intros s H Hnd; cbn [executemany_file] in H.
  - unfold ret in H. injection H as _ <-. exact Hnd.
  - destruct (Sql.insert_or_replace_file (db s) r) as [d1|] eqn:E.
    + apply IH in H; [exact H|]. cbn [db set_db].
      apply (insert_file_keeps_ids _ _ _ E Hnd).
    + injection H as _ <-. exact Hnd.
Qed.

Lemma insert_meta_keeps_ids (d : database) (p : string * Meta.row) :
  NoDup (map Meta.file_id (meta d)) ->
  NoDup (map Meta.file_id (meta (Sql.insert_or_replace_meta d p))).
Proof.
  destruct p as [fn m]. intros Hnd. unfold Sql.insert_or_replace_meta.
  cbn [meta set_meta]. rewrite map_app. cbn [map Meta.file_id]. apply NoDup_snoc.
  - apply NoDup_map_filter. exact Hnd.
  - intros Hin. apply in_map_iff in Hin. destruct Hin as [x [Hx Hin]].
    apply filter_In in Hin. destruct Hin as [_ Hneg].
    apply negb_true_iff, Z.eqb_neq in Hneg. exact (Hneg Hx).
Qed.

Lemma insert_metas_keep_keys (l : list (string * Meta.row)) (d : database) :
  keys_ok d -> keys_ok (fold_left Sql.insert_or_replace_meta l d).
Proof.
  revert d. induction l as [|p l IH]; intros d H; cbn [fold_left]; [exact H|].
  apply IH. destruct H as [H1 [H2 [H3 [H4 [H5 [H6 H7]]]]]].
  destruct p as [fn m]. repeat split; try assumption.
  apply (insert_meta_keeps_ids d (fn, m) H5).
Qed.

Lemma insert_location_keeps_keys (d : database) (lat lon : Q) (descr : string) :
  keys_ok d -> keys_ok (Sql.insert_or_replace_location d lat lon descr).
Proof.
  intros [H1 [H2 [H3 [H4 [H5 [H6 H7]]]]]].
  unfold Sql.insert_or_replace_location.
  repeat split; try assumption; cbn [location set_location].
  - rewrite map_app. cbn [map Location.id]. apply NoDup_snoc.
    + apply NoDup_map_filter. exact H6.
    + intros Hin. apply in_map_iff in Hin. destruct Hin as [l [Hl Hin]].
      apply filter_In in Hin. destruct Hin as [Hin _].
      assert (Hlt : Location.id l < new_rowid (map Location.id (location d))).
      { apply new_rowid_fresh. apply in_map. exact Hin. }
      lia.
  - intros a b Ha Hb Hm. apply in_app_or in Ha. apply in_app_or in Hb.
    destruct Ha as [Ha|[<-|[]]], Hb as [Hb|[<-|[]]].
    + apply filter_In in Ha. apply filter_In in Hb. apply H7; tauto.
    + apply filter_In in Ha. destruct Ha as [_ Ha]. apply negb_true_iff in Ha.
      cbn [coords_match Location.latitude Location.longitude] in Hm, Ha.
      rewrite (Qeq_bool_sym lat), (Qeq_bool_sym lon) in Hm. congruence.
    + apply filter_In in Hb. destruct Hb as [_ Hb]. apply negb_true_iff in Hb.
      cbn [Location.latitude Location.longitude] in Hm. congruence.
    + reflexivity.
Qed.

Lemma update_cache_keeps_keys (e : env) (s : cache_state) :
  keys_ok (db s) -> keys_ok (db (snd (update_cache e s))).
Proof.
  intros [H1 [H2 [H3 [H4 [H5 [H6 H7]]]]]]. unfold update_cache, bind.
  destruct (update_modified_folders e s) as [[mf|x] sA] eqn:EA.
  2:{ rewrite update_modified_folders_unfold in EA. discriminate. }
  assert (HA : keys_ok (db sA)).
  { destruct (scan_keeps_folder_keys e s H1 H2) as [K1 K2].
    pose proof (update_modified_folders_meta e s) as Hm.
    destruct (scan_location_frame e s) as [Hl _].
    assert (Hf : file (db (snd (update_modified_folders e s))) = file (db s)).
    { rewrite update_modified_folders_unfold. cbv zeta. cbn [snd db].
      destruct (update_folders_other_tables
                  (fst (scan_folders e (db s) (first_run s) (walk (fs e))))
                  (fold_left Sql.insert_or_ignore_folder
                     (fst (scan_folders e (db s) (first_run s) (walk (fs e)))) (db s)))
        as [-> _].
      destruct (insert_folders_other_tables
                  (fst (scan_folders e (db s) (first_run s) (walk (fs e)))) (db s))
        as [-> _].
      reflexivity. }
    rewrite EA in K1, K2, Hm, Hl, Hf. cbn [snd] in K1, K2, Hm, Hl, Hf.
    unfold keys_ok. rewrite Hm, Hl, Hf. repeat split; assumption. }
  assert (HB : forall r sB, update_modified_files e mf sA = (r, sB) -> keys_ok (db sB)).
  { intros r sB EB. rewrite update_modified_files_unfold in EB.
    destruct (some_unreadable e mf); [injection EB as _ <-; exact HA|].
    destruct HA as [K1 [K2 [K3 [K4 [K5 [K6 K7]]]]]].
    destruct (executemany_file _ sA) as [[u|x] s2] eqn:E; injection EB as _ <-;
      destruct (executemany_file_other_tables _ _ _ _ E) as [F1 [F2 [F3 _]]];
      pose proof (executemany_file_keeps_ids _ _ _ _ E K3);
      pose proof (executemany_file_unique _ _ _ _ E K4);
      unfold keys_ok; rewrite F1, F2, F3; repeat split; assumption. }
  destruct (update_modified_files e mf sA) as [[mfiles|x] sB] eqn:EB.
  2:{ cbn [snd]. apply (HB _ _ eq_refl). }
  specialize (HB _ _ eq_refl).
  unfold update_meta_data.
  destruct (collect_meta e mfiles) as [l|x]; [|exact HB].
  unfold purge_missing_files_and_folders, bind, get_db, put_db, ret. cbn [snd db set_db].
  apply purge_keeps_keys, insert_metas_keep_keys, HB.
Qed.

Lemma get_file_info_keeps_keys (e : env) (i : Z) (s : cache_state) :
  keys_ok (db s) -> keys_ok (db (snd (get_file_info e i s))).
Proof.
  intros H. unfold get_file_info, bind, get_db, raise, ret.
  destruct (select_by_file_id (db s) i) as [row|]; [|exact H].
  destruct (AllData.latitude row) as [lat|]; [|exact H].
  destruct (AllData.longitude row) as [lon|]; [|exact H].
  destruct (AllData.location row); [exact H|].
  unfold get_geo_location.
  destruct (Nat.eqb (String.length (get_address e (List.length (geo_log s)) lat lon)) 0);
    cbn [snd db set_db]; [exact H|].
  apply insert_location_keeps_keys. exact H.
Qed.

(** X10. The PRIMARY KEY and UNIQUE constraints of the schema hold in an
    empty store and are kept by an update cycle, whatever its outcome, and
    by a request for a record: the statements the cache issues never leave
    two rows with the same key. *)
Theorem schema_constraints_kept (e : env) (s : cache_state) :
  keys_ok (db s) ->
  keys_ok (db (snd (update_cache e s)))
  /\ forall i, keys_ok (db (snd (get_file_info e i s))).
Proof.
  intros H. split; [apply update_cache_keeps_keys, H|].
  intros i. apply get_file_info_keeps_keys, H.
Qed.

Lemma schema_constraints_kept_witness :
  keys_ok (db Samples.fresh)
  /\ keys_ok (db (snd (update_cache Samples.env_p Samples.fresh)))
  /\ forall i, keys_ok (db (snd (get_file_info Samples.env_p i Samples.fresh))).
Proof.
  assert (H : keys_ok (db Samples.fresh)).
  { cbn. repeat split; try constructor. intros a b []. }
  split; [exact H|]. apply (schema_constraints_kept Samples.env_p Samples.fresh H).
Defined.

(** ** The report of the Directory Scanner *)


(** ** The key of a new Meta row *)

(** X12. The Meta row written for a recorded picture that has no metadata
    yet is not keyed by the picture's id: the id the upsert asks the view
    for is the NULL of the missing Meta row, and the new row takes the next
    free id of the Meta table.  The view shows the picture with its
    metadata only when that id happens to be the picture's. *)
Theorem meta_upsert_takes_next_meta_id (d : database) (fn : string) (m : Meta.row)
    (r : AllData.row) :
  Sql.select_fname d fn = Some r ->
  AllData.r_meta r = None ->
  exists new,
    meta (Sql.insert_or_replace_meta d (fn, m)) = (meta d ++ [new])%list
    /\ Meta.file_id new = new_rowid (map Meta.file_id (meta d))
    /\ Meta.exif_datetime new = Meta.exif_datetime m
    /\ Meta.width new = Meta.width m /\ Meta.height new = Meta.height m
    /\ forall r', In r' (all_data (Sql.insert_or_replace_meta d (fn, m))) ->
         AllData.r_file r' = AllData.r_file r ->
         AllData.r_meta r'
         = if Z.eqb (File.file_id (AllData.r_file r)) (Meta.file_id new)
           then Some new else None.
Proof.
  intros Hsel Hnone. unfold Sql.insert_or_replace_meta, Sql.select_file_id.
  rewrite Hsel. unfold AllData.file_id. rewrite Hnone. cbn [option_map].
  cbn [meta set_meta].
  rewrite (filter_all _ (meta d)).
  2:{ intros x Hx. apply negb_true_iff, Z.eqb_neq.
      assert (Hlt : Meta.file_id x < new_rowid (map Meta.file_id (meta d))).
      { apply new_rowid_fresh, in_map, Hx. }
      lia. }
  eexists. split; [reflexivity|]. cbn [Meta.file_id Meta.exif_datetime Meta.width Meta.height].
  repeat split.
  intros r' Hr' Hfile.
  apply find_some in Hsel. destruct Hsel as [Hr _].
  apply in_all_data in Hr. destruct Hr as [_ [_ [_ [Hm _]]]].
  rewrite Hnone in Hm. apply in_left_join in Hm.
  apply in_all_data in Hr'. destruct Hr' as [_ [_ [_ [Hm' _]]]].
  cbn [meta set_meta] in Hm'. rewrite Hfile in Hm'.
  unfold left_join in Hm'. rewrite filter_app, Hm in Hm'. cbn [app filter] in Hm'.
  unfold on_meta at 1 in Hm'. cbn [Meta.file_id] in Hm'.
  destruct (Z.eqb (File.file_id (AllData.r_file r))
                  (new_rowid (map Meta.file_id (meta d)))).
  - destruct Hm' as [<-|[]]. reflexivity.
  - destruct Hm' as [<-|[]]. reflexivity.
Qed.

Lemma meta_upsert_takes_next_meta_id_witness :
  exists new,
    meta (Sql.insert_or_replace_meta Samples.replaced_picture
            ("/p/a.jpg"%string, Samples.plain_meta 0 200 4 3))
    = [new]
    /\ Meta.file_id new = 1
    /\ forall r', In r' (all_data (Sql.insert_or_replace_meta Samples.replaced_picture
                                     ("/p/a.jpg"%string, Samples.plain_meta 0 200 4 3))) ->
         AllData.r_file r' = File.mk 2 1 "a" "jpg" 200 ->
         AllData.r_meta r' = None.
Proof.
  destruct (meta_upsert_takes_next_meta_id Samples.replaced_picture "/p/a.jpg"%string
              (Samples.plain_meta 0 200 4 3)
              (AllData.mk (File.mk 2 1 "a" "jpg" 200) (Folder.mk 1 "/p" 100) None None)
              eq_refl eq_refl)
    as [new [H1 [H2 [_ [_ [_ H3]]]]]].
  exists new. split; [exact H1|]. split; [exact H2|].
  intros r' Hr' Hfile. rewrite (H3 r' Hr' Hfile), H2. reflexivity.
Defined.

(** ** The record a request returns *)

Lemma attach_location_file_id (new : Location.row) (r : AllData.row) :
  AllData.file_id (attach_location new r) = AllData.file_id r.
Proof. unfold attach_location. destruct (on_location _ new); reflexivity. Qed.

(** X13. A request for a record either returns a row of the view as it
    stands after the call, and that row has the id asked for, or raises
    TypeError, which happens only when no row of the view has that id. *)
Theorem get_file_info_returns_requested (e : env) (i : Z) (s : cache_state) :
  match fst (get_file_info e i s) with
  | Return o =>
      exists r, o = Some r /\ AllData.file_id r = Some i
                /\ In r (all_data (db (snd (get_file_info e i s))))
  | Raise x => x = TypeError /\ select_by_file_id (db s) i = None
  end.
Proof.
  unfold get_file_info, bind, get_db.
  destruct (select_by_file_id (db s) i) as [row|] eqn:Hsel; [|cbn; auto].
  assert (Hid : AllData.file_id row = Some i).
  { apply find_some in Hsel. destruct Hsel as [_ Hid].
    destruct (AllData.file_id row) as [j|]; [|discriminate].
    cbn [value_eqb] in Hid. apply Z.eqb_eq in Hid. congruence. }
  pose proof (select_by_file_id_in _ _ _ Hsel) as Hin.
  destruct (AllData.latitude row) as [lat|] eqn:Hlat; [|cbn; eauto].
  destruct (AllData.longitude row) as [lon|] eqn:Hlon; [|cbn; eauto].
  destruct (AllData.location row) as [place|] eqn:Hloc; [cbn; eauto|].
  pose proof (no_location_no_clash (db s) row lat lon Hin Hlat Hlon Hloc) as Hfree.
  unfold get_geo_location.
  destruct (Nat.eqb (String.length (get_address e (List.length (geo_log s)) lat lon)) 0).
  - cbn. eauto.
  - cbn [db set_db first_run geo_log]. unfold ret. cbn [fst snd db].
    rewrite (insert_location_appends (db s) lat lon _ Hfree).
    pose proof (select_after_new_location (db s)
                  (Location.mk (new_rowid (map Location.id (location (db s)))) lat lon
                     (get_address e (List.length (geo_log s)) lat lon)) i Hfree) as Hnew.
    rewrite Hsel in Hnew. cbn [option_map] in Hnew.
    eexists. split; [exact Hnew|].
    split; [rewrite attach_location_file_id; exact Hid|].
    apply (select_by_file_id_in _ i). exact Hnew.
Qed.

(** ** The loop thread *)

Lemma update_cache_flag (e : env) (s : cache_state) :
  first_run s = false -> first_run (snd (update_cache e s)) = false.
Proof.
  intros Hflag. unfold update_cache, bind.
  destruct (update_modified_folders e s) as [[mf|x] sA] eqn:EA.
  2:{ rewrite update_modified_folders_unfold in EA. discriminate. }
  assert (HA : first_run sA = false).
  { rewrite update_modified_folders_unfold in EA. cbv zeta in EA.
    injection EA as _ <-. cbn [first_run]. rewrite Hflag, scan_folders_whole_tree.
    reflexivity. }
  destruct (update_modified_files e mf sA) as [[mfiles|x] sB] eqn:EB;
    destruct (update_modified_files_other_tables _ _ _ _ _ EB) as [_ [_ [_ [FB _]]]].
  2:{ cbn [snd]. congruence. }
  unfold update_meta_data.
  destruct (collect_meta e mfiles) as [l|x].
  2:{ cbn [snd]. congruence. }
  unfold purge_missing_files_and_folders, bind, get_db, put_db, ret.
  cbn [snd set_db first_run]. congruence.
Qed.

(** What every update cycle keeps, the loop keeps. *)
Lemma loop_keeps (P : cache_state -> Prop) (turns : list turn) :
  (forall e s, P s -> P (snd (update_cache e s))) ->
  forall s, P s -> P (snd (loop turns s)).
Proof.
  intros Hstep. induction turns as [|t rest IH]; intros s Hs; cbn [loop]; [exact Hs|].
  destruct (keep_looping t); [|exact Hs].
  destruct (pause_looping t); cbn [negb]; [apply IH, Hs|].
  pose proof (Hstep (disk t) s Hs) as H1.
  destruct (update_cache (disk t) s) as [[r|x] s1]; cbn [snd] in H1; [apply IH, H1|exact H1].
Qed.

(** X14. However long the loop thread runs, and however it ends, it keeps
    the constraints of the schema, never writes the geocode cache, never
    calls the geocoder, and never sets the first-run flag again once it is
    cleared. *)
Theorem loop_thread_keeps_constraints (turns : list turn) (s : cache_state) :
  keys_ok (db s) ->
  keys_ok (db (snd (loop turns s)))
  /\ location (db (snd (loop turns s))) = location (db s)
  /\ geo_log (snd (loop turns s)) = geo_log s
  /\ implb (first_run (snd (loop turns s))) (first_run s) = true.
Proof.
  intros Hkeys. split; [|split; [|split]].
  - apply (loop_keeps (fun s' => keys_ok (db s'))); [|exact Hkeys].
    intros e s0. apply update_cache_keeps_keys.
  - apply (loop_keeps (fun s' => location (db s') = location (db s))); [|reflexivity].
    intros e s0 H0. destruct (update_cache_location_frame e s0) as [-> _]. exact H0.
  - apply (loop_keeps (fun s' => geo_log s' = geo_log s)); [|reflexivity].
    intros e s0 H0. destruct (update_cache_location_frame e s0) as [_ ->]. exact H0.
  - apply (loop_keeps (fun s' => implb (first_run s') (first_run s) = true)).
    + intros e s0 H0. destruct (first_run s); [apply implb_true_r|].
      destruct (first_run s0) eqn:E0; [discriminate|].
      rewrite (update_cache_flag e s0 E0). reflexivity.
    + destruct (first_run s); reflexivity.
Qed.

Lemma loop_thread_keeps_constraints_witness :
  keys_ok (db (init empty_db))
  /\ fst (loop [mkturn true false Samples.env_quiet; mkturn true true Samples.env_p;
                mkturn false false Samples.env_p] (init empty_db)) = Closed
  /\ keys_ok (db (snd (loop [mkturn true false Samples.env_quiet;
                             mkturn true true Samples.env_p;
                             mkturn false false Samples.env_p] (init empty_db)))).
Proof.
  assert (H : keys_ok (db (init empty_db))).
  { cbn. repeat split; try constructor. intros a b []. }
  split; [exact H|]. split; [vm_compute; reflexivity|].
  apply (loop_thread_keeps_constraints _ (init empty_db) H).
Defined.

(** ** The first cycle on a new database *)

Lemma fold_max_lt (rest : list Z) (i k : Z) :
  i < k -> (forall j, In j rest -> j < k) -> fold_left Z.max rest i < k.
Proof.
  revert i. induction rest as [|j rest IH]; intros i Hi H; cbn [fold_left]; [exact Hi|].
  apply IH; [|intros x Hx; apply H; right; exact Hx].
  pose proof (H j (or_introl eq_refl)). lia.
Qed.

Lemma fold_max_snoc (rest : list Z) (i k : Z) :
  fold_left Z.max (rest ++ [k]) i = Z.max (fold_left Z.max rest i) k.
Proof. rewrite fold_left_app. reflexivity. Qed.

Lemma new_rowid_snoc (ids : list Z) (k : Z) :
  (forall i, In i ids -> i < k) -> new_rowid (ids ++ [k]) = k + 1.
Proof.
  intros H. destruct ids as [|i rest]; [reflexivity|].
  cbn [app new_rowid]. rewrite fold_max_snoc.
  assert (fold_left Z.max rest i < k).
  { apply fold_max_lt; [apply H; left; reflexivity|].
    intros j Hj. apply H. right. exact Hj. }
  lia.
Qed.

Lemma new_rowid_next (ids : list Z) :
  new_rowid (ids ++ [new_rowid ids]) = new_rowid ids + 1.
Proof. apply new_rowid_snoc. intros i Hi. apply new_rowid_fresh, Hi. Qed.

(** The Directory Scanner on a new database: the first directory of the
    walk is recorded, and nothing else. *)
Lemma first_scan (e : env) :
  update_modified_folders e (init empty_db)
  = match walk (fs e) with
    | [] => (Return [], init empty_db)
    | dir :: _ =>
        (Return [dir],
         mkstate (mkdb [Folder.mk 1 dir (inject_Z (Py.int (st_mtime (fs e) dir)))] [] [] [])
                 false [])
    end.
Proof.
  rewrite update_modified_folders_unfold. cbv zeta. cbn [db first_run geo_log init].
  rewrite scan_folders_first_run.
  destruct (walk (fs e)) as [|dir rest]; [reflexivity|].
  assert (Hood : folder_out_of_date e empty_db dir = true) by reflexivity.
  cbn [filter]. rewrite Hood. cbn [fst snd map fold_left].
  unfold Sql.insert_or_ignore_folder, Sql.update_folder.
  cbn [folder empty_db existsb set_folder app map new_rowid Folder.name Folder.folder_id
       file meta location].
  rewrite String.eqb_refl. reflexivity.
Qed.

Lemma scan_file_fresh (e : env) (d : database) (dir file : string) :
  all_data d = [] ->
  out_of_date_entry e d dir file
  = if is_image dir file
    then [(Py.path_join dir file,
           (dir, fst (Py.splitext file), Py.lstrip_dot (snd (Py.splitext file)),
            st_mtime (fs e) (Py.path_join dir file)))]
    else [].
Proof.
  intros Hview. unfold out_of_date_entry. destruct (Py.splitext file) as [base ext].
  destruct (is_image dir file); [|reflexivity].
  unfold file_out_of_date, Sql.select_fname. rewrite Hview. reflexivity.
Qed.

Lemma scan_files_fresh (e : env) (d : database) (dir : string) :
  all_data d = [] ->
  out_of_date_entries e d [dir]
  = map (fun file =>
           (Py.path_join dir file,
            (dir, fst (Py.splitext file), Py.lstrip_dot (snd (Py.splitext file)),
             st_mtime (fs e) (Py.path_join dir file))))
        (filter (is_image dir) (listdir (fs e) dir)).
Proof.
  intros Hview. unfold out_of_date_entries. cbn [flat_map]. rewrite app_nil_r.
  induction (listdir (fs e) dir) as [|file rest IH]; [reflexivity|].
  cbn [flat_map filter]. rewrite IH, (scan_file_fresh e d dir file Hview).
  destruct (is_image dir file); reflexivity.
Qed.

Lemma set_file_same (d : database) : set_file d (file d) = d.
Proof. destruct d. reflexivity. Qed.

Lemma in_number {A B : Type} (mk : Z -> A -> B) (l : list A) (k : Z) (b : B) :
  In b (number mk k l) -> exists j a, In a l /\ b = mk j a.
Proof.
  revert k. induction l as [|a l IH]; intros k H; [destruct H|].
  destruct H as [<-|H]; [exists k, a; split; [left|]; reflexivity|].
  destruct (IH _ H) as [j [a' [Ha' ->]]]. exists j, a'. split; [right; exact Ha'|reflexivity].
Qed.

Lemma file_row_name (e : env) (fid : Z) (dir : string) (k : Z) (pic : string) :
  is_image dir pic = true -> shown_name (file_row e fid dir k pic) = pic.
Proof. intros H. apply (image_name_parts dir pic H). Qed.

(** A batch of new pictures of one folder, none of them recorded yet: the
    File table grows by one row for each, numbered in the order of the
    batch. *)
Lemma first_file_batch (e : env) (dir : string) (fid : Z) (imgs : list string) :
  forall s,
    Sql.select_folder_id (db s) dir = Some fid ->
    (forall pic, In pic imgs -> is_image dir pic = true) ->
    NoDup imgs ->
    (forall f pic, In f (file (db s)) -> In pic imgs -> shown_name f <> pic) ->
    executemany_file
      (map (fun pic => (dir, fst (Py.splitext pic), Py.lstrip_dot (snd (Py.splitext pic)),
                        st_mtime (fs e) (Py.path_join dir pic))) imgs) s
    = (Return tt,
       set_db s (set_file (db s)
                   (file (db s)
                    ++ number (file_row e fid dir)
                         (new_rowid (map File.file_id (file (db s)))) imgs))).
Proof.
  induction imgs as [|pic rest IH]; intros s Hsel Himg Hnd Hfree.
  - cbn [map executemany_file number]. rewrite app_nil_r, set_file_same, set_db_same.
    reflexivity.
  - cbn [map executemany_file number]. unfold Sql.insert_or_replace_file. rewrite Hsel.
    cbv zeta.
    rewrite (filter_all _ (file (db s))).
    2:{ intros f Hf. apply negb_true_iff, not_true_is_false. intros Hsame.
        unfold Sql.same_triple in Hsame. cbn [File.folder_id File.basename File.extension] in Hsame.
        apply andb_true_iff in Hsame. destruct Hsame as [_ Hsame].
        apply andb_true_iff in Hsame. destruct Hsame as [Hb Hx].
        apply String.eqb_eq in Hb, Hx.
        apply (Hfree f pic Hf (or_introl eq_refl)).
        unfold shown_name. rewrite Hb, Hx.
        apply (image_name_parts dir pic). apply Himg. left. reflexivity. }
    rewrite IH.
    + cbn [db set_db file set_file]. rewrite map_app. cbn [map File.file_id].
      rewrite new_rowid_next, <- app_assoc. reflexivity.
    + exact Hsel.
    + intros p Hp. apply Himg. right. exact Hp.
    + inversion Hnd. assumption.
    + cbn [db set_db file set_file]. intros f p Hf Hp.
      apply in_app_or in Hf. destruct Hf as [Hf|[<-|[]]].
      * apply Hfree; [exact Hf|right; exact Hp].
      * change (shown_name (file_row e fid dir (new_rowid (map File.file_id (file (db s)))) pic) <> p).
        rewrite file_row_name by (apply Himg; left; reflexivity).
        inversion Hnd as [|? ? Hnot _]. intros ->. exact (Hnot Hp).
Qed.

Lemma string_app_inv_head (a b c : string) : (a ++ b)%string = (a ++ c)%string -> b = c.
Proof. induction a as [|x a IH]; cbn; intros H; [exact H|]. injection H as H. exact (IH H). Qed.

(** The metadata of that batch: no picture of it has a Meta row, so every
    upsert takes the next id of the Meta table, which is the id of the
    picture as long as the two tables are numbered in step. *)
Lemma first_meta_batch (e : env) (dir : string) (fid : Z) (g : Folder.row) (imgs : list string) :
  forall (l : list (string * Meta.row)) (pre : list File.row) (d : database),
    folder d = [g] -> Folder.name g = dir ->
    file d = (pre ++ number (file_row e fid dir) (new_rowid (map Meta.file_id (meta d))) imgs)%list ->
    (forall f pic, In f pre -> In pic imgs -> shown_name f <> pic) ->
    NoDup imgs ->
    (forall pic, In pic imgs -> is_image dir pic = true) ->
    map fst l = map (fun pic => (dir ++ "/" ++ pic)%string) imgs ->
    meta (fold_left Sql.insert_or_replace_meta l d)
    = (meta d ++ number meta_row (new_rowid (map Meta.file_id (meta d))) (map snd l))%list
    /\ folder (fold_left Sql.insert_or_replace_meta l d) = folder d
    /\ file (fold_left Sql.insert_or_replace_meta l d) = file d
    /\ location (fold_left Sql.insert_or_replace_meta l d) = location d.
Proof.
  induction imgs as [|pic rest IH]; intros l pre d Hfolder Hname Hfile Hpre Hnd Himg Hl.
  - destruct l; [|discriminate]. cbn [fold_left map number]. rewrite app_nil_r. auto.
  - destruct l as [|[fn m] l]; [discriminate|]. cbn [map fst] in Hl.
    injection Hl as Hfn Hl. subst fn. cbn [fold_left map snd number].
    set (k := new_rowid (map Meta.file_id (meta d))) in *.
    assert (Hnull : Sql.select_file_id d (dir ++ "/" ++ pic) = None).
    { unfold Sql.select_file_id.
      destruct (Sql.select_fname d (dir ++ "/" ++ pic)) as [r|] eqn:E; [|reflexivity].
      apply find_some in E. destruct E as [Hr Hnm]. apply String.eqb_eq in Hnm.
      apply in_all_data in Hr. destruct Hr as [Hf [Hg [_ [Hm _]]]].
      rewrite Hfolder in Hg. destruct Hg as [Hg|[]].
      unfold AllData.fname in Hnm. rewrite <- Hg, Hname in Hnm.
      apply string_app_inv_head in Hnm. cbn in Hnm. injection Hnm as Hnm.
      change (shown_name (AllData.r_file r) = pic) in Hnm.
      unfold AllData.file_id. destruct (AllData.r_meta r) as [m0|]; [exfalso|reflexivity].
      apply in_left_join in Hm. destruct Hm as [Hm0 Hon].
      unfold on_meta in Hon. apply Z.eqb_eq in Hon.
      assert (Hlt : Meta.file_id m0 < k) by (apply new_rowid_fresh, in_map, Hm0).
      rewrite Hfile in Hf. apply in_app_or in Hf. destruct Hf as [Hf|Hf].
      - apply (Hpre _ pic Hf (or_introl eq_refl) Hnm).
      - cbn [number] in Hf. destruct Hf as [Hf|Hf].
        + rewrite <- Hf in Hon. cbn [file_row File.file_id] in Hon. lia.
        + apply in_number in Hf. destruct Hf as [j [p [Hp Hf]]].
          rewrite Hf, file_row_name in Hnm by (apply Himg; right; exact Hp).
          subst p. inversion Hnd as [|? ? Hnot _]. exact (Hnot Hp). }
    assert (Hstep : Sql.insert_or_replace_meta d ((dir ++ "/" ++ pic)%string, m)
                    = set_meta d (meta d ++ [meta_row k m])).
    { unfold Sql.insert_or_replace_meta. rewrite Hnull. cbv zeta. fold k.
      rewrite (filter_all _ (meta d)); [reflexivity|].
      intros x Hx. apply negb_true_iff, Z.eqb_neq.
      assert (Hlt : Meta.file_id x < k) by (apply new_rowid_fresh, in_map, Hx). lia. }
    change (dir ++ String "/"%char pic)%string with (dir ++ "/" ++ pic)%string.
    rewrite Hstep.
    assert (Hk : new_rowid (map Meta.file_id (meta (set_meta d (meta d ++ [meta_row k m]))))
                 = k + 1).
    { cbn [meta set_meta]. rewrite map_app. cbn [map meta_row Meta.file_id].
      apply new_rowid_next. }
    destruct (IH l (pre ++ [file_row e fid dir k pic])%list
                 (set_meta d (meta d ++ [meta_row k m]))) as [H1 [H2 [H3 H4]]].
    + exact Hfolder.
    + exact Hname.
    + rewrite Hk. cbn [file set_meta]. rewrite Hfile, <- app_assoc. reflexivity.
    + intros f p Hf Hp. apply in_app_or in Hf. destruct Hf as [Hf|[<-|[]]].
      * apply Hpre; [exact Hf|right; exact Hp].
      * rewrite file_row_name by (apply Himg; left; reflexivity).
        inversion Hnd as [|? ? Hnot _]. intros ->. exact (Hnot Hp).
    + inversion Hnd. assumption.
    + intros p Hp. apply Himg. right. exact Hp.
    + exact Hl.
    + rewrite H1, H2, H3, H4, Hk. cbn [meta folder file location set_meta].
      rewrite <- app_assoc. auto.
Qed.

Lemma number_keys {A B : Type} (mk : Z -> A -> B) (id : B -> Z) (l : list A) :
  (forall j a, id (mk j a) = j) ->
  forall k, NoDup (map id (number mk k l))
            /\ forall b, In b (number mk k l) -> k <= id b.
Proof.
  intros Hid. induction l as [|a l IH]; intros k; cbn [number map].
  - split; [constructor|intros b []].
  - destruct (IH (k + 1)) as [Hnd Hle]. split.
    + constructor; [|exact Hnd]. rewrite Hid. intros Hin.
      apply in_map_iff in Hin. destruct Hin as [b [Hb Hin]].
      apply Hle in Hin. lia.
    + intros b [<-|Hb]; [rewrite Hid; lia|]. apply Hle in Hb. lia.
Qed.

Lemma number_same_ids {A1 A2 B1 B2 : Type} (mk1 : Z -> A1 -> B1) (mk2 : Z -> A2 -> B2)
    (id1 : B1 -> Z) (id2 : B2 -> Z) (l1 : list A1) (l2 : list A2) :
  (forall j a, id1 (mk1 j a) = j) -> (forall j a, id2 (mk2 j a) = j) ->
  List.length l1 = List.length l2 ->
  forall k, map id1 (number mk1 k l1) = map id2 (number mk2 k l2).
Proof.
  intros H1 H2. revert l2. induction l1 as [|a l1 IH]; intros [|b l2] Hlen k;
    try discriminate; [reflexivity|].
  cbn [number map]. rewrite H1, H2. f_equal. apply IH. injection Hlen as Hlen. exact Hlen.
Qed.

(** The [k]-th picture of a batch and the [k]-th values written for it carry
    the same key. *)
Lemma number_zip {B1 B2 : Type} (mk1 : Z -> string -> B1) (mk2 : Z -> Meta.row -> B2)
    (h : string -> string) (imgs : list string) :
  forall (l : list (string * Meta.row)) (k : Z) (pic : string),
    map fst l = map h imgs -> In pic imgs ->
    exists j m, In (mk1 j pic) (number mk1 k imgs)
                /\ In (h pic, m) l
                /\ In (mk2 j m) (number mk2 k (map snd l)).
Proof.
  induction imgs as [|p imgs IH]; intros l k pic Hl Hin; [destruct Hin|].
  destruct l as [|[fn m] l]; [discriminate|]. cbn [map fst] in Hl. injection Hl as Hfn Hl.
  destruct Hin as [->|Hin].
  - exists k, m. cbn [number map snd]. subst fn. repeat split; left; reflexivity.
  - destruct (IH l (k + 1) pic Hl Hin) as [j [m' [H1 [H2 H3]]]].
    exists j, m'. cbn [number map snd]. repeat split; right; assumption.
Qed.

Lemma collect_meta_shape (e : env) (files : list string) :
  forall l, collect_meta e files = Return l ->
    map fst l = files /\ forall p, In p l -> get_exif_info e (fst p) = Return (snd p).
Proof.
  induction files as [|f files IH]; intros l H; cbn [collect_meta] in H.
  - injection H as <-. split; [reflexivity|intros p []].
  - destruct (get_exif_info e f) as [m|x] eqn:Em; [|discriminate].
    destruct (collect_meta e files) as [l0|x]; [|discriminate].
    injection H as <-. destruct (IH l0 eq_refl) as [H1 H2]. split.
    + cbn [map fst]. rewrite H1. reflexivity.
    + intros p [<-|Hp]; [exact Em|apply H2, Hp].
Qed.

Lemma delete_folder_keeps_meta (d : database) (i : Z) (f : File.row) (m : Meta.row) :
  NoDup (map File.file_id (file d)) ->
  In f (file (Sql.delete_folder d i)) -> In m (meta d) ->
  Meta.file_id m = File.file_id f -> In m (meta (Sql.delete_folder d i)).
Proof.
  rewrite delete_folder_eq.
  destruct (existsb (fun g => Z.eqb (Folder.folder_id g) i) (folder d)); [|auto].
  unfold without_folder. cbn [file meta]. intros Hnd Hf Hm Hid.
  apply filter_In in Hf. destruct Hf as [Hf Hkeep]. apply negb_true_iff in Hkeep.
  apply filter_In. split; [exact Hm|]. apply negb_true_iff, not_true_is_false. intros Hany.
  unfold meta_of_any in Hany. apply existsb_exists in Hany.
  destruct Hany as [old [Hold Heq]]. apply Z.eqb_eq in Heq.
  apply filter_In in Hold. destruct Hold as [Hold Hin].
  assert (old = f) by (apply (NoDup_map_inj File.file_id (file d)); auto; congruence).
  subst old. congruence.
Qed.

Lemma delete_file_keeps_meta (d : database) (o : option Z) (f : File.row) (m : Meta.row) :
  NoDup (map File.file_id (file d)) ->
  In f (file (Sql.delete_file d o)) -> In m (meta d) ->
  Meta.file_id m = File.file_id f -> In m (meta (Sql.delete_file d o)).
Proof.
  destruct o as [i|]; [|auto]. rewrite delete_file_eq.
  destruct (existsb (fun f => Z.eqb (File.file_id f) i) (file d)); [|auto].
  unfold without_file. cbn [file meta]. intros _ Hf Hm Hid.
  apply filter_In in Hf. destruct Hf as [_ Hkeep].
  apply filter_In. split; [exact Hm|]. rewrite Hid. exact Hkeep.
Qed.

Lemma statements_keep_meta {A : Type} (stmt : database -> A -> database) (l : list A) :
  (forall d a, rows_deleted (folder (stmt d a)) (folder d)
               /\ rows_deleted (file (stmt d a)) (file d)
               /\ rows_deleted (meta (stmt d a)) (meta d)) ->
  (forall d a f m, NoDup (map File.file_id (file d)) ->
     In f (file (stmt d a)) -> In m (meta d) ->
     Meta.file_id m = File.file_id f -> In m (meta (stmt d a))) ->
  forall d f m, NoDup (map File.file_id (file d)) ->
    In f (file (fold_left stmt l d)) -> In m (meta d) ->
    Meta.file_id m = File.file_id f -> In m (meta (fold_left stmt l d)).
Proof.
  intros Hdel Hstep. induction l as [|a l IH]; intros d f m Hnd Hf Hm Hid;
    cbn [fold_left] in *; [exact Hm|].
  destruct (Hdel d a) as [_ [Hfile _]].
  destruct (statements_delete stmt l Hdel (stmt d a)) as [_ [Hrest _]].
  apply (IH _ f); [eapply rows_deleted_keys; eassumption|exact Hf| |exact Hid].
  apply (Hstep _ _ f); [exact Hnd| |exact Hm|exact Hid].
  apply (rows_deleted_incl _ _ Hrest). exact Hf.
Qed.

(** The purge takes the metadata of the pictures it removes, and of no
    other picture. *)
Lemma purge_keeps_meta (e : env) (d : database) (f : File.row) (m : Meta.row) :
  NoDup (map File.file_id (file d)) ->
  In f (file (purge e d)) -> In m (meta d) ->
  Meta.file_id m = File.file_id f -> In m (meta (purge e d)).
Proof.
  rewrite purge_unfold.
  set (d1 := fold_left Sql.delete_folder
               (map Folder.folder_id (filter (missing_folder e) (folder d))) d).
  intros Hnd Hf Hm Hid.
  destruct (statements_delete Sql.delete_folder
              (map Folder.folder_id (filter (missing_folder e) (folder d)))
              delete_folder_deletes d) as [_ [K2 _]].
  fold d1 in K2.
  destruct (statements_delete Sql.delete_file
              (map AllData.file_id (filter (missing_file e) (all_data d1)))
              delete_file_deletes d1) as [_ [H2 _]].
  apply (statements_keep_meta Sql.delete_file _ delete_file_deletes delete_file_keeps_meta
           d1 f);
    [eapply rows_deleted_keys; eassumption|exact Hf| |exact Hid].
  apply (statements_keep_meta Sql.delete_folder _ delete_folder_deletes
           delete_folder_keeps_meta d f); [exact Hnd| |exact Hm|exact Hid].
  apply (rows_deleted_incl _ _ H2). exact Hf.
Qed.

(** X15. The first update cycle on a new database, when it completes,
    leaves every picture it recorded with metadata under the picture's own
    id, and records every picture of the folder it scanned that is on disk,
    with its modification time and the metadata extracted from it, each
    value as the affinity of its column stores it (an ISO speed given as the
    text 100 is the real 100.0, a rating given as the text 3 the integer 3).
    The folder is named without a trailing slash and lists no name twice. *)
Theorem first_cycle_records_metadata (e : env) (mf files : list string) (s1 : cache_state) :
  update_cache e (init empty_db) = (Return (mf, files), s1) ->
  (forall dir, In dir mf ->
     dir <> ""%string /\ Py.endswith_slash dir = false
     /\ NoDup (listdir (fs e) dir)
     /\ forall pic, In pic (listdir (fs e) dir) -> Py.startswith pic "/" = false) ->
  (forall r, In r (all_data (db s1)) ->
     AllData.file_id r = Some (File.file_id (AllData.r_file r)))
  /\ (forall dir pic,
        In dir mf -> In pic (listdir (fs e) dir) -> is_image dir pic = true ->
        path_exists (fs e) dir = true ->
        path_exists (fs e) (dir ++ "/" ++ pic) = true ->
        exists r m,
          In r (all_data (db s1))
          /\ AllData.fname r = (dir ++ "/" ++ pic)%string
          /\ AllData.last_modified r = st_mtime (fs e) (dir ++ "/" ++ pic)
          /\ get_exif_info e (dir ++ "/" ++ pic) = Return m
          /\ AllData.r_meta r = Some (meta_row (File.file_id (AllData.r_file r)) m)).
Proof.
  intros H Hdirs. unfold update_cache, bind in H. rewrite first_scan in H.
  destruct (walk (fs e)) as [|dir w].
  - cbn in H. injection H as <- <- <-. split; [intros r []|intros dir pic []].
  - set (g := Folder.mk 1 dir (inject_Z (Py.int (st_mtime (fs e) dir)))) in *.
    set (sA := mkstate (mkdb [g] [] [] []) false []) in *.
    destruct (Hdirs dir) as [Hne [Hslash [Hnd Habs]]].
    { destruct (update_modified_files e [dir] sA) as [[out|x] sB]; [|discriminate].
      destruct (update_meta_data e out sB) as [[u|x] sC]; [|discriminate].
      cbn in H. injection H as <- _ _. left. reflexivity. }
    rewrite update_modified_files_unfold in H.
    destruct (some_unreadable e [dir]); [discriminate|].
    rewrite (scan_files_fresh e (db sA) dir eq_refl), !map_map in H. cbn [fst snd] in H.
    set (imgs := filter (is_image dir) (listdir (fs e) dir)) in *.
    assert (Himgs : forall pic, In pic imgs -> is_image dir pic = true).
    { intros pic Hp. apply filter_In in Hp. apply Hp. }
    assert (Hndi : NoDup imgs) by (apply NoDup_filter, Hnd).
    assert (Hsel : Sql.select_folder_id (db sA) dir = Some 1).
    { unfold Sql.select_folder_id, Sql.select_folder. cbn [db sA folder find g Folder.name].
      rewrite String.eqb_refl. reflexivity. }
    rewrite (first_file_batch e dir 1 imgs sA Hsel Himgs Hndi) in H by (intros f pic []).
    cbn [db sA file set_db set_file app map new_rowid folder meta location] in H.
    unfold update_meta_data in H.
    destruct (collect_meta e (map (fun x => Py.path_join dir x) imgs)) as [l|x] eqn:El;
      [|discriminate].
    apply collect_meta_shape in El. destruct El as [Hfst Hexif].
    assert (Hpaths : map (fun x => Py.path_join dir x) imgs
                     = map (fun pic => (dir ++ "/" ++ pic)%string) imgs).
    { apply map_ext_in. intros pic Hp. apply filter_In in Hp. destruct Hp as [Hp _].
      apply path_join_plain; auto. }
    rewrite Hpaths in Hfst.
    set (dB := mkdb [g] (number (file_row e 1 dir) 1 imgs) [] []) in *.
    change (set_file (mkdb [g] [] [] []) (number (file_row e 1 dir) 1 imgs)) with dB in H.
    destruct (first_meta_batch e dir 1 g imgs l [] dB eq_refl eq_refl eq_refl) as
      [M1 [M2 [M3 M4]]]; [intros f pic []|exact Hndi|exact Himgs|exact Hfst|].
    cbn [meta dB app map new_rowid folder file location] in M1, M2, M3, M4.
    unfold purge_missing_files_and_folders, bind, get_db, put_db, ret in H.
    cbn [db set_db first_run geo_log] in H. injection H as <- <- <-.
    cbn [db set_db].
    set (dC := fold_left Sql.insert_or_replace_meta l dB) in *.
    assert (Hlen : List.length imgs = List.length (map snd l)).
    { rewrite length_map, <- (length_map fst l), Hfst, length_map. reflexivity. }
    assert (Hfkeys : NoDup (map File.file_id (file dC))).
    { rewrite M3. apply (number_keys (file_row e 1 dir) File.file_id imgs); reflexivity. }
    assert (Hmkeys : NoDup (map Meta.file_id (meta dC))).
    { rewrite M1. apply (number_keys meta_row Meta.file_id (map snd l)); reflexivity. }
    assert (Hids : map File.file_id (file dC) = map Meta.file_id (meta dC)).
    { rewrite M1, M3. apply number_same_ids; auto. }
    split.
    + intros r Hr. apply in_all_data in Hr. destruct Hr as [Hf [_ [_ [Hm _]]]].
      destruct (purge_deletes e dC) as [_ [Dfile _]].
      assert (Hin : In (File.file_id (AllData.r_file r)) (map Meta.file_id (meta dC))).
      { rewrite <- Hids. apply in_map. apply (rows_deleted_incl _ _ Dfile). exact Hf. }
      apply in_map_iff in Hin. destruct Hin as [m [Hid Hmin]].
      pose proof (purge_keeps_meta e dC _ m Hfkeys Hf Hmin Hid) as Hkept.
      unfold AllData.file_id. destruct (AllData.r_meta r) as [m'|].
      * apply in_left_join in Hm. destruct Hm as [_ Hon]. unfold on_meta in Hon.
        apply Z.eqb_eq in Hon. cbn [option_map]. congruence.
      * apply in_left_join in Hm.
        assert (Hc : In m (filter (on_meta (AllData.r_file r)) (meta (purge e dC)))).
        { apply filter_In. split; [exact Hkept|]. unfold on_meta. apply Z.eqb_eq.
          congruence. }
        rewrite Hm in Hc. destruct Hc.
    + intros dir' pic [<-|[]] Hpic Himg Hdir Hfile.
      assert (Hp : In pic imgs) by (apply filter_In; auto).
      destruct (number_zip (file_row e 1 dir) meta_row
                  (fun pic => (dir ++ "/" ++ pic)%string) imgs l 1 pic Hfst Hp)
        as [j [m [Hf [Hl Hm]]]].
      rewrite <- M3 in Hf. rewrite <- M1 in Hm.
      set (f := file_row e 1 dir j pic) in *.
      assert (Hg : missing_folder e g = false).
      { unfold missing_folder. cbn [g Folder.name]. rewrite Hdir. reflexivity. }
      assert (Hfk : In f (file (purge e dC))).
      { rewrite purge_unfold. rewrite M2. cbn [filter]. rewrite Hg. cbn [map fold_left].
        destruct (delete_files_tables
                    (map AllData.file_id (filter (missing_file e) (all_data dC))) dC)
          as [_ [-> _]].
        apply filter_In. split; [exact Hf|].
        apply negb_true_iff, not_true_is_false. intros Hex.
        apply existsb_exists in Hex. destruct Hex as [o [Ho Heq]].
        apply in_map_iff in Ho. destruct Ho as [r' [<- Hr']].
        apply filter_In in Hr'. destruct Hr' as [Hr' Hmiss].
        apply in_all_data in Hr'. destruct Hr' as [Hf' [Hg' [_ [Hm' _]]]].
        unfold AllData.file_id in Heq.
        destruct (AllData.r_meta r') as [m'|] eqn:Em'; [|discriminate].
        cbn [option_map value_eqb] in Heq. apply Z.eqb_eq in Heq.
        apply in_left_join in Hm'. destruct Hm' as [_ Hon]. unfold on_meta in Hon.
        apply Z.eqb_eq in Hon.
        assert (Hsame : AllData.r_file r' = f).
        { apply (NoDup_map_inj File.file_id (file dC)); auto. congruence. }
        rewrite M2 in Hg'. destruct Hg' as [Hg'|[]].
        unfold missing_file, AllData.fname in Hmiss. rewrite Hsame, <- Hg' in Hmiss.
        cbn [g Folder.name] in Hmiss.
        change (File.basename f ++ "." ++ File.extension f)%string
          with (shown_name f) in Hmiss.
        unfold f in Hmiss. rewrite (file_row_name e 1 dir j pic Himg), Hfile in Hmiss.
        discriminate. }
      assert (Hgk : In g (folder (purge e dC))).
      { rewrite purge_folders_with_keys; rewrite M2; [|repeat constructor; intros []].
        cbn [filter]. rewrite Hg. left. reflexivity. }
      destruct (all_data_has_row (purge e dC) f g Hfk Hgk eq_refl) as [r [Hr [Hrf Hrg]]].
      exists r, m. split; [exact Hr|].
      split.
      { unfold AllData.fname. rewrite Hrf, Hrg. cbn [g Folder.name].
        change (File.basename f ++ "." ++ File.extension f)%string with (shown_name f).
        unfold f. rewrite (file_row_name e 1 dir j pic Himg). reflexivity. }
      split.
      { unfold AllData.last_modified. rewrite Hrf. cbn [f file_row File.last_modified].
        rewrite path_join_plain; auto. }
      split; [apply (Hexif _ Hl)|].
      rewrite Hrf. cbn [f file_row File.file_id].
      pose proof (purge_keeps_meta e dC f _ Hfkeys Hfk Hm eq_refl) as Hkept.
      apply in_all_data in Hr. destruct Hr as [_ [_ [_ [Hrm _]]]]. rewrite Hrf in Hrm.
      destruct (AllData.r_meta r) as [m'|].
      * apply in_left_join in Hrm. destruct Hrm as [Hin' Hon]. unfold on_meta in Hon.
        apply Z.eqb_eq in Hon. f_equal.
        destruct (purge_deletes e dC) as [_ [_ Dmeta]].
        apply (NoDup_map_inj Meta.file_id (meta dC)); auto.
        apply (rows_deleted_incl _ _ Dmeta). exact Hin'.
      * apply in_left_join in Hrm.
        assert (Hc : In (meta_row j m) (filter (on_meta f) (meta (purge e dC)))).
        { apply filter_In. split; [exact Hkept|]. unfold on_meta. apply Z.eqb_eq.
          reflexivity. }
        rewrite Hrm in Hc. destruct Hc.
Qed.

Lemma first_cycle_records_metadata_witness :
  fst (update_cache Samples.env_tagged (init empty_db))
  = Return (["/p"%string], ["/p/a.jpg"%string; "/p/b.jpg"%string])
  /\ get_exif_info Samples.env_tagged "/p/b.jpg"%string
     = Return (Meta.mk 0 1 100 (VInt 4) (VReal (1 # 250)) (VText "100") VNull
                       (VText "Canon") VNull VNull (VText "3") None None 4000 3000)
  /\ meta_row 2 (Meta.mk 0 1 100 (VInt 4) (VReal (1 # 250)) (VText "100") VNull
                         (VText "Canon") VNull VNull (VText "3") None None 4000 3000)
     = Meta.mk 2 1 100 (VReal 4) (VText "0.004") (VReal 100) VNull
               (VText "Canon") VNull VNull (VInt 3) None None 4000 3000
  /\ exists r m,
       In r (all_data (db (snd (update_cache Samples.env_tagged (init empty_db)))))
       /\ AllData.fname r = "/p/b.jpg"%string
       /\ get_exif_info Samples.env_tagged "/p/b.jpg"%string = Return m
       /\ AllData.r_meta r = Some (meta_row (File.file_id (AllData.r_file r)) m).
Proof.
  split; [vm_compute; reflexivity|]. split; [vm_compute; reflexivity|].
  split; [vm_compute; reflexivity|].
  assert (H : update_cache Samples.env_tagged (init empty_db)
              = (Return (["/p"%string], ["/p/a.jpg"%string; "/p/b.jpg"%string]),
                 snd (update_cache Samples.env_tagged (init empty_db))))
    by (vm_compute; reflexivity).
  assert (Hd : forall dir, In dir ["/p"%string] ->
                 dir <> ""%string /\ Py.endswith_slash dir = false
                 /\ NoDup (listdir (fs Samples.env_tagged) dir)
                 /\ forall pic, In pic (listdir (fs Samples.env_tagged) dir) ->
                      Py.startswith pic "/" = false).
  { intros dir [<-|[]]. split; [discriminate|]. split; [reflexivity|]. split.
    - cbn. repeat constructor; cbn; intuition discriminate.
    - intros pic Hp. cbn in Hp. destruct Hp as [<-|[<-|[<-|[]]]]; reflexivity. }
  destruct (proj2 (first_cycle_records_metadata Samples.env_tagged _ _ _ H Hd)
              "/p"%string "b.jpg"%string)
    as [r [m [H1 [H2 [_ [H3 H4]]]]]];
    [left; reflexivity|cbn; auto|reflexivity|reflexivity|reflexivity|].
  exists r, m. auto.
Defined.

(** ** After a failed cycle *)

Lemma folder_out_of_date_by_folders (e : env) (d d' : database) (dir : string) :
  folder d' = folder d -> folder_out_of_date e d' dir = folder_out_of_date e d dir.
Proof.
  intros H. unfold folder_out_of_date, Sql.select_folder. rewrite H. reflexivity.
Qed.

(** A cycle ended by an exception has recorded its folders all the same. *)
Lemma failed_cycle_folders (e : env) (s : cache_state) (x : exn) :
  fst (update_cache e s) = Raise x ->
  folder (db (snd (update_cache e s))) = folder (db (snd (update_modified_folders e s)))
  /\ meta (db (snd (update_cache e s))) = meta (db s).
Proof.
  unfold update_cache, bind.
  pose proof (update_modified_folders_meta e s) as HmA.
  destruct (update_modified_folders e s) as [[mf|y] sA] eqn:EA.
  2:{ rewrite update_modified_folders_unfold in EA. discriminate. }
  cbn [snd] in HmA |- *.
  destruct (update_modified_files e mf sA) as [[mfiles|y] sB] eqn:EB;
    destruct (update_modified_files_other_tables _ _ _ _ _ EB) as [FB [MB _]].
  2:{ cbn [fst snd]. intros _. split; congruence. }
  unfold update_meta_data.
  destruct (collect_meta e mfiles) as [l|y].
  - unfold purge_missing_files_and_folders, bind, get_db, put_db, ret. cbn [fst]. discriminate.
  - cbn [fst snd]. intros _. split; congruence.
Qed.

(** X16. A cycle that an exception ends is not made up for by the next
    one.  Past the first run, the folders the cycle reported are recorded as
    up to date before any of their pictures is looked at; so when an
    exception ends the cycle, with no Meta row written, a further
    [update_cache] on the same disk reports no folder and no file and does
    nothing but purge. *)
Theorem failed_cycle_not_retried (e : env) (s : cache_state) (x : exn) :
  first_run s = false ->
  fst (update_cache e s) = Raise x ->
  let s1 := snd (update_cache e s) in
  meta (db s1) = meta (db s)
  /\ update_cache e s1 = (Return ([], []), set_db s1 (purge e (db s1))).
Proof.
  intros Hflag Hx s1.
  destruct (failed_cycle_folders e s x Hx) as [Hfolder Hmeta]. fold s1 in Hfolder, Hmeta.
  assert (Hquiet : forall d, folder d = folder (db s1) ->
                     forall dir, In dir (walk (fs e)) -> folder_out_of_date e d dir = false).
  { intros d Hd dir Hdir.
    destruct (update_modified_folders e s) as [[mf|y] sA] eqn:EA.
    2:{ rewrite update_modified_folders_unfold in EA. discriminate. }
    cbn [snd] in Hfolder.
    assert (HflagA : first_run sA = first_run s).
    { rewrite update_modified_folders_unfold in EA. cbv zeta in EA. injection EA as _ <-.
      cbn [first_run]. rewrite Hflag, scan_folders_whole_tree. reflexivity. }
    destruct (folders_recorded_after_scan e s sA mf EA HflagA dir Hdir) as [g [Hg [_ Hlt]]].
    rewrite (folder_out_of_date_by_folders e (db sA) d) by congruence.
    unfold folder_out_of_date. rewrite Hg. exact Hlt. }
  split; [exact Hmeta|].
  apply update_cache_quiet. apply Hquiet. reflexivity.
Qed.

Lemma failed_cycle_not_retried_witness :
  fst (update_cache Samples.env_p (mkstate empty_db false [])) = Raise ValueError
  /\ file (db (snd (update_cache Samples.env_p (mkstate empty_db false []))))
     = [File.mk 1 1 "a" "jpg" 100; File.mk 2 1 "b" "jpg" 100]
  /\ meta (db (snd (update_cache Samples.env_p (mkstate empty_db false [])))) = []
  /\ fst (update_cache Samples.env_p
            (snd (update_cache Samples.env_p (mkstate empty_db false []))))
     = Return ([], []).
Proof.
  assert (Hx : fst (update_cache Samples.env_p (mkstate empty_db false [])) = Raise ValueError)
    by (vm_compute; reflexivity).
  destruct (failed_cycle_not_retried Samples.env_p (mkstate empty_db false []) ValueError
              eq_refl Hx) as [H1 H2].
  split; [exact Hx|]. split; [vm_compute; reflexivity|]. split; [exact H1|].
  rewrite H2. reflexivity.
Defined.

(** ** What a scan leaves for a picture *)






(** ** Whole seconds for folders, exact times for pictures *)





(** ** A folder removed from the disk *)









